(** * Authentication routes of the content backend: a shallow embedding

    The development follows [src/routes/auth.py] (and the in-memory store of
    [src/models/database.py]).  Python values are embedded as a small
    universe of dynamically typed values, user documents and JSON request
    bodies as finite maps from keys to such values, the in-memory [users]
    collection as a list of documents that is updated by index, and Python
    exceptions as an explicit [result] type.  Every route is wrapped in
    [try ... except Exception], which is modelled by [handle]. *)

From Stdlib Require Import ZArith NArith List String Ascii Bool Lia.
From stdpp Require Import base option gmap strings list fin_maps pretty.

Local Open Scope string_scope.
Local Open Scope list_scope.
Local Open Scope Z_scope.

(** ** Python values *)

(** A Python [str] is a sequence of code points; [bytes] is a sequence of
    octets.  Both are lists of [N]. *)

Inductive pyval :=
| PNone
| PBool (b : bool)
| PInt (z : Z)
| PStr (s : list N)
| PBytes (b : list N)
| PDatetime (t : Z).

#[global] Instance pyval_eq_dec : EqDecision pyval.
Proof. solve_decision. Defined.

(** Documents ([dict] with string keys). *)
Abbreviation dict := (gmap string pyval).

(** A [str] literal of the source, as code points. *)
Definition lit (s : string) : list N :=
  map N_of_ascii (list_ascii_of_string s).

(** Truth value of an object, as used by [not x] and [x and y]. *)
Definition truthy (v : pyval) : bool :=
  match v with
  | PNone => false
  | PBool b => b
  | PInt z => negb (z =? 0)
  | PStr s => negb (Nat.eqb (length s) 0)
  | PBytes b => negb (Nat.eqb (length b) 0)
  | PDatetime _ => true
  end.

(** ** Exceptions *)

Inductive exn :=
| KeyError (key : string)
| TypeError
| AttributeError
| UnicodeEncodeError
| ValueError (msg : string).

Inductive result (A : Type) :=
| Ok (a : A)
| Raise (e : exn).
Arguments Ok {A} a.
Arguments Raise {A} e.

#[global] Instance result_ret : MRet result := fun A a => Ok a.
#[global] Instance result_bind : MBind result := fun A B f r =>
  match r with
  | Ok a => f a
  | Raise e => Raise e
  end.

(** [d[k]] raises [KeyError] on a missing key; [d.get(k)] yields [None] and
    [d.get(k, v)] yields [v]. *)
Definition getitem (d : dict) (k : string) : result pyval :=
  match d !! k with
  | Some v => Ok v
  | None => Raise (KeyError k)
  end.

Definition dict_get (d : dict) (k : string) : pyval := default PNone (d !! k).

Definition dict_get_default (d : dict) (k : string) (v : pyval) : pyval :=
  default v (d !! k).

(** ** Library functions the routes call

    [re]'s [\d] follows the Unicode decimal-digit table and [str.lower] the
    Unicode case tables; [bcrypt] and [flask_jwt_extended] are external
    packages.  They are taken as an interface; what the routes rely on for
    ASCII input is stated in [LibsSpec]. *)

Class Libs := {
  (** the Unicode table behind [\d] in a [str] pattern *)
  uni_isdecimal : N -> bool;
  (** [str.lower] *)
  str_lower : list N -> list N;
  (** [bcrypt.hashpw(password, salt)] *)
  bcrypt_hashpw : list N -> list N -> result (list N);
  (** [bcrypt.checkpw(password, hashed_password)] *)
  bcrypt_checkpw : list N -> pyval -> result bool;
  (** [create_access_token(identity=..., expires_delta=...)], the delta in
      microseconds *)
  create_access_token : list N -> Z -> list N;
  (** [str(x)] for an [x] that is not already a [str] *)
  str_other : pyval -> list N
}.

Definition is_AZ (c : N) : bool := ((65 <=? c) && (c <=? 90))%N.
Definition is_az (c : N) : bool := ((97 <=? c) && (c <=? 122))%N.
Definition is_09 (c : N) : bool := ((48 <=? c) && (c <=? 57))%N.

Definition ascii_lower (c : N) : N :=
  if is_AZ c then (c + 32)%N else c.

Class LibsSpec (L : Libs) := {
  isdecimal_ascii : forall c, (c < 128)%N -> uni_isdecimal c = is_09 c;
  lower_ascii : forall s, Forall (fun c => (c < 128)%N) s ->
                          str_lower s = map ascii_lower s
}.

(** ** Builtins on values *)

Definition py_len (v : pyval) : result nat :=
  match v with
  | PStr s => Ok (length s)
  | PBytes b => Ok (length b)
  | _ => Raise TypeError
  end.

(** [re.search(r'[...]', x) ] for a one-character class: a match object
    exists iff some character of the string is in the class; anything but a
    [str] is a [TypeError]. *)
Definition re_search_class (cls : N -> bool) (v : pyval) : result bool :=
  match v with
  | PStr s => Ok (existsb cls s)
  | _ => Raise TypeError
  end.

(** [str.encode('utf-8')]: lone surrogates are refused. *)
Definition utf8_char (c : N) : result (list N) :=
  (if c <? 0x80 then Ok [c]
   else if c <? 0x800 then Ok [0xC0 + c / 64; 0x80 + c mod 64]
   else if (0xD800 <=? c) && (c <=? 0xDFFF) then Raise UnicodeEncodeError
   else if c <? 0x10000 then
     Ok [0xE0 + c / 4096; 0x80 + (c / 64) mod 64; 0x80 + c mod 64]
   else
     Ok [0xF0 + c / 262144; 0x80 + (c / 4096) mod 64;
         0x80 + (c / 64) mod 64; 0x80 + c mod 64])%N.

Fixpoint utf8 (s : list N) : result (list N) :=
  match s with
  | [] => Ok []
  | c :: s' => b ← utf8_char c; bs ← utf8 s'; Ok (b ++ bs)
  end.

Definition str_encode (v : pyval) : result (list N) :=
  match v with
  | PStr s => utf8 s
  | _ => Raise AttributeError
  end.

(** [x.lower()] and [x.strip()] exist on [str]; the JSON values the routes
    receive that are not strings have no such attribute. *)
Definition str_method (f : list N -> list N) (v : pyval) : result (list N) :=
  match v with
  | PStr s => Ok (f s)
  | _ => Raise AttributeError
  end.

(** The characters [str.strip()] removes ([str.isspace]). *)
Definition is_space (c : N) : bool :=
  ((9 <=? c) && (c <=? 13) || (28 <=? c) && (c <=? 32)
   || (c =? 0x85) || (c =? 0xA0) || (c =? 0x1680)
   || (0x2000 <=? c) && (c <=? 0x200A)
   || (c =? 0x2028) || (c =? 0x2029) || (c =? 0x202F)
   || (c =? 0x205F) || (c =? 0x3000))%N.

Fixpoint lstrip (s : list N) : list N :=
  match s with
  | [] => []
  | c :: s' => if is_space c then lstrip s' else s
  end.

Definition str_strip (s : list N) : list N := rev (lstrip (rev (lstrip s))).

(** [==] between values: numbers compare by value ([True == 1]), values of
    different kinds are unequal. *)
Definition int_of_bool (b : bool) : Z := if b then 1 else 0.

Definition py_eq (a b : pyval) : bool :=
  match a, b with
  | PNone, PNone => true
  | PBool x, PBool y => Bool.eqb x y
  | PBool x, PInt y => int_of_bool x =? y
  | PInt x, PBool y => x =? int_of_bool y
  | PInt x, PInt y => x =? y
  | PStr x, PStr y => bool_decide (x = y)
  | PBytes x, PBytes y => bool_decide (x = y)
  | PDatetime x, PDatetime y => x =? y
  | _, _ => false
  end.

(** [x + n] for an [int] literal [n]. *)
Definition py_add_int (v : pyval) (n : Z) : result Z :=
  match v with
  | PInt z => Ok (z + n)
  | PBool b => Ok (int_of_bool b + n)
  | _ => Raise TypeError
  end.

(** [x > now] for a [datetime] [now]; instants are microseconds. *)
Definition py_gt_datetime (v : pyval) (now : Z) : result bool :=
  match v with
  | PDatetime t => Ok (now <? t)
  | _ => Raise TypeError
  end.

Definition minutes (n : Z) : Z := n * 60 * 1000000.
Definition hours (n : Z) : Z := minutes (60 * n).

(** ** Regular expressions, by derivatives *)

Inductive regex :=
| RNull
| REps
| RClass (cls : N -> bool)
| RSeq (r1 r2 : regex)
| RAlt (r1 r2 : regex)
| RStar (r : regex).

Fixpoint nullable (r : regex) : bool :=
  match r with
  | RNull => false
  | REps => true
  | RClass _ => false
  | RSeq r1 r2 => nullable r1 && nullable r2
  | RAlt r1 r2 => nullable r1 || nullable r2
  | RStar _ => true
  end.

Fixpoint deriv (c : N) (r : regex) : regex :=
  match r with
  | RNull => RNull
  | REps => RNull
  | RClass cls => if cls c then REps else RNull
  | RSeq r1 r2 =>
      if nullable r1 then RAlt (RSeq (deriv c r1) r2) (deriv c r2)
      else RSeq (deriv c r1) r2
  | RAlt r1 r2 => RAlt (deriv c r1) (deriv c r2)
  | RStar r1 => RSeq (deriv c r1) (RStar r1)
  end.

Definition accepts (r : regex) (s : list N) : bool :=
  nullable (fold_left (fun r c => deriv c r) s r).

Definition RPlus (r : regex) : regex := RSeq r (RStar r).
Definition RChar (c : N) : regex := RClass (N.eqb c).

(** A final [$] matches at the end of the string and before a newline that
    ends the string. *)
Definition REnd : regex := RAlt REps (RChar 10).

(** ** Credential validation *)

Definition email_local (c : N) : bool :=
  (is_az c || is_AZ c || is_09 c
   || (c =? 46) || (c =? 95) || (c =? 37) || (c =? 43) || (c =? 45))%N.

Definition email_domain (c : N) : bool :=
  (is_az c || is_AZ c || is_09 c || (c =? 46) || (c =? 45))%N.

Definition email_alpha (c : N) : bool := is_az c || is_AZ c.

(** [^[a-zA-Z0-9._%+-]+@[a-zA-Z0-9.-]+\.[a-zA-Z]{2,}$] *)
Definition email_pattern : regex :=
  RSeq (RPlus (RClass email_local))
 (RSeq (RChar 64)
 (RSeq (RPlus (RClass email_domain))
 (RSeq (RChar 46)
 (RSeq (RClass email_alpha) (RSeq (RPlus (RClass email_alpha)) REnd))))).

(** [validate_email], lines 11-14. *)
Definition validate_email (email : pyval) : result bool :=
  match email with
  | PStr s => Ok (accepts email_pattern s)
  | _ => Raise TypeError
  end.

Section Validation.
Context {L : Libs}.

(** [validate_password], lines 16-26. *)
Definition validate_password (password : pyval) : result (bool * string) :=
  n ← py_len password;
  if (n <? 8)%nat then
    Ok (false, "Password must be at least 8 characters long")
  else
    up ← re_search_class is_AZ password;
    if negb up then
      Ok (false, "Password must contain at least one uppercase letter")
    else
      lo ← re_search_class is_az password;
      if negb lo then
        Ok (false, "Password must contain at least one lowercase letter")
      else
        dg ← re_search_class uni_isdecimal password;
        if negb dg then
          Ok (false, "Password must contain at least one number")
        else
          Ok (true, "Password is valid").

(** [hash_password], lines 28-31; [salt] is what [bcrypt.gensalt()]
    returned for this call. *)
Definition hash_password (salt : list N) (password : pyval) : result (list N) :=
  pw ← str_encode password; bcrypt_hashpw pw salt.

(** [check_password], lines 33-35. *)
Definition check_password (password hashed : pyval) : result bool :=
  pw ← str_encode password; bcrypt_checkpw pw hashed.

(** [str(x)] *)
Definition py_str (v : pyval) : list N :=
  match v with
  | PStr s => s
  | PInt z => lit (pretty z)
  | _ => str_other v
  end.

End Validation.

(** ** Responses *)

Inductive error_text :=
| Msg (s : string)
| StrOfExn (e : exn).

Record user_view := {
  view_id : list N;
  view_name : pyval;
  view_email : pyval;
  view_user_type : pyval
}.

Inductive body :=
| Failure (error : error_text)
| RegisterData (user_id : list N) (access_token : list N) (user : user_view)
| LoginData (access_token : list N) (user : user_view)
| SuccessMessage (message : string).

Record response := { status : Z; payload : body }.

Definition failure (code : Z) (error : string) : response :=
  {| status := code; payload := Failure (Msg error) |}.

(** ** The in-memory store

    [InMemoryDB.users] is a list of documents.  A route runs against the
    current list, may replace it, and may raise; what was written before an
    exception stays written.  The routes are followed along their
    [hasattr(db, 'users')] branch, whose code is in the repository; the other
    branch hands the same lookups and updates to the MongoDB driver.  Values
    are the scalars above: a JSON body with nested lists or objects, or with
    floats, is outside the model. *)

Definition route (A : Type) : Type := list dict -> result A * list dict.

#[global] Instance route_ret : MRet route := fun A a db => (Ok a, db).
#[global] Instance route_bind : MBind route := fun A B f m db =>
  match m db with
  | (Ok a, db') => f a db'
  | (Raise e, db') => (Raise e, db')
  end.

Definition lift {A} (r : result A) : route A := fun db => (r, db).
Definition read_users : route (list dict) := fun db => (Ok db, db).
Definition write_users (f : list dict -> list dict) : route unit :=
  fun db => (Ok tt, f db).

(** [try: ... except Exception as e: return jsonify(error=str(e)), 500] *)
Definition handle (m : route response) (db : list dict) : response * list dict :=
  match m db with
  | (Ok r, db') => (r, db')
  | (Raise e, db') => ({| status := 500; payload := Failure (StrOfExn e) |}, db')
  end.

(** [next((u for u in db.users if u[key] == x), None)] *)
Fixpoint find_user (key : string) (x : pyval) (users : list dict)
  : result (option dict) :=
  match users with
  | [] => Ok None
  | u :: us =>
      v ← getitem u key;
      if py_eq v x then Ok (Some u) else find_user key x us
  end.

(** [next((i for i, u in enumerate(db.users) if u[key] == x), None)],
    counting from [i]. *)
Fixpoint find_index_from (i : nat) (key : string) (x : pyval) (users : list dict)
  : result (option nat) :=
  match users with
  | [] => Ok None
  | u :: us =>
      v ← getitem u key;
      if py_eq v x then Ok (Some i) else find_index_from (S i) key x us
  end.

Definition find_index := find_index_from 0.

(** [any(u['email'] == x for u in db.users)] *)
Fixpoint any_email (x : pyval) (users : list dict) : result bool :=
  match users with
  | [] => Ok false
  | u :: us =>
      v ← getitem u "email";
      if py_eq v x then Ok true else any_email x us
  end.

(** [for key, value in update_data.items(): d[key] = value] *)
Definition set_items (update_data : list (string * pyval)) (d : dict) : dict :=
  fold_left (fun d kv => <[kv.1 := kv.2]> d) update_data d.

(** The update block of [login]: the index is searched again by email and
    the document at that index is updated in place. *)
Definition update_by_email (email : pyval) (update_data : list (string * pyval))
  : route unit :=
  users ← read_users;
  user_index ← lift (find_index "email" email users);
  match user_index with
  | Some i => write_users (alter (set_items update_data) i)
  | None => mret tt
  end.

(** [not user] for the result of a lookup: [None] and the empty document
    are false. *)
Definition not_user (user : option dict) : bool :=
  match user with
  | None => true
  | Some u => bool_decide (u = ∅)
  end.

(** [field not in data or not data[field]] *)
Definition field_missing (data : dict) (field : string) : bool :=
  match data !! field with
  | None => true
  | Some v => negb (truthy v)
  end.

Fixpoint first_missing (data : dict) (fields : list string) : option string :=
  match fields with
  | [] => None
  | f :: fs => if field_missing data f then Some f else first_missing data fs
  end.

(** ** The routes *)

Section Routes.
Context {L : Libs}.

Definition normalize_email (email : pyval) : result (list N) :=
  lowered ← str_method str_lower email; Ok (str_strip lowered).

(** [register], lines 37-134.  [salt] is the salt drawn by
    [bcrypt.gensalt()], [now] the reading of [datetime.now()] for
    [created_at]. *)
Definition register_body (salt : list N) (now : Z) (data : dict) : route response :=
  match first_missing data ["name"; "email"; "password"] with
  | Some field => mret (failure 400 ("Missing required field: " +:+ field))
  | None =>
    email_ok ← lift (e ← getitem data "email"; validate_email e);
    if negb email_ok then mret (failure 400 "Invalid email format") else
    '(is_valid, message) ← lift (p ← getitem data "password"; validate_password p);
    if negb is_valid then mret (failure 400 message) else
    hashed_password ← lift (p ← getitem data "password"; hash_password salt p);
    name ← lift (n ← getitem data "name"; str_method str_strip n);
    email ← lift (e ← getitem data "email"; normalize_email e);
    let user : dict :=
      <["locked_until" := PNone]>
      (<["failed_login_attempts" := PInt 0]>
      (<["last_login" := PNone]>
      (<["created_at" := PDatetime now]>
      (<["status" := PStr (lit "active")]>
      (<["auth_method" := PStr (lit "local")]>
      (<["user_type" := dict_get_default data "user_type" (PStr (lit "member"))]>
      (<["password" := PBytes hashed_password]>
      (<["email" := PStr email]>
      (<["name" := PStr name]> ∅))))))))) in
    users ← read_users;
    taken ← lift (any_email (PStr email) users);
    if (taken : bool) then mret (failure 400 "Email already registered") else
    let user_id := lit (pretty (length users + 1)%nat) in
    let user := <["_id" := PStr user_id]> user in
    _ ← write_users (fun users => users ++ [user]);
    let access_token := create_access_token user_id (hours 24) in
    mret {| status := 201;
            payload := RegisterData user_id access_token
              {| view_id := user_id;
                 view_name := PStr name;
                 view_email := PStr email;
                 view_user_type := dict_get_default data "user_type" (PStr (lit "member")) |} |}
  end.

Definition register (salt : list N) (now : Z) (data : dict) (db : list dict)
  : response * list dict :=
  handle (register_body salt now data) db.

(** The lock test of line 167:
    [user.get('locked_until') and user['locked_until'] > datetime.now()]. *)
Definition is_locked (user : dict) (now : Z) : result bool :=
  if truthy (dict_get user "locked_until") then
    v ← getitem user "locked_until"; py_gt_datetime v now
  else Ok false.

(** The public view returned by [login]; the document is read key by key. *)
Definition login_view (user : dict) : result (list N * user_view) :=
  id ← getitem user "_id";
  let user_id := py_str id in
  name ← getitem user "name";
  email ← getitem user "email";
  user_type ← getitem user "user_type";
  Ok (user_id, {| view_id := user_id; view_name := name;
                  view_email := email; view_user_type := user_type |}).

(** [login] from the lock test on (lines 166-242), for the document [user]
    found under [email].  [t_check] is the reading of [datetime.now()] in
    the lock test, [t_write] the reading taken when the update is built
    (line 180 or line 209). *)
Definition login_attempt (t_check t_write : Z) (email : list N)
  (password : pyval) (user : dict) : route response :=
  locked ← lift (is_locked user t_check);
  if (locked : bool) then
    mret (failure 423 "Account temporarily locked due to failed login attempts")
  else
  password_ok ← lift (hashed ← getitem user "password";
                      check_password password hashed);
  if negb password_ok then
    failed_attempts ←
      lift (py_add_int (dict_get_default user "failed_login_attempts" (PInt 0)) 1);
    let update_data :=
      if 5 <=? failed_attempts then
        [("failed_login_attempts", PInt failed_attempts);
         ("locked_until", PDatetime (t_write + minutes 30))]
      else [("failed_login_attempts", PInt failed_attempts)] in
    _ ← update_by_email (PStr email) update_data;
    mret (failure 401 "Invalid email or password")
  else
    let update_data :=
      [("failed_login_attempts", PInt 0);
       ("locked_until", PNone);
       ("last_login", PDatetime t_write)] in
    _ ← update_by_email (PStr email) update_data;
    (* [user] is the very document that was just updated in the list *)
    '(user_id, view) ← lift (login_view (set_items update_data user));
    let access_token := create_access_token user_id (hours 24) in
    mret {| status := 200; payload := LoginData access_token view |}.

(** [login], lines 136-248. *)
Definition login_body (t_check t_write : Z) (data : dict) : route response :=
  if negb (truthy (dict_get data "email")) || negb (truthy (dict_get data "password"))
  then mret (failure 400 "Email and password are required") else
  email ← lift (e ← getitem data "email"; normalize_email e);
  password ← lift (getitem data "password");
  users ← read_users;
  found ← lift (find_user "email" (PStr email) users);
  match found with
  | None => mret (failure 401 "Invalid email or password")
  | Some user =>
    if not_user found then mret (failure 401 "Invalid email or password")
    else login_attempt t_check t_write email password user
  end.

Definition login (t_check t_write : Z) (data : dict) (db : list dict)
  : response * list dict :=
  handle (login_body t_check t_write data) db.

(** [change_password], lines 291-357.  [identity] is what
    [get_jwt_identity()] returned, [salt] the salt drawn for the new hash. *)
Definition change_password_body (salt : list N) (identity : pyval) (data : dict)
  : route response :=
  if negb (truthy (dict_get data "current_password"))
     || negb (truthy (dict_get data "new_password"))
  then mret (failure 400 "Current password and new password are required") else
  '(is_valid, message) ← lift (p ← getitem data "new_password"; validate_password p);
  if negb is_valid then mret (failure 400 message) else
  users ← read_users;
  found ← lift (find_user "_id" identity users);
  user_index ← lift (find_index "_id" identity users);
  match found with
  | None => mret (failure 404 "User not found")
  | Some user =>
    if not_user found then mret (failure 404 "User not found") else
    password_ok ← lift (current ← getitem data "current_password";
                        hashed ← getitem user "password";
                        check_password current hashed);
    if negb password_ok then mret (failure 401 "Current password is incorrect") else
    new_hashed_password ← lift (p ← getitem data "new_password";
                                hash_password salt p);
    _ ← match user_index with
        | Some i => write_users (alter (<["password" := PBytes new_hashed_password]>) i)
        | None => lift (Raise TypeError)
        end;
    mret {| status := 200; payload := SuccessMessage "Password changed successfully" |}
  end.

Definition change_password (salt : list N) (identity : pyval) (data : dict)
  (db : list dict) : response * list dict :=
  handle (change_password_body salt identity data) db.

(** Successive calls of [login] against the same store, each with its two
    clock readings and its request body. *)
Fixpoint login_seq (attempts : list (Z * Z * dict)) (db : list dict)
  : list response * list dict :=
  match attempts with
  | [] => ([], db)
  | (t_check, t_write, data) :: rest =>
      let (r, db1) := login t_check t_write data db in
      let (rs, db2) := login_seq rest db1 in
      (r :: rs, db2)
  end.

(** A request body that passes the check of line 143: [email] is the
    normalised address of line 149, [password] the value of line 150. *)
Definition login_request (data : dict) (email : list N) (password : pyval) : Prop :=
  truthy (dict_get data "email") = true
  /\ normalize_email (dict_get data "email") = Ok email
  /\ dict_get data "password" = password
  /\ truthy password = true.

End Routes.

(** ** A toy instance of the library interface

    Used to run the routes on concrete requests: digits are the ASCII and the
    Arabic-Indic ones, lowering touches ASCII letters only, and the password
    scheme keeps the four-byte salt in front of the password.  Like
    [bcrypt], its check raises on a hash it cannot parse and on a hash that
    is not [bytes]. *)

Module Toy.

Definition isdecimal (c : N) : bool :=
  (is_09 c || (0x660 <=? c) && (c <=? 0x669))%N.

Definition hashpw (password salt : list N) : result (list N) :=
  if Nat.eqb (length salt) 4 then Ok (salt ++ password)
  else Raise (ValueError "Invalid salt").

Definition checkpw (password : list N) (hashed : pyval) : result bool :=
  match hashed with
  | PBytes h =>
      if (length h <? 4)%nat then Raise (ValueError "Invalid salt")
      else Ok (bool_decide (drop 4 h = password))
  | _ => Raise TypeError
  end.

Definition str_of (v : pyval) : list N :=
  match v with
  | PNone => lit "None"
  | PBool true => lit "True"
  | PBool false => lit "False"
  | _ => lit "<object>"
  end.

Definition libs : Libs := {|
  uni_isdecimal := isdecimal;
  str_lower := map ascii_lower;
  bcrypt_hashpw := hashpw;
  bcrypt_checkpw := checkpw;
  create_access_token := fun identity _ => lit "token:" ++ identity;
  str_other := str_of
|}.

Definition salt : list N := [1; 2; 3; 4]%N.

(** A registration request and the store it produces from an empty one. *)
Definition request (name email password : string) : dict :=
  <["name" := PStr (lit name)]>
  (<["email" := PStr (lit email)]>
  (<["password" := PStr (lit password)]> ∅)).

Definition credentials (email password : string) : dict :=
  <["email" := PStr (lit email)]> (<["password" := PStr (lit password)]> ∅).

Definition db1 : list dict :=
  (register (L := libs) salt 1000 (request "Ann" "User@Example.com" "Valid1Pass") []).2.

(** Ann's document, and its hash. *)
Definition ann : dict := default ∅ (head db1).
Definition ann_hash : pyval := PBytes (salt ++ lit "Valid1Pass").

(** A body for [change_password]. *)
Definition change (current new : string) : dict :=
  <["current_password" := PStr (lit current)]>
  (<["new_password" := PStr (lit new)]> ∅).

(** Five logins with a wrong password, at the instants 10, 20, ..., 50
    (lock test) and one later (update). *)
Definition five_wrong : list (Z * Z * dict) :=
  map (fun t => (t, t + 1, credentials "user@example.com" "wrong"))
      [10; 20; 30; 40; 50].

End Toy.

(** * The other routes

    [get_profile] of [auth.py], the user routes of [users.py], the contact
    routes of [contacts.py] and the blog routes of [blog.py], with the
    helpers they call.  They answer with plain JSON objects, modelled by
    [json_response]. *)

Inductive json_body :=
| JFailure (error : error_text)
| JDocs (data : list dict)
| JDoc (data : dict)
| JMessage (message : string).

Record json_response := { jstatus : Z; jbody : json_body }.

Definition jfailure (code : Z) (error : string) : json_response :=
  {| jstatus := code; jbody := JFailure (Msg error) |}.

(** [except Exception as e: return jsonify(error=str(e)), 500] *)
Definition handle_json (m : route json_response) (db : list dict)
  : json_response * list dict :=
  match m db with
  | (Ok r, db') => (r, db')
  | (Raise e, db') => ({| jstatus := 500; jbody := JFailure (StrOfExn e) |}, db')
  end.

(** [blog.py] hides the exception:
    [except Exception as e: return jsonify(error='Internal server error'), 500] *)
Definition handle_blog (m : route json_response) (db : list dict)
  : json_response * list dict :=
  match m db with
  | (Ok r, db') => (r, db')
  | (Raise e, db') => (jfailure 500 "Internal server error", db')
  end.

(** [jsonify] serialises every value of the universe but [bytes]. *)
Definition jsonable (v : pyval) : bool :=
  match v with
  | PBytes _ => false
  | _ => true
  end.

Definition jsonify_doc (d : dict) : result dict :=
  if forallb (fun kv : string * pyval => jsonable kv.2) (map_to_list d)
  then Ok d else Raise TypeError.

Fixpoint jsonify_docs (ds : list dict) : result (list dict) :=
  match ds with
  | [] => Ok []
  | d :: ds' => d' ← jsonify_doc d; ds'' ← jsonify_docs ds'; Ok (d' :: ds'')
  end.

(** [field not in data], for the required fields of [users.py] and
    [contacts.py]. *)
Fixpoint first_absent (data : dict) (fields : list string) : option string :=
  match fields with
  | [] => None
  | f :: fs =>
      match data !! f with
      | None => Some f
      | Some _ => first_absent data fs
      end
  end.

(** The documents of a store all carry the position-based id the in-memory
    branches hand out, [str(len(collection) + 1)]. *)
Fixpoint ids_from (n : nat) (db : list dict) : bool :=
  match db with
  | [] => true
  | d :: ds =>
      bool_decide (d !! "_id" = Some (PStr (lit (pretty n)))) && ids_from (S n) ds
  end.

Definition ids_sequential (db : list dict) : bool := ids_from 1 db.

Section MoreRoutes.
Context {L : Libs}.

(** ** [auth.py]: the profile *)

(** [get_profile], lines 250-289; [identity] is what [get_jwt_identity()]
    returned. *)
Definition get_profile_body (identity : pyval) : route json_response :=
  users ← read_users;
  found ← lift (find_user "_id" identity users);
  match found with
  | None => mret (jfailure 404 "User not found")
  | Some user =>
    if not_user found then mret (jfailure 404 "User not found") else
    user_data ← lift (
      id ← getitem user "_id";
      name ← getitem user "name";
      email ← getitem user "email";
      user_type ← getitem user "user_type";
      created_at ← getitem user "created_at";
      jsonify_doc
        (<["last_login" := dict_get user "last_login"]>
        (<["created_at" := created_at]>
        (<["user_type" := user_type]>
        (<["email" := email]>
        (<["name" := name]>
        (<["id" := PStr (py_str id)]> ∅)))))));
    mret {| jstatus := 200; jbody := JDoc user_data |}
  end.

Definition get_profile (identity : pyval) (db : list dict)
  : json_response * list dict :=
  handle_json (get_profile_body identity) db.

(** ** [users.py] *)

(** [get_users], lines 8-35.  [users] is the stored list itself, so
    [user.pop('password', None)] removes the key from the stored documents.
    The ids of the in-memory store are strings, never [ObjectId]s. *)
Definition get_users_body : route json_response :=
  _ ← write_users (map (delete "password"));
  users ← read_users;
  data ← lift (jsonify_docs users);
  mret {| jstatus := 200; jbody := JDocs data |}.

Definition get_users (db : list dict) : json_response * list dict :=
  handle_json get_users_body db.

(** [create_user], lines 37-97. *)
Definition create_user_body (now : Z) (data : dict) : route json_response :=
  match first_absent data ["name"; "email"] with
  | Some field => mret (jfailure 400 ("Missing required field: " +:+ field))
  | None =>
    name ← lift (getitem data "name");
    email ← lift (getitem data "email");
    let user : dict :=
      <["last_login" := PNone]>
      (<["created_at" := PDatetime now]>
      (<["status" := PStr (lit "active")]>
      (<["auth_method" := dict_get_default data "auth_method" (PStr (lit "auth0"))]>
      (<["user_type" := dict_get_default data "user_type" (PStr (lit "member"))]>
      (<["email" := email]>
      (<["name" := name]> ∅)))))) in
    users ← read_users;
    taken ← lift (any_email email users);
    if (taken : bool) then mret (jfailure 400 "Email already exists") else
    let user_id := lit (pretty (length users + 1)%nat) in
    _ ← write_users (fun users => users ++ [<["_id" := PStr user_id]> user]);
    mret {| jstatus := 201; jbody := JDoc {["_id" := PStr user_id]} |}
  end.

Definition create_user (now : Z) (data : dict) (db : list dict)
  : json_response * list dict :=
  handle_json (create_user_body now data) db.

(** [update_user], lines 99-146: [password] and [_id] are dropped from the
    body, every other pair of the body is written into the first document
    with that id. *)
Definition update_user_body (user_id : list N) (data : dict) : route json_response :=
  let data := delete "_id" (delete "password" data) in
  users ← read_users;
  user_index ← lift (find_index "_id" (PStr user_id) users);
  match user_index with
  | None => mret (jfailure 404 "User not found")
  | Some i =>
    _ ← write_users (alter (fun user : dict => data ∪ user) i);
    mret {| jstatus := 200; jbody := JMessage "User updated successfully" |}
  end.

Definition update_user (user_id : list N) (data : dict) (db : list dict)
  : json_response * list dict :=
  handle_json (update_user_body user_id data) db.

(** [update_last_login], lines 148-186. *)
Definition update_last_login_body (now : Z) (user_id : list N) : route json_response :=
  users ← read_users;
  user_index ← lift (find_index "_id" (PStr user_id) users);
  match user_index with
  | None => mret (jfailure 404 "User not found")
  | Some i =>
    _ ← write_users (alter (<["last_login" := PDatetime now]>) i);
    mret {| jstatus := 200; jbody := JMessage "Last login updated successfully" |}
  end.

Definition update_last_login (now : Z) (user_id : list N) (db : list dict)
  : json_response * list dict :=
  handle_json (update_last_login_body now user_id) db.

(** ** [contacts.py] *)

(** [get_contacts], lines 8-33. *)
Definition get_contacts_body : route json_response :=
  contacts ← read_users;
  data ← lift (jsonify_docs contacts);
  mret {| jstatus := 200; jbody := JDocs data |}.

Definition get_contacts (db : list dict) : json_response * list dict :=
  handle_json get_contacts_body db.

(** [create_contact], lines 35-79. *)
Definition create_contact_body (now : Z) (data : dict) : route json_response :=
  match first_absent data ["name"; "email"; "message"] with
  | Some field => mret (jfailure 400 ("Missing required field: " +:+ field))
  | None =>
    name ← lift (getitem data "name");
    email ← lift (getitem data "email");
    message ← lift (getitem data "message");
    let contact : dict :=
      <["created_at" := PDatetime now]>
      (<["status" := PStr (lit "new")]>
      (<["message" := message]>
      (<["company" := dict_get_default data "company" (PStr [])]>
      (<["email" := email]>
      (<["name" := name]> ∅))))) in
    contacts ← read_users;
    let contact_id := lit (pretty (length contacts + 1)%nat) in
    _ ← write_users (fun contacts => contacts ++ [<["_id" := PStr contact_id]> contact]);
    mret {| jstatus := 201; jbody := JDoc {["_id" := PStr contact_id]} |}
  end.

Definition create_contact (now : Z) (data : dict) (db : list dict)
  : json_response * list dict :=
  handle_json (create_contact_body now data) db.

(** [update_contact], lines 81-125: every pair of the body but [_id] is
    written into the first contact with that id. *)
Definition update_contact_body (contact_id : list N) (data : dict)
  : route json_response :=
  contacts ← read_users;
  contact_index ← lift (find_index "_id" (PStr contact_id) contacts);
  match contact_index with
  | None => mret (jfailure 404 "Contact not found")
  | Some i =>
    _ ← write_users (alter (fun contact : dict => delete "_id" data ∪ contact) i);
    mret {| jstatus := 200; jbody := JMessage "Contact updated successfully" |}
  end.

Definition update_contact (contact_id : list N) (data : dict) (db : list dict)
  : json_response * list dict :=
  handle_json (update_contact_body contact_id data) db.

(** [delete_contact], lines 127-162: [db.contacts.pop(contact_index)]. *)
Definition delete_contact_body (contact_id : list N) : route json_response :=
  contacts ← read_users;
  contact_index ← lift (find_index "_id" (PStr contact_id) contacts);
  match contact_index with
  | None => mret (jfailure 404 "Contact not found")
  | Some i =>
    _ ← write_users (delete i);
    mret {| jstatus := 200; jbody := JMessage "Contact deleted successfully" |}
  end.

Definition delete_contact (contact_id : list N) (db : list dict)
  : json_response * list dict :=
  handle_json (delete_contact_body contact_id) db.

End MoreRoutes.

(** ** [blog.py] *)

(** [str.replace(c, by)] for a one-character [c]. *)
Definition replace_char (c : N) (by_ : list N) (s : list N) : list N :=
  flat_map (fun x => if (x =? c)%N then by_ else [x]) s.

(** [html.escape(s)], with [quote=True]: [&] first, then [<], [>], the
    double and the single quote. *)
Definition html_escape (s : list N) : list N :=
  replace_char 39 (lit "&#x27;")
    (replace_char 34 (lit "&quot;")
      (replace_char 62 (lit "&gt;")
        (replace_char 60 (lit "&lt;")
          (replace_char 38 (lit "&amp;") s)))).

(** The class of the removal pattern: the two angle brackets and the two
    quotes. *)
Definition dangerous (c : N) : bool :=
  ((c =? 60) || (c =? 62) || (c =? 34) || (c =? 39))%N.

(** [re.sub(cls, '', s)] for a one-character class. *)
Definition re_sub_remove (cls : N -> bool) (s : list N) : list N :=
  filter (fun c => cls c = false) s.

(** [sanitize_input], lines 10-18. *)
Definition sanitize_input (text : pyval) : pyval :=
  match text with
  | PStr s => PStr (str_strip (re_sub_remove dangerous (html_escape s)))
  | _ => text
  end.

(** [not data.get(key) or len(data[key].strip()) < n] *)
Definition too_short (data : dict) (key : string) (n : nat) : result bool :=
  if negb (truthy (dict_get data key)) then Ok true
  else v ← getitem data key; s ← str_method str_strip v; Ok (length s <? n)%nat.

Definition categories : list pyval :=
  [PStr (lit "Tutorial"); PStr (lit "Artigo"); PStr (lit "Estudo de Caso")].

(** [not data.get('category') or data['category'] not in [...]] *)
Definition bad_category (data : dict) : result bool :=
  if negb (truthy (dict_get data "category")) then Ok true
  else v ← getitem data "category"; Ok (negb (existsb (py_eq v) categories)).

(** [validate_blog_post_data], lines 20-36. *)
Definition validate_blog_post_data (data : dict) : result (list string) :=
  t ← too_short data "title" 3;
  let errors := if (t : bool) then ["Title must be at least 3 characters long"] else [] in
  c ← too_short data "content" 10;
  let errors :=
    if (c : bool) then errors ++ ["Content must be at least 10 characters long"]
    else errors in
  g ← bad_category data;
  let errors :=
    if (g : bool)
    then errors ++ ["Category must be one of: Tutorial, Artigo, Estudo de Caso"]
    else errors in
  a ← too_short data "author" 2;
  let errors :=
    if (a : bool) then errors ++ ["Author must be at least 2 characters long"]
    else errors in
  Ok errors.

(** [not user or user.get('user_type') != 'admin'], for the result of the
    lookup of the caller among the users. *)
Definition not_admin (found : option dict) : bool :=
  match found with
  | None => true
  | Some user =>
      not_user found || negb (py_eq (dict_get user "user_type") (PStr (lit "admin")))
  end.

(** [not post_id or len(post_id) > 50] *)
Definition bad_post_id (post_id : list N) : bool :=
  Nat.eqb (length post_id) 0 || (50 <? length post_id)%nat.

(** [get_posts], lines 41-66: the published posts. *)
Definition get_posts_body : route json_response :=
  posts ← read_users;
  let published :=
    filter (fun post : dict =>
              py_eq (dict_get post "status") (PStr (lit "published")) = true) posts in
  data ← lift (jsonify_docs published);
  mret {| jstatus := 200; jbody := JDocs data |}.

Definition get_posts (posts : list dict) : json_response * list dict :=
  handle_blog get_posts_body posts.

(** [create_post], lines 152-216.  [users] is the user collection, which
    the route only reads; [now1] and [now2] are the two readings of
    [datetime.now()]. *)
Definition create_post_body (users : list dict) (identity : pyval)
  (now1 now2 : Z) (data : dict) : route json_response :=
  if bool_decide (data = ∅) then mret (jfailure 400 "No data provided") else
  found ← lift (find_user "_id" identity users);
  if not_admin found then mret (jfailure 403 "Admin access required") else
  errors ← lift (validate_blog_post_data data);
  match errors with
  | _ :: _ => mret (jfailure 400 (String.concat "; " errors))
  | [] =>
    title ← lift (getitem data "title");
    content ← lift (getitem data "content");
    category ← lift (getitem data "category");
    author ← lift (getitem data "author");
    let post : dict :=
      <["updated_at" := PDatetime now2]>
      (<["created_at" := PDatetime now1]>
      (<["status" := sanitize_input (dict_get_default data "status" (PStr (lit "draft")))]>
      (<["author" := sanitize_input author]>
      (<["category" := sanitize_input category]>
      (<["content" := sanitize_input content]>
      (<["title" := sanitize_input title]> ∅)))))) in
    posts ← read_users;
    let post_id := lit (pretty (length posts + 1)%nat) in
    _ ← write_users (fun posts => posts ++ [<["_id" := PStr post_id]> post]);
    mret {| jstatus := 201; jbody := JDoc {["_id" := PStr post_id]} |}
  end.

Definition create_post (users : list dict) (identity : pyval) (now1 now2 : Z)
  (data : dict) (posts : list dict) : json_response * list dict :=
  handle_blog (create_post_body users identity now1 now2 data) posts.

(** [update_post], lines 218-302: string values are sanitised again before
    they are written. *)
Definition update_post_body (users : list dict) (identity : pyval) (now : Z)
  (post_id : list N) (data : dict) : route json_response :=
  if bool_decide (data = ∅) then mret (jfailure 400 "No data provided") else
  if bad_post_id post_id then mret (jfailure 400 "Invalid post ID") else
  found ← lift (find_user "_id" identity users);
  if not_admin found then mret (jfailure 403 "Admin access required") else
  let sanitized_data : dict :=
    <["updated_at" := PDatetime now]> (sanitize_input <$> delete "_id" data) in
  posts ← read_users;
  post_index ← lift (find_index "_id" (PStr post_id) posts);
  match post_index with
  | None => mret (jfailure 404 "Post not found")
  | Some i =>
    _ ← write_users (alter (fun post : dict => sanitized_data ∪ post) i);
    mret {| jstatus := 200; jbody := JMessage "Post updated successfully" |}
  end.

Definition update_post (users : list dict) (identity : pyval) (now : Z)
  (post_id : list N) (data : dict) (posts : list dict)
  : json_response * list dict :=
  handle_blog (update_post_body users identity now post_id data) posts.

(** [delete_post], lines 304-367. *)
Definition delete_post_body (users : list dict) (identity : pyval)
  (post_id : list N) : route json_response :=
  if bad_post_id post_id then mret (jfailure 400 "Invalid post ID") else
  found ← lift (find_user "_id" identity users);
  if not_admin found then mret (jfailure 403 "Admin access required") else
  posts ← read_users;
  post_index ← lift (find_index "_id" (PStr post_id) posts);
  match post_index with
  | None => mret (jfailure 404 "Post not found")
  | Some i =>
    _ ← write_users (delete i);
    mret {| jstatus := 200; jbody := JMessage "Post deleted successfully" |}
  end.

Definition delete_post (users : list dict) (identity : pyval) (post_id : list N)
  (posts : list dict) : json_response * list dict :=
  handle_blog (delete_post_body users identity post_id) posts.

(** The keys [login] writes. *)
Definition lockout_keys : list string :=
  ["failed_login_attempts"; "locked_until"; "last_login"].

(** An ASCII character that [str.strip] leaves alone. *)
Definition plain (c : N) : Prop := (c < 128)%N /\ is_space c = false.

(** ** What the password scheme is expected to do

    A hash made by [bcrypt.hashpw] verifies the password it was made from. *)
Definition hash_verifies (L : Libs) : Prop :=
  forall password salt hashed,
    bcrypt_hashpw password salt = Ok hashed ->
    bcrypt_checkpw password (PBytes hashed) = Ok true.

(** ** Language of a regular expression *)

Inductive matches : regex -> list N -> Prop :=
| MEps : matches REps []
| MClass cls c : cls c = true -> matches (RClass cls) [c]
| MSeq r1 r2 s1 s2 : matches r1 s1 -> matches r2 s2 -> matches (RSeq r1 r2) (s1 ++ s2)
| MAltL r1 r2 s : matches r1 s -> matches (RAlt r1 r2) s
| MAltR r1 r2 s : matches r2 s -> matches (RAlt r1 r2) s
| MStarNil r : matches (RStar r) []
| MStarApp r s1 s2 :
    matches r s1 -> matches (RStar r) s2 -> matches (RStar r) (s1 ++ s2).

(** More toy data: an administrator and a member, and two contacts. *)
Module Sample.

Definition admin : dict :=
  <["_id" := PStr (lit "1")]>
  (<["name" := PStr (lit "Root")]>
  (<["email" := PStr (lit "root@example.com")]>
  (<["user_type" := PStr (lit "admin")]> ∅))).

Definition member : dict :=
  <["_id" := PStr (lit "2")]>
  (<["name" := PStr (lit "Bob")]>
  (<["email" := PStr (lit "bob@example.com")]>
  (<["user_type" := PStr (lit "member")]> ∅))).

Definition users : list dict := [admin; member].

Definition contact (id name : string) : dict :=
  <["_id" := PStr (lit id)]>
  (<["name" := PStr (lit name)]>
  (<["email" := PStr (lit "c@example.com")]>
  (<["message" := PStr (lit "hello")]> ∅))).

Definition contacts : list dict := [contact "1" "Carlos"; contact "2" "Ana"].

Definition posts : list dict :=
  [<["_id" := PStr (lit "1")]> (<["status" := PStr (lit "published")]> ∅);
   <["_id" := PStr (lit "2")]> (<["status" := PStr (lit "draft")]> ∅)].

Definition contact_request : dict :=
  <["name" := PStr (lit "Eve")]>
  (<["email" := PStr (lit "eve@example.com")]>
  (<["message" := PStr (lit "hi")]> ∅)).

Definition unlock_request : dict :=
  <["locked_until" := PNone]> (<["password" := PBytes []]> ∅).


Definition post_request (title : string) : dict :=
  <["title" := PStr (lit title)]>
  (<["content" := PStr (lit "Ten characters at least")]>
  (<["category" := PStr (lit "Tutorial")]>
  (<["author" := PStr (lit "Ana")]> ∅))).

End Sample.

(** * Properties *)

(** ** Lookups in the store *)

Lemma find_index_from_spec key x users : forall n u,
  find_user key x users = Ok (Some u) ->
  exists i, find_index_from n key x users = Ok (Some (n + i)%nat)
            /\ users !! i = Some u.
Proof.
  induction users as [|d ds IH]; intros n u; simpl; [discriminate|].
  destruct (getitem d key) as [v|e]; simpl; [|discriminate].
  destruct (py_eq v x).
  - intros [= <-]. exists 0%nat. by rewrite Nat.add_0_r.
  - intros Hf. destruct (IH (S n) u Hf) as (i & Hi & Hl).
    exists (S i). by rewrite Nat.add_succ_r.
Qed.

Lemma find_index_spec key x users u :
  find_user key x users = Ok (Some u) ->
  exists i, find_index key x users = Ok (Some i) /\ users !! i = Some u.
Proof. intros H. destruct (find_index_from_spec key x users 0 u H) as (i & ? & ?); eauto. Qed.

Lemma find_index_from_none key x users : forall n,
  find_user key x users = Ok None -> find_index_from n key x users = Ok None.
Proof.
  induction users as [|d ds IH]; intros n; simpl; [done|].
  destruct (getitem d key) as [v|e]; simpl; [|discriminate].
  destruct (py_eq v x); [discriminate|]. apply IH.
Qed.

Lemma find_user_has_key key x users u :
  find_user key x users = Ok (Some u) ->
  exists v, u !! key = Some v /\ py_eq v x = true.
Proof.
  induction users as [|d ds IH]; simpl; [discriminate|].
  unfold getitem at 1. destruct (d !! key) as [v|] eqn:Hk; simpl; [|discriminate].
  destruct (py_eq v x) eqn:Hv; [|exact IH].
  intros [= <-]. eauto.
Qed.

Lemma find_user_not_empty key x users u :
  find_user key x users = Ok (Some u) -> not_user (Some u) = false.
Proof.
  intros H. destruct (find_user_has_key _ _ _ _ H) as (v & Hv & _).
  simpl. apply bool_decide_eq_false. intros ->. by rewrite lookup_empty in Hv.
Qed.

(** Updating the found document in place keeps it the first match, as long as
    the key it was found by is left alone. *)
Lemma find_user_alter key x (f : dict -> dict) users : forall n u,
  find_user key x users = Ok (Some u) ->
  f u !! key = u !! key ->
  exists i, find_index_from n key x users = Ok (Some (n + i)%nat)
            /\ users !! i = Some u
            /\ alter f i users = <[i := f u]> users
            /\ find_user key x (alter f i users) = Ok (Some (f u)).
Proof.
  induction users as [|d ds IH]; intros n u; simpl; [discriminate|].
  unfold getitem at 1 2. destruct (d !! key) as [v|] eqn:Hk; simpl; [|discriminate].
  destruct (py_eq v x) eqn:Hv.
  - intros [= <-] Hf. exists 0%nat. rewrite Nat.add_0_r. simpl.
    unfold getitem. rewrite Hf, Hk. simpl. by rewrite Hv.
  - intros Hu Hf. destruct (IH (S n) u Hu Hf) as (i & Hi & Hl & Ha & Hfu).
    exists (S i). rewrite Nat.add_succ_r. simpl.
    unfold getitem at 1. rewrite Hk. simpl. rewrite Hv.
    change (list_alter f i ds) with (alter f i ds).
    repeat split; [exact Hi | exact Hl | by rewrite Ha | exact Hfu].
Qed.

Lemma truthy_getitem (d : dict) k :
  truthy (dict_get d k) = true -> getitem d k = Ok (dict_get d k).
Proof.
  unfold dict_get, getitem. destruct (d !! k); simpl; [done|discriminate].
Qed.

Section LoginFacts.
Context {L : Libs}.

(** The part of [login] that precedes the lock test. *)
Lemma login_reaches_user t_check t_write data db email password user :
  login_request data email password ->
  find_user "email" (PStr email) db = Ok (Some user) ->
  login t_check t_write data db =
  handle (login_attempt t_check t_write email password user) db.
Proof.
  intros (He & Hn & Hp & Hpt) Hf. subst password.
  unfold login, login_body. rewrite He, Hpt. simpl.
  unfold handle. f_equal.
  unfold mbind, route_bind, lift, read_users.
  rewrite !truthy_getitem by done. simpl. rewrite Hn, Hf.
  by rewrite (find_user_not_empty _ _ _ _ Hf).
Qed.

Lemma login_no_user t_check t_write data db email password :
  login_request data email password ->
  find_user "email" (PStr email) db = Ok None ->
  login t_check t_write data db = (failure 401 "Invalid email or password", db).
Proof.
  intros (He & Hn & Hp & Hpt) Hf. subst password.
  unfold login, login_body. rewrite He, Hpt. simpl.
  unfold handle, mbind, route_bind, lift, read_users.
  rewrite !truthy_getitem by done. simpl. by rewrite Hn, Hf.
Qed.

(** The update block: the document found under [email] is replaced, in
    place, by its updated version; it stays the document found under
    [email]. *)
Lemma update_by_email_spec email update_data db user :
  find_user "email" (PStr email) db = Ok (Some user) ->
  set_items update_data user !! "email" = user !! "email" ->
  exists i, db !! i = Some user
    /\ update_by_email (PStr email) update_data db
       = (Ok tt, <[i := set_items update_data user]> db)
    /\ find_user "email" (PStr email) (<[i := set_items update_data user]> db)
       = Ok (Some (set_items update_data user)).
Proof.
  intros Hf Hk.
  destruct (find_user_alter "email" (PStr email) (set_items update_data) db 0%nat
              user Hf Hk) as (i & Hi & Hl & Ha & Hfu).
  exists i. split; [done|]. rewrite <- Ha. split; [|done].
  unfold update_by_email, mbind, route_bind, lift, read_users, find_index.
  by rewrite Hi.
Qed.

Lemma attempt_locked t_check t_write email password user db :
  is_locked user t_check = Ok true ->
  handle (login_attempt t_check t_write email password user) db
  = (failure 423 "Account temporarily locked due to failed login attempts", db).
Proof.
  intros Hl. unfold handle, login_attempt, mbind, route_bind, lift.
  by rewrite Hl.
Qed.

Lemma attempt_wrong_password t_check t_write email password user db hashed n :
  find_user "email" (PStr email) db = Ok (Some user) ->
  is_locked user t_check = Ok false ->
  user !! "password" = Some hashed ->
  check_password password hashed = Ok false ->
  py_add_int (dict_get_default user "failed_login_attempts" (PInt 0)) 1 = Ok n ->
  let user' :=
    if 5 <=? n then
      <["locked_until" := PDatetime (t_write + minutes 30)]>
        (<["failed_login_attempts" := PInt n]> user)
    else <["failed_login_attempts" := PInt n]> user in
  exists i, db !! i = Some user
    /\ handle (login_attempt t_check t_write email password user) db
       = (failure 401 "Invalid email or password", <[i := user']> db)
    /\ find_user "email" (PStr email) (<[i := user']> db) = Ok (Some user').
Proof.
  intros Hf Hl Hp Hc Hn user'.
  set (update_data :=
    if 5 <=? n then
      [("failed_login_attempts", PInt n);
       ("locked_until", PDatetime (t_write + minutes 30))]
    else [("failed_login_attempts", PInt n)]).
  assert (Hu : set_items update_data user = user').
  { unfold update_data, user'. by destruct (5 <=? n). }
  destruct (update_by_email_spec email update_data db user Hf) as (i & Hi & Hupd & Hfu).
  { rewrite Hu. unfold user'. destruct (5 <=? n); by rewrite !lookup_insert_ne. }
  exists i. rewrite <- Hu. split; [done|]. split; [|done].
  unfold handle, login_attempt, mbind at 1 2 3 4, route_bind, lift.
  rewrite Hl. unfold getitem. rewrite Hp. simpl. rewrite Hc. simpl. rewrite Hn.
  fold update_data. by rewrite Hupd.
Qed.

Lemma attempt_right_password t_check t_write email password user db hashed :
  find_user "email" (PStr email) db = Ok (Some user) ->
  is_locked user t_check = Ok false ->
  user !! "password" = Some hashed ->
  check_password password hashed = Ok true ->
  let user' :=
    <["last_login" := PDatetime t_write]>
      (<["locked_until" := PNone]>
        (<["failed_login_attempts" := PInt 0]> user)) in
  exists i, db !! i = Some user
    /\ handle (login_attempt t_check t_write email password user) db
       = (match login_view user' with
          | Ok (user_id, view) =>
              {| status := 200;
                 payload := LoginData (create_access_token user_id (hours 24)) view |}
          | Raise e => {| status := 500; payload := Failure (StrOfExn e) |}
          end, <[i := user']> db)
    /\ find_user "email" (PStr email) (<[i := user']> db) = Ok (Some user').
Proof.
  intros Hf Hl Hp Hc user'.
  set (update_data := [("failed_login_attempts", PInt 0); ("locked_until", PNone);
                       ("last_login", PDatetime t_write)]).
  destruct (update_by_email_spec email update_data db user Hf) as (i & Hi & Hupd & Hfu).
  { simpl. by rewrite !lookup_insert_ne. }
  exists i. change (set_items update_data user) with user' in *.
  split; [done|]. split; [|done].
  unfold handle, login_attempt, mbind at 1 2 3 4, route_bind, lift.
  rewrite Hl. unfold getitem at 1. rewrite Hp. simpl. rewrite Hc. simpl.
  unfold mbind, route_bind. fold update_data. rewrite Hupd.
  subst user' update_data. simpl.
  by destruct (login_view _) as [[user_id view]|e].
Qed.

(** The lock test, read off the document. *)
Lemma is_locked_stale user now :
  (user !! "locked_until" = None \/ user !! "locked_until" = Some PNone
   \/ exists t, user !! "locked_until" = Some (PDatetime t) /\ t <= now) ->
  is_locked user now = Ok false.
Proof.
  unfold is_locked, dict_get, getitem.
  intros [-> | [-> | (t & -> & Ht)]]; simpl; try done.
  f_equal. apply Z.ltb_ge, Ht.
Qed.

Lemma is_locked_future user now t :
  user !! "locked_until" = Some (PDatetime t) -> now < t ->
  is_locked user now = Ok true.
Proof.
  unfold is_locked, dict_get, getitem. intros -> Ht. simpl.
  f_equal. by apply Z.ltb_lt.
Qed.

Lemma is_locked_true_inv user now :
  is_locked user now = Ok true ->
  exists t, user !! "locked_until" = Some (PDatetime t) /\ now < t.
Proof.
  unfold is_locked, dict_get, getitem.
  destruct (user !! "locked_until") as [v|]; simpl; [|discriminate].
  destruct (truthy v); [|discriminate]. simpl.
  destruct v; simpl; try discriminate.
  intros [= H]. exists t. split; [done|]. by apply Z.ltb_lt.
Qed.

(** ** C1 *)

(** C1. On an account that is not currently locked (no [locked_until], a
    [None] one, or one that is not after the instant of the lock test), a
    login with a wrong password answers 401 and stores the counter plus one in
    the account's document, all other documents untouched.  When the new
    count is at least 5 the document also gets
    [locked_until = now + 30 minutes], [now] being the instant read for the
    update, and the account is locked at every earlier instant; otherwise
    nothing but the counter changes, so [locked_until] is what it was (a
    stale lock stays, the counter is not reset) and the account is still
    unlocked. *)
Theorem login_wrong_password_counts
  t_check t_write data db email password user hashed c :
  login_request data email password ->
  find_user "email" (PStr email) db = Ok (Some user) ->
  (user !! "locked_until" = None \/ user !! "locked_until" = Some PNone
   \/ exists t, user !! "locked_until" = Some (PDatetime t) /\ t <= t_check) ->
  user !! "password" = Some hashed ->
  check_password password hashed = Ok false ->
  dict_get_default user "failed_login_attempts" (PInt 0) = PInt c ->
  exists i user',
    db !! i = Some user
    /\ login t_check t_write data db
       = (failure 401 "Invalid email or password", <[i := user']> db)
    /\ find_user "email" (PStr email) (<[i := user']> db) = Ok (Some user')
    /\ user' !! "failed_login_attempts" = Some (PInt (c + 1))
    /\ (5 <= c + 1 ->
        user' = <["locked_until" := PDatetime (t_write + 30 * 60 * 1000000)]>
                  (<["failed_login_attempts" := PInt (c + 1)]> user)
        /\ forall t, t < t_write + 30 * 60 * 1000000 -> is_locked user' t = Ok true)
    /\ (c + 1 < 5 ->
        user' = <["failed_login_attempts" := PInt (c + 1)]> user
        /\ user' !! "locked_until" = user !! "locked_until"
        /\ is_locked user' t_check = Ok false).
Proof.
  intros Hreq Hf Hlock Hp Hc Hcount.
  pose proof (is_locked_stale _ _ Hlock) as Hl.
  destruct (attempt_wrong_password t_check t_write email password user db hashed
              (c + 1) Hf Hl Hp Hc) as (i & Hi & Hrun & Hfu).
  { by rewrite Hcount. }
  rewrite <- (login_reaches_user _ _ _ _ _ _ _ Hreq Hf) in Hrun.
  eexists i, _. split; [exact Hi|]. split; [exact Hrun|]. split; [exact Hfu|].
  destruct (5 <=? c + 1) eqn:H5.
  - apply Z.leb_le in H5. split; [by rewrite lookup_insert_ne, lookup_insert_eq|].
    split; [|lia]. intros _. split; [done|].
    intros t Ht. apply (is_locked_future _ _ (t_write + minutes 30)).
    + by rewrite lookup_insert_eq.
    + unfold minutes. lia.
  - apply Z.leb_gt in H5. split; [by rewrite lookup_insert_eq|].
    split; [lia|]. intros _. split; [done|].
    split; [by rewrite lookup_insert_ne|].
    apply is_locked_stale. by rewrite lookup_insert_ne.
Qed.

(** What a login with the right password stores, whatever the reply. *)
Lemma login_right_password t_check t_write data db email password user hashed :
  login_request data email password ->
  find_user "email" (PStr email) db = Ok (Some user) ->
  (user !! "locked_until" = None \/ user !! "locked_until" = Some PNone
   \/ exists t, user !! "locked_until" = Some (PDatetime t) /\ t <= t_check) ->
  user !! "password" = Some hashed ->
  check_password password hashed = Ok true ->
  let user' :=
    <["last_login" := PDatetime t_write]>
      (<["locked_until" := PNone]>
        (<["failed_login_attempts" := PInt 0]> user)) in
  exists i, db !! i = Some user
    /\ login t_check t_write data db
       = (match login_view user' with
          | Ok (user_id, view) =>
              {| status := 200;
                 payload := LoginData (create_access_token user_id (hours 24)) view |}
          | Raise e => {| status := 500; payload := Failure (StrOfExn e) |}
          end, <[i := user']> db)
    /\ find_user "email" (PStr email) (<[i := user']> db) = Ok (Some user').
Proof.
  intros Hreq Hf Hlock Hp Hc.
  rewrite (login_reaches_user _ _ _ _ _ _ _ Hreq Hf).
  apply (attempt_right_password _ _ _ _ _ _ hashed); auto using is_locked_stale.
Qed.

(** The reply is 200 as soon as the document has the keys of the public
    view. *)
Lemma login_view_ok (user : dict) id name email user_type :
  user !! "_id" = Some id -> user !! "name" = Some name ->
  user !! "email" = Some email -> user !! "user_type" = Some user_type ->
  login_view user
  = Ok (py_str id, {| view_id := py_str id; view_name := name;
                      view_email := email; view_user_type := user_type |}).
Proof. unfold login_view, getitem. by intros -> -> -> ->. Qed.

(** ** C6 *)

(** C6. A login on an existing account that is not locked, with a password
    that verifies, stores [failed_login_attempts = 0] and
    [last_login = now] in the account's document, [now] being the instant
    read for the update; the reply is 200 when the document has the keys of
    the public view. *)
Theorem login_success_resets_counter
  t_check t_write data db email password user hashed :
  login_request data email password ->
  find_user "email" (PStr email) db = Ok (Some user) ->
  (user !! "locked_until" = None \/ user !! "locked_until" = Some PNone
   \/ exists t, user !! "locked_until" = Some (PDatetime t) /\ t <= t_check) ->
  user !! "password" = Some hashed ->
  check_password password hashed = Ok true ->
  exists user',
    find_user "email" (PStr email) (login t_check t_write data db).2 = Ok (Some user')
    /\ user' !! "failed_login_attempts" = Some (PInt 0)
    /\ user' !! "last_login" = Some (PDatetime t_write)
    /\ (is_Some (user !! "_id") -> is_Some (user !! "name") ->
        is_Some (user !! "user_type") ->
        status (login t_check t_write data db).1 = 200).
Proof.
  intros Hreq Hf Hlock Hp Hc.
  destruct (login_right_password t_check t_write _ _ _ _ _ _ Hreq Hf Hlock Hp Hc)
    as (i & Hi & -> & Hfu).
  eexists. split; [exact Hfu|].
  split; [by simplify_map_eq|].
  split; [by rewrite lookup_insert_eq|].
  intros [id Hid] [name Hname] [ut Hut].
  destruct (find_user_has_key _ _ _ _ Hf) as (em & Hem & _).
  erewrite login_view_ok; [done| | | |]; rewrite !lookup_insert_ne by done; eauto.
Qed.

(** ** C10 *)

(** C10. A login that succeeds (existing account, not locked, password
    verifies) replaces the account's document, at its position in the list,
    by one that differs in three keys only: [failed_login_attempts] is 0,
    [locked_until] is [None] and [last_login] is the instant read for the
    update.  Every other key of the document (name, email, password hash,
    role, status, creation time among them) and every other document of the
    store is unchanged. *)
Theorem login_success_frame
  t_check t_write data db email password user hashed :
  login_request data email password ->
  find_user "email" (PStr email) db = Ok (Some user) ->
  (user !! "locked_until" = None \/ user !! "locked_until" = Some PNone
   \/ exists t, user !! "locked_until" = Some (PDatetime t) /\ t <= t_check) ->
  user !! "password" = Some hashed ->
  check_password password hashed = Ok true ->
  exists i user',
    db !! i = Some user
    /\ (login t_check t_write data db).2 = <[i := user']> db
    /\ (login t_check t_write data db).2 !! i = Some user'
    /\ (forall j, j <> i -> (login t_check t_write data db).2 !! j = db !! j)
    /\ length (login t_check t_write data db).2 = length db
    /\ user' !! "failed_login_attempts" = Some (PInt 0)
    /\ user' !! "locked_until" = Some PNone
    /\ user' !! "last_login" = Some (PDatetime t_write)
    /\ (forall k, k <> "failed_login_attempts" -> k <> "locked_until" ->
                  k <> "last_login" -> user' !! k = user !! k)
    /\ Forall (fun k => user' !! k = user !! k)
         ["name"; "email"; "password"; "user_type"; "status"; "created_at"].
Proof.
  intros Hreq Hf Hlock Hp Hc.
  destruct (login_right_password t_check t_write _ _ _ _ _ _ Hreq Hf Hlock Hp Hc)
    as (i & Hi & -> & Hfu).
  eexists i, _. split; [exact Hi|]. split; [reflexivity|]. simpl.
  split; [apply list_lookup_insert_eq; by eapply lookup_lt_Some|].
  split; [intros j Hj; by apply list_lookup_insert_ne|].
  split; [apply length_insert|].
  split; [by simplify_map_eq|].
  split; [by simplify_map_eq|].
  split; [by rewrite lookup_insert_eq|].
  split; [intros k H1 H2 H3; by rewrite !lookup_insert_ne|].
  repeat constructor; by rewrite !lookup_insert_ne.
Qed.

(** ** Reading a reply backwards *)

Ltac split_attempt :=
  repeat (first
    [ destruct (is_locked _ _) as [[|]|]
    | destruct (_ !! "password")
    | destruct (check_password _ _) as [[|]|]
    | destruct (py_add_int _ _)
    | destruct (update_by_email _ _ _) as [[[]|] ?]
    | destruct (login_view _) as [[]|] ]; simpl).

Lemma attempt_423_inv t_check t_write email password user db :
  status (handle (login_attempt t_check t_write email password user) db).1 = 423 ->
  is_locked user t_check = Ok true.
Proof.
  unfold handle, login_attempt, mbind, route_bind, result_bind, lift, mret,
    route_ret, getitem.
  destruct (is_locked user t_check) as [[|]|]; simpl; try done.
  split_attempt; discriminate.
Qed.

Lemma attempt_401_inv t_check t_write email password user db :
  status (handle (login_attempt t_check t_write email password user) db).1 = 401 ->
  is_locked user t_check = Ok false
  /\ exists hashed n,
       user !! "password" = Some hashed
       /\ check_password password hashed = Ok false
       /\ py_add_int (dict_get_default user "failed_login_attempts" (PInt 0)) 1 = Ok n.
Proof.
  unfold handle, login_attempt, mbind, route_bind, result_bind, lift, mret,
    route_ret, getitem.
  destruct (is_locked user t_check) as [[|]|]; simpl; try discriminate.
  destruct (user !! "password") as [hashed|]; simpl; [|discriminate].
  destruct (check_password password hashed) as [[|]|] eqn:Hc; simpl.
  - split_attempt; discriminate.
  - destruct (py_add_int _ 1) as [n|] eqn:Hn; simpl; [|discriminate].
    intros _. split; [done|]. by exists hashed, n.
  - discriminate.
Qed.

(** A request either fails the check of line 143, or raises while the email
    is normalised, or is a [login_request]. *)
Lemma login_prelude data :
  (exists r, (status r = 400 \/ status r = 500)
             /\ forall t_check t_write db, login t_check t_write data db = (r, db))
  \/ exists email, login_request data email (dict_get data "password").
Proof.
  unfold login, login_body, login_request.
  destruct (truthy (dict_get data "email")) eqn:He; simpl;
    [|left; eexists; split; [|reflexivity]; by left].
  destruct (truthy (dict_get data "password")) eqn:Hp; simpl;
    [|left; eexists; split; [|reflexivity]; by left].
  destruct (normalize_email (dict_get data "email")) as [email|e] eqn:Hn.
  - right. by exists email.
  - left. unfold handle, mbind at 1, route_bind, lift.
    rewrite truthy_getitem by done. simpl. rewrite Hn.
    eexists. split; [|reflexivity]. by right.
Qed.

Lemma login_find_raises t_check t_write data db email password e :
  login_request data email password ->
  find_user "email" (PStr email) db = Raise e ->
  login t_check t_write data db
  = ({| status := 500; payload := Failure (StrOfExn e) |}, db).
Proof.
  intros (He & Hn & Hp & Hpt) Hf. subst password.
  unfold login, login_body. rewrite He, Hpt. simpl.
  unfold handle, mbind, route_bind, lift, read_users.
  rewrite !truthy_getitem by done. simpl. by rewrite Hn, Hf.
Qed.

(** ** Runs of failed logins *)

Lemma failed_run email hashed : forall attempts db user c,
  find_user "email" (PStr email) db = Ok (Some user) ->
  user !! "password" = Some hashed ->
  dict_get_default user "failed_login_attempts" (PInt 0) = PInt c ->
  Forall (fun a : Z * Z * dict => exists p, login_request a.2 email p) attempts ->
  Forall (fun r => status r = 401) (login_seq attempts db).1 ->
  exists user',
    find_user "email" (PStr email) (login_seq attempts db).2 = Ok (Some user')
    /\ user' !! "password" = Some hashed
    /\ dict_get_default user' "failed_login_attempts" (PInt 0)
       = PInt (c + Z.of_nat (length attempts))
    /\ (forall k, k <> "failed_login_attempts" -> k <> "locked_until" ->
                  user' !! k = user !! k)
    /\ (forall t1 t2 d, last attempts = Some (t1, t2, d) ->
          5 <= c + Z.of_nat (length attempts) ->
          user' !! "locked_until" = Some (PDatetime (t2 + minutes 30))).
Proof.
  induction attempts as [|[[t1 t2] d] rest IH]; intros db user c Hf Hp Hc Hreq Hst.
  - exists user. simpl. rewrite Z.add_0_r. repeat split; try done.
  - apply Forall_cons in Hreq as [[p Hreq1] Hreq].
    simpl in Hst.
    destruct (login t1 t2 d db) as [r db1] eqn:Hlogin.
    destruct (login_seq rest db1) as [rs db2] eqn:Hrest.
    simpl in Hst. apply Forall_cons in Hst as [Hr Hrs].
    simpl in Hreq1.
    simpl in Hreq1.
    pose proof (login_reaches_user t1 t2 _ _ _ _ _ Hreq1 Hf) as Hreach.
    rewrite Hlogin in Hreach.
    assert (H401 : status (handle (login_attempt t1 t2 email p user) db).1 = 401)
      by (by rewrite <- Hreach).
    destruct (attempt_401_inv _ _ _ _ _ _ H401) as (Hl & h & n & Hp' & Hck & Hn).
    rewrite Hp in Hp'. injection Hp' as <-.
    rewrite Hc in Hn. injection Hn as <-.
    destruct (attempt_wrong_password t1 t2 email p user db hashed (c + 1) Hf Hl Hp Hck)
      as (i & Hi & Hrun & Hfu); [by rewrite Hc|].
    rewrite <- Hreach in Hrun. injection Hrun as _ ->.
    set (user1 := if 5 <=? c + 1
                  then <["locked_until" := PDatetime (t2 + minutes 30)]>
                         (<["failed_login_attempts" := PInt (c + 1)]> user)
                  else <["failed_login_attempts" := PInt (c + 1)]> user) in *.
    assert (Hp1 : user1 !! "password" = Some hashed).
    { unfold user1. destruct (5 <=? c + 1); by simplify_map_eq. }
    assert (Hc1 : dict_get_default user1 "failed_login_attempts" (PInt 0) = PInt (c + 1)).
    { unfold user1, dict_get_default. destruct (5 <=? c + 1); by simplify_map_eq. }
    assert (Hk1 : forall k, k <> "failed_login_attempts" -> k <> "locked_until" ->
                            user1 !! k = user !! k).
    { intros k H1 H2. unfold user1. destruct (5 <=? c + 1); by simplify_map_eq. }
    specialize (IH _ user1 (c + 1) Hfu Hp1 Hc1 Hreq).
    simpl. rewrite Hlogin, Hrest. rewrite Hrest in IH. simpl in *.
    destruct (IH Hrs) as (user' & Hf' & Hp2 & Hc2 & Hk2 & Hlast).
    exists user'. split; [done|]. split; [done|].
    split; [rewrite Hc2; f_equal; lia|].
    split; [intros k H1 H2; rewrite Hk2 by done; by apply Hk1|].
    intros t1' t2' d' Hl' H5.
    destruct rest as [|a rest'].
    + injection Hl' as <- <- <-. injection Hrest as _ <-.
      rewrite Hfu in Hf'. injection Hf' as <-.
      simpl in H5. unfold user1.
      destruct (5 <=? c + 1) eqn:E; [by simplify_map_eq|].
      apply Z.leb_gt in E. lia.
    + apply (Hlast t1' t2' d'); [exact Hl'|]. simpl length in *. lia.
Qed.

(** ** C2 *)

(** C2. While an account's [locked_until] is after the instant of the lock
    test, a login for it answers 423 with the lock text and leaves the store
    as it is, whatever the password and whatever the password check would
    have said.  In particular, after five logins in a row that were each
    answered 401 on an account whose counter was not negative, a further
    login with the right password less than 30 minutes after the instant
    read for the fifth update is answered 423, and one at or after that
    bound is answered 200 and stores the counter 0. *)
Theorem login_locked_refused :
  (forall t_check t_write data db email password user t,
     login_request data email password ->
     find_user "email" (PStr email) db = Ok (Some user) ->
     user !! "locked_until" = Some (PDatetime t) -> t_check < t ->
     login t_check t_write data db
     = (failure 423 "Account temporarily locked due to failed login attempts", db))
  /\ (forall db email user hashed c attempts t1 t2 d,
     find_user "email" (PStr email) db = Ok (Some user) ->
     user !! "password" = Some hashed ->
     dict_get_default user "failed_login_attempts" (PInt 0) = PInt c ->
     0 <= c ->
     length attempts = 5%nat ->
     last attempts = Some (t1, t2, d) ->
     Forall (fun a : Z * Z * dict => exists p, login_request a.2 email p) attempts ->
     Forall (fun r => status r = 401) (login_seq attempts db).1 ->
     forall t_check t_write data password,
       login_request data email password ->
       check_password password hashed = Ok true ->
       (t_check < t2 + 30 * 60 * 1000000 ->
        login t_check t_write data (login_seq attempts db).2
        = (failure 423 "Account temporarily locked due to failed login attempts",
           (login_seq attempts db).2))
       /\ (t2 + 30 * 60 * 1000000 <= t_check ->
           is_Some (user !! "_id") -> is_Some (user !! "name") ->
           is_Some (user !! "user_type") ->
           status (login t_check t_write data (login_seq attempts db).2).1 = 200
           /\ exists user',
                find_user "email" (PStr email)
                  (login t_check t_write data (login_seq attempts db).2).2
                = Ok (Some user')
                /\ user' !! "failed_login_attempts" = Some (PInt 0))).
Proof.
  assert (Hlocked : forall t_check t_write data db email password user t,
     login_request data email password ->
     find_user "email" (PStr email) db = Ok (Some user) ->
     user !! "locked_until" = Some (PDatetime t) -> t_check < t ->
     login t_check t_write data db
     = (failure 423 "Account temporarily locked due to failed login attempts", db)).
  { intros * Hreq Hf Hl Ht.
    rewrite (login_reaches_user _ _ _ _ _ _ _ Hreq Hf).
    apply attempt_locked. by apply (is_locked_future _ _ t). }
  split; [exact Hlocked|].
  intros * Hf Hp Hc Hc0 Hlen Hlast Hreqs Hsts * Hreq Hck.
  destruct (failed_run email hashed attempts db user c Hf Hp Hc Hreqs Hsts)
    as (user5 & Hf5 & Hp5 & Hc5 & Hk5 & Hl5).
  specialize (Hl5 _ _ _ Hlast). rewrite Hlen in Hl5.
  assert (Hlu : user5 !! "locked_until" = Some (PDatetime (t2 + minutes 30)))
    by (apply Hl5; lia).
  split.
  - intros Ht. apply (Hlocked _ _ _ _ _ _ _ _ Hreq Hf5 Hlu). unfold minutes. lia.
  - intros Ht Hid Hname Hut.
    assert (Hstale : user5 !! "locked_until" = None
              \/ user5 !! "locked_until" = Some PNone
              \/ exists t, user5 !! "locked_until" = Some (PDatetime t) /\ t <= t_check).
    { right; right. eexists. split; [exact Hlu|]. unfold minutes. lia. }
    destruct (login_right_password t_check t_write _ _ _ _ _ _
                Hreq Hf5 Hstale Hp5 Hck) as (i & _ & -> & Hf').
    destruct Hid as [id Hid], Hname as [name Hname], Hut as [ut Hut].
    destruct (find_user_has_key _ _ _ _ Hf5) as (em & Hem & _).
    split.
    + erewrite login_view_ok; [done| | | |];
        rewrite !lookup_insert_ne by done;
        first [eassumption | rewrite Hk5 by done; eassumption].
    + eexists. split; [exact Hf'|]. by simplify_map_eq.
Qed.

End LoginFacts.

(** ** Password strength *)

Lemma existsb_Exists_true {A} (f : A -> bool) (l : list A) :
  existsb f l = true <-> Exists (fun x => f x = true) l.
Proof.
  rewrite existsb_exists, Exists_exists.
  split; intros (x & Hx & Hf); exists x; split; auto;
    by apply list_elem_of_In.
Qed.

Lemma existsb_Exists_false {A} (f : A -> bool) (l : list A) :
  existsb f l = false <-> ~ Exists (fun x => f x = true) l.
Proof.
  rewrite <- existsb_Exists_true. by destruct (existsb f l).
Qed.

Lemma is_AZ_range c : is_AZ c = true <-> (65 <= c <= 90)%N.
Proof. unfold is_AZ. rewrite andb_true_iff, !N.leb_le. tauto. Qed.

Lemma is_az_range c : is_az c = true <-> (97 <= c <= 122)%N.
Proof. unfold is_az. rewrite andb_true_iff, !N.leb_le. tauto. Qed.

Ltac absurd_valid :=
  match goal with
  | H : exists _, Ok (false, _) = Ok (true, _) |- _ => by destruct H as [? [=]]
  end.

Section PasswordFacts.
Context {L : Libs}.

Lemma validate_password_str (s : list N) :
  validate_password (PStr s) =
  Ok (if (length s <? 8)%nat then
        (false, "Password must be at least 8 characters long")
      else if negb (existsb is_AZ s) then
        (false, "Password must contain at least one uppercase letter")
      else if negb (existsb is_az s) then
        (false, "Password must contain at least one lowercase letter")
      else if negb (existsb uni_isdecimal s) then
        (false, "Password must contain at least one number")
      else (true, "Password is valid")).
Proof.
  unfold validate_password. simpl.
  destruct (length s <? 8)%nat; [done|].
  destruct (existsb is_AZ s); [|done]. simpl.
  destruct (existsb is_az s); [|done]. simpl.
  by destruct (existsb uni_isdecimal s).
Qed.

(** A refusal carries one of the four texts. *)
Lemma validate_password_reason password reason :
  validate_password password = Ok (false, reason) ->
  reason ∈ ["Password must be at least 8 characters long";
            "Password must contain at least one uppercase letter";
            "Password must contain at least one lowercase letter";
            "Password must contain at least one number"].
Proof.
  unfold validate_password, mbind, result_bind.
  destruct (py_len password) as [n|]; [|discriminate].
  destruct (n <? 8)%nat; [intros [= <-]; set_solver|].
  destruct (re_search_class is_AZ password) as [[|]|]; simpl;
    [|intros [= <-]; set_solver|discriminate].
  destruct (re_search_class is_az password) as [[|]|]; simpl;
    [|intros [= <-]; set_solver|discriminate].
  destruct (re_search_class uni_isdecimal password) as [[|]|]; simpl;
    [discriminate|intros [= <-]; set_solver|discriminate].
Qed.

(** ** C8 *)

(** C8. On a string, [validate_password] answers with the first of four
    checks that fails, in this order: fewer than 8 characters; no character
    in [A-Z]; no character in [a-z]; no character matched by [\d].  It
    answers true exactly when all four pass.  On "short1A", "alllowercase1",
    "ALLUPPER1" and "NoDigitsHere" it answers false, with the text of the
    first, second, third and fourth check, and on "Valid1Pass" it answers
    true. *)
Theorem validate_password_first_failure `{!LibsSpec L} :
  (forall s : list N,
    let upper := Exists (fun c => (65 <= c <= 90)%N) s in
    let lower := Exists (fun c => (97 <= c <= 122)%N) s in
    let digit := Exists (fun c => uni_isdecimal c = true) s in
    ((length s < 8)%nat ->
       validate_password (PStr s)
       = Ok (false, "Password must be at least 8 characters long"))
    /\ ((8 <= length s)%nat -> ~ upper ->
       validate_password (PStr s)
       = Ok (false, "Password must contain at least one uppercase letter"))
    /\ ((8 <= length s)%nat -> upper -> ~ lower ->
       validate_password (PStr s)
       = Ok (false, "Password must contain at least one lowercase letter"))
    /\ ((8 <= length s)%nat -> upper -> lower -> ~ digit ->
       validate_password (PStr s)
       = Ok (false, "Password must contain at least one number"))
    /\ ((exists text, validate_password (PStr s) = Ok (true, text))
        <-> (8 <= length s)%nat /\ upper /\ lower /\ digit))
  /\ validate_password (PStr (lit "short1A"))
     = Ok (false, "Password must be at least 8 characters long")
  /\ validate_password (PStr (lit "alllowercase1"))
     = Ok (false, "Password must contain at least one uppercase letter")
  /\ validate_password (PStr (lit "ALLUPPER1"))
     = Ok (false, "Password must contain at least one lowercase letter")
  /\ validate_password (PStr (lit "NoDigitsHere"))
     = Ok (false, "Password must contain at least one number")
  /\ validate_password (PStr (lit "Valid1Pass")) = Ok (true, "Password is valid").
Proof.
  split.
  - intros s upper lower digit.
    assert (Hu : existsb is_AZ s = true <-> upper).
    { rewrite existsb_Exists_true. unfold upper.
      split; intros HE; (eapply Exists_impl; [exact HE|]); intros c; apply is_AZ_range. }
    assert (Hl : existsb is_az s = true <-> lower).
    { rewrite existsb_Exists_true. unfold lower.
      split; intros HE; (eapply Exists_impl; [exact HE|]); intros c; apply is_az_range. }
    assert (Hd : existsb uni_isdecimal s = true <-> digit)
      by apply existsb_Exists_true.
    rewrite validate_password_str.
    destruct (Nat.ltb_spec (length s) 8) as [Hlen|Hlen].
    { repeat split; intros; try done; try lia; try absurd_valid. }
    destruct (existsb is_AZ s); simpl.
    2:{ assert (~ upper) by (rewrite <- Hu; done).
        repeat split; intros; try done; try tauto; try lia; absurd_valid. }
    destruct (existsb is_az s); simpl.
    2:{ assert (~ lower) by (rewrite <- Hl; done).
        repeat split; intros; try done; try tauto; try lia; absurd_valid. }
    destruct (existsb uni_isdecimal s); simpl.
    2:{ assert (~ digit) by (rewrite <- Hd; done).
        repeat split; intros; try done; try tauto; try lia; absurd_valid. }
    assert upper by (by apply Hu). assert lower by (by apply Hl).
    assert digit by (by apply Hd).
    repeat split; intros; try done; try tauto; try lia. by eexists.
  - assert (Hascii : forall s, forallb (fun c => c <? 128)%N s = true ->
              existsb uni_isdecimal s = existsb is_09 s).
    { induction s as [|c s IH]; simpl; [done|].
      intros [Hc Hs]%andb_true_iff. rewrite IH by done.
      rewrite isdecimal_ascii; [done|]. by apply N.ltb_lt. }
    rewrite !validate_password_str.
    repeat split; simpl length; simpl Nat.ltb; cbv iota;
      try reflexivity; rewrite Hascii by reflexivity; reflexivity.
Qed.

End PasswordFacts.

(** ** Password verification *)

Lemma utf8_char_ok c :
  ~ (0xD800 <= c <= 0xDFFF)%N -> exists b, utf8_char c = Ok b.
Proof.
  intros Hc. unfold utf8_char.
  destruct (c <? 0x80)%N; [by eexists|].
  destruct (c <? 0x800)%N; [by eexists|].
  destruct ((0xD800 <=? c) && (c <=? 0xDFFF))%N eqn:E.
  - apply andb_true_iff in E as [?%N.leb_le ?%N.leb_le]. lia.
  - destruct (c <? 0x10000)%N; by eexists.
Qed.

Lemma utf8_char_surrogate c :
  (0xD800 <= c <= 0xDFFF)%N -> utf8_char c = Raise UnicodeEncodeError.
Proof.
  intros [H1 H2]. unfold utf8_char.
  destruct (N.ltb_spec c 0x80); [lia|].
  destruct (N.ltb_spec c 0x800); [lia|].
  destruct (N.leb_spec 0xD800 c); [|lia].
  destruct (N.leb_spec c 0xDFFF); [done|lia].
Qed.

Lemma utf8_char_raises c e : utf8_char c = Raise e -> e = UnicodeEncodeError.
Proof.
  unfold utf8_char.
  repeat match goal with
  | |- context [if ?b then _ else _] => destruct b
  end; congruence.
Qed.

Lemma utf8_ok s :
  Forall (fun c => ~ (0xD800 <= c <= 0xDFFF)%N) s -> exists b, utf8 s = Ok b.
Proof.
  induction 1 as [|c s Hc _ [bs IH]]; simpl; [by eexists|].
  destruct (utf8_char_ok c Hc) as [b ->]. rewrite IH. by eexists.
Qed.

Lemma utf8_surrogate s :
  Exists (fun c => (0xD800 <= c <= 0xDFFF)%N) s -> utf8 s = Raise UnicodeEncodeError.
Proof.
  induction 1 as [c s Hc|c s _ IH]; simpl.
  - by rewrite utf8_char_surrogate.
  - destruct (utf8_char c) as [b|e] eqn:E; simpl.
    + by rewrite IH.
    + by rewrite (utf8_char_raises _ _ E).
Qed.

Section CheckPasswordFacts.
Context {L : Libs}.

Lemma attempt_check_raises t_check t_write email password user db hashed e :
  is_locked user t_check = Ok false ->
  user !! "password" = Some hashed ->
  check_password password hashed = Raise e ->
  handle (login_attempt t_check t_write email password user) db
  = ({| status := 500; payload := Failure (StrOfExn e) |}, db).
Proof.
  intros Hl Hp Hc.
  unfold handle, login_attempt, mbind at 1 2, route_bind, lift.
  rewrite Hl. unfold getitem. rewrite Hp. simpl. by rewrite Hc.
Qed.

(** ** C4 *)

(** C4, as the code has it.  [check_password] has no handler of its own: it
    gives a boolean exactly when the password encodes as UTF-8 and
    [bcrypt.checkpw] gives one for the encoded password and the stored hash,
    and it raises what either of them raises.  A password with a lone
    surrogate raises [UnicodeEncodeError] whatever the hash.  In [login] the
    exception ends in the route's handler: the reply is 500 with the text of
    the exception and the store is left as it is. *)
Theorem check_password_propagates (password : list N) (hashed : pyval) :
  (forall b, check_password (PStr password) hashed = Ok b
     <-> exists pw, utf8 password = Ok pw /\ bcrypt_checkpw pw hashed = Ok b)
  /\ (forall e, check_password (PStr password) hashed = Raise e
     <-> utf8 password = Raise e
         \/ exists pw, utf8 password = Ok pw /\ bcrypt_checkpw pw hashed = Raise e)
  /\ (Exists (fun c => (0xD800 <= c <= 0xDFFF)%N) password ->
      check_password (PStr password) hashed = Raise UnicodeEncodeError)
  /\ (forall e t_check t_write data db email user,
      login_request data email (PStr password) ->
      find_user "email" (PStr email) db = Ok (Some user) ->
      (user !! "locked_until" = None \/ user !! "locked_until" = Some PNone
       \/ exists t, user !! "locked_until" = Some (PDatetime t) /\ t <= t_check) ->
      user !! "password" = Some hashed ->
      check_password (PStr password) hashed = Raise e ->
      login t_check t_write data db
      = ({| status := 500; payload := Failure (StrOfExn e) |}, db)).
Proof.
  unfold check_password at 1 2 3. simpl.
  split; [|split; [|split]].
  - intros b. destruct (utf8 password) as [pw|e]; simpl.
    + split; [intros H; by exists pw|]. by intros (pw' & [= <-] & H).
    + split; [discriminate|]. by intros (pw' & [=] & _).
  - intros e. destruct (utf8 password) as [pw|e']; simpl.
    + split; [intros H; right; by exists pw|].
      intros [[=]|(pw' & [= <-] & H)]. done.
    + split; [intros [= ->]; by left|]. intros [[= ->]|(pw' & [=] & _)]. done.
  - intros Hs. by rewrite (utf8_surrogate _ Hs).
  - intros * Hreq Hf Hlock Hp Hc.
    rewrite (login_reaches_user _ _ _ _ _ _ _ Hreq Hf).
    by apply (attempt_check_raises _ _ _ _ _ _ hashed); [apply is_locked_stale| |].
Qed.

End CheckPasswordFacts.

(** ** Which reply a login gets *)

Section LoginReplies.
Context {L : Libs}.

(** A password that is not a string, or is a string with a lone surrogate,
    cannot be encoded: [check_password] raises before the hash is looked
    at. *)
Lemma check_password_unencodable password hashed :
  (forall s, password = PStr s -> Exists (fun c => (0xD800 <= c <= 0xDFFF)%N) s) ->
  exists e, (e = AttributeError \/ e = UnicodeEncodeError)
            /\ check_password password hashed = Raise e.
Proof.
  intros Hs. unfold check_password.
  destruct password as [| | |s| |];
    try (exists AttributeError; split; [by left|reflexivity]).
  exists UnicodeEncodeError. split; [by right|]. simpl.
  by rewrite (utf8_surrogate s (Hs s eq_refl)).
Qed.

(** On an existing account that is not locked, the reply is the 401 of the
    missing account exactly when the password check returns [False]. *)
Lemma login_401_iff t_check t_write data db email password user hashed c :
  login_request data email password ->
  find_user "email" (PStr email) db = Ok (Some user) ->
  (user !! "locked_until" = None \/ user !! "locked_until" = Some PNone
   \/ exists t, user !! "locked_until" = Some (PDatetime t) /\ t <= t_check) ->
  user !! "password" = Some hashed ->
  dict_get_default user "failed_login_attempts" (PInt 0) = PInt c ->
  (login t_check t_write data db).1 = failure 401 "Invalid email or password"
  <-> check_password password hashed = Ok false.
Proof.
  intros Hreq Hf Hlock Hp Hcount.
  rewrite (login_reaches_user _ _ _ _ _ _ _ Hreq Hf). split.
  - intros H401.
    assert (Hs : status (handle (login_attempt t_check t_write email password user) db).1
                 = 401) by (by rewrite H401).
    destruct (attempt_401_inv _ _ _ _ _ _ Hs) as (_ & hashed' & n & Hp' & Hc & _).
    rewrite Hp in Hp'. by injection Hp' as <-.
  - intros Hc.
    destruct (attempt_wrong_password t_check t_write email password user db hashed
                (c + 1) Hf (is_locked_stale _ _ Hlock) Hp Hc) as (i & _ & -> & _);
      [by rewrite Hcount|done].
Qed.

(** ** C5 *)

(** C5, as the code has it.  A login for an address no document is stored
    under answers 401 with the text "Invalid email or password" and writes
    nothing.  On an existing account that is not locked the reply is that
    same 401 exactly when the password check returns [False]; a password the
    check raises on gets 500 with the text of the exception and leaves the
    store as it is, and this is the case of every password that is not a
    string or is a string with a lone surrogate, whatever the stored hash.
    So the missing account and the wrong password on an existing account get
    equal replies exactly when the check returns [False].  An account whose
    [locked_until] is after the instant of the lock test answers 423 whatever
    the password, the store unchanged, and 423 is given in no other case.  A
    request refused before the lookup gets a reply that does not depend on
    the store. *)
Theorem login_invalid_credentials_uniform :
  (forall t_check t_write data db email password,
     login_request data email password ->
     find_user "email" (PStr email) db = Ok None ->
     login t_check t_write data db = (failure 401 "Invalid email or password", db))
  /\ (forall t_check t_write data db email password user hashed c,
     login_request data email password ->
     find_user "email" (PStr email) db = Ok (Some user) ->
     (user !! "locked_until" = None \/ user !! "locked_until" = Some PNone
      \/ exists t, user !! "locked_until" = Some (PDatetime t) /\ t <= t_check) ->
     user !! "password" = Some hashed ->
     dict_get_default user "failed_login_attempts" (PInt 0) = PInt c ->
     ((login t_check t_write data db).1 = failure 401 "Invalid email or password"
      <-> check_password password hashed = Ok false)
     /\ (forall e, check_password password hashed = Raise e ->
           login t_check t_write data db
           = ({| status := 500; payload := Failure (StrOfExn e) |}, db)))
  /\ (forall t_check t_write data db email password user hashed,
     login_request data email password ->
     find_user "email" (PStr email) db = Ok (Some user) ->
     (user !! "locked_until" = None \/ user !! "locked_until" = Some PNone
      \/ exists t, user !! "locked_until" = Some (PDatetime t) /\ t <= t_check) ->
     user !! "password" = Some hashed ->
     (forall s, password = PStr s -> Exists (fun c => (0xD800 <= c <= 0xDFFF)%N) s) ->
     exists e, (e = AttributeError \/ e = UnicodeEncodeError)
       /\ login t_check t_write data db
          = ({| status := 500; payload := Failure (StrOfExn e) |}, db))
  /\ (forall t_check t_write data db email password user t,
     login_request data email password ->
     find_user "email" (PStr email) db = Ok (Some user) ->
     user !! "locked_until" = Some (PDatetime t) -> t_check < t ->
     login t_check t_write data db
     = (failure 423 "Account temporarily locked due to failed login attempts", db))
  /\ (forall t_check t_write data db,
     status (login t_check t_write data db).1 = 423 ->
     (login t_check t_write data db).1
       = failure 423 "Account temporarily locked due to failed login attempts"
     /\ exists email user t,
          login_request data email (dict_get data "password")
          /\ find_user "email" (PStr email) db = Ok (Some user)
          /\ user !! "locked_until" = Some (PDatetime t) /\ t_check < t)
  /\ (forall t_check t_write t_check' t_write' data db db' email password user hashed c,
     login_request data email password ->
     find_user "email" (PStr email) db = Ok None ->
     find_user "email" (PStr email) db' = Ok (Some user) ->
     (user !! "locked_until" = None \/ user !! "locked_until" = Some PNone
      \/ exists t, user !! "locked_until" = Some (PDatetime t) /\ t <= t_check') ->
     user !! "password" = Some hashed ->
     dict_get_default user "failed_login_attempts" (PInt 0) = PInt c ->
     ((login t_check t_write data db).1 = (login t_check' t_write' data db').1
      <-> check_password password hashed = Ok false))
  /\ (forall data,
     (forall email, ~ login_request data email (dict_get data "password")) ->
     forall t_check t_write t_check' t_write' db db',
       (login t_check t_write data db).1 = (login t_check' t_write' data db').1).
Proof.
  split; [|split; [|split; [|split; [|split; [|split]]]]].
  - intros * Hreq Hf. exact (login_no_user _ _ _ _ _ _ Hreq Hf).
  - intros * Hreq Hf Hlock Hp Hcount. split.
    + by apply (login_401_iff _ _ _ _ email _ user _ c).
    + intros e He. rewrite (login_reaches_user _ _ _ _ _ _ _ Hreq Hf).
      by apply (attempt_check_raises _ _ _ _ _ _ hashed); [apply is_locked_stale| |].
  - intros * Hreq Hf Hlock Hp Hs.
    destruct (check_password_unencodable password hashed Hs) as (e & He & Hc).
    exists e. split; [exact He|].
    rewrite (login_reaches_user _ _ _ _ _ _ _ Hreq Hf).
    by apply (attempt_check_raises _ _ _ _ _ _ hashed); [apply is_locked_stale| |].
  - intros * Hreq Hf Hlu Ht.
    rewrite (login_reaches_user _ _ _ _ _ _ _ Hreq Hf).
    apply attempt_locked. by apply (is_locked_future _ _ t).
  - intros * Hs.
    destruct (login_prelude data) as [(r & Hst & Hr)|[email Hreq]].
    { rewrite Hr in Hs. simpl in Hs. lia. }
    destruct (find_user "email" (PStr email) db) as [[user|]|e] eqn:Hf.
    + rewrite (login_reaches_user _ _ _ _ _ _ _ Hreq Hf) in *.
      pose proof (attempt_423_inv _ _ _ _ _ _ Hs) as Hl.
      rewrite (attempt_locked _ _ _ _ _ _ Hl). split; [done|].
      destruct (is_locked_true_inv _ _ Hl) as (t & Ht & Hlt).
      by exists email, user, t.
    + rewrite (login_no_user _ _ _ _ _ _ Hreq Hf) in Hs. discriminate.
    + rewrite (login_find_raises _ _ _ _ _ _ _ Hreq Hf) in Hs. discriminate.
  - intros * Hreq Hnone Hf Hlock Hp Hcount.
    rewrite (login_no_user _ _ _ _ _ _ Hreq Hnone). simpl.
    rewrite <- (login_401_iff t_check' t_write' data db' email password user hashed c)
      by done.
    split; intros H; by rewrite H.
  - intros data Hno *.
    destruct (login_prelude data) as [(r & Hst & Hr)|[email Hreq]].
    + by rewrite !Hr.
    + by destruct (Hno email).
Qed.

End LoginReplies.

(** ** Changing the password *)

Section ChangePasswordFacts.
Context {L : Libs}.

Ltac split_change :=
  repeat (first
    [ destruct (truthy (dict_get _ "current_password"))
    | destruct (truthy (dict_get _ "new_password"))
    | destruct (_ !! "new_password")
    | destruct (validate_password _) as [[[|] ?]|]
    | destruct (find_user _ _ _) as [[?|]|]
    | destruct (find_index _ _ _) as [[?|]|]
    | destruct (bool_decide _)
    | destruct (_ !! "current_password")
    | destruct (_ !! "password")
    | destruct (check_password _ _) as [[|]|]
    | destruct (hash_password _ _) ]; simpl).

(** A refused change writes nothing. *)
Lemma change_password_refused salt identity data db :
  status (change_password salt identity data db).1 <> 200 ->
  (change_password salt identity data db).2 = db.
Proof.
  unfold change_password, handle, change_password_body, mbind, route_bind,
    result_bind, lift, read_users, write_users, mret, route_ret, getitem, not_user.
  split_change; done.
Qed.

(** The strength check comes first, before the store is read. *)
Lemma change_password_weak salt identity data db reason :
  truthy (dict_get data "current_password") = true ->
  truthy (dict_get data "new_password") = true ->
  validate_password (dict_get data "new_password") = Ok (false, reason) ->
  change_password salt identity data db = (failure 400 reason, db).
Proof.
  intros Hc Hn Hv.
  unfold change_password, handle, change_password_body, mbind, route_bind, lift.
  rewrite Hc, Hn. simpl. rewrite truthy_getitem by done. simpl. by rewrite Hv.
Qed.

Lemma change_password_not_found salt identity data db text :
  truthy (dict_get data "current_password") = true ->
  truthy (dict_get data "new_password") = true ->
  validate_password (dict_get data "new_password") = Ok (true, text) ->
  find_user "_id" identity db = Ok None ->
  change_password salt identity data db = (failure 404 "User not found", db).
Proof.
  intros Hc Hn Hv Hf.
  unfold change_password, handle, change_password_body, mbind, route_bind, lift,
    read_users.
  rewrite Hc, Hn. simpl. rewrite truthy_getitem by done. simpl. rewrite Hv. simpl.
  rewrite Hf. unfold find_index. by rewrite (find_index_from_none _ _ _ _ Hf).
Qed.

Lemma change_password_wrong_current salt identity data db text user hashed :
  truthy (dict_get data "current_password") = true ->
  truthy (dict_get data "new_password") = true ->
  validate_password (dict_get data "new_password") = Ok (true, text) ->
  find_user "_id" identity db = Ok (Some user) ->
  user !! "password" = Some hashed ->
  check_password (dict_get data "current_password") hashed = Ok false ->
  change_password salt identity data db
  = (failure 401 "Current password is incorrect", db).
Proof.
  intros Hc Hn Hv Hf Hp Hck.
  destruct (find_index_spec _ _ _ _ Hf) as (i & Hi & _).
  unfold change_password, handle, change_password_body, mbind, route_bind, lift,
    read_users.
  rewrite Hc, Hn. simpl. rewrite truthy_getitem by done. simpl. rewrite Hv. simpl.
  rewrite Hf, Hi. rewrite (find_user_not_empty _ _ _ _ Hf).
  rewrite (truthy_getitem data "current_password") by done. simpl.
  unfold getitem. rewrite Hp. simpl.
  by rewrite Hck.
Qed.

(** ** C3 *)

(** C3, as the code has it.  With both passwords present in the request,
    [change_password] first validates the strength of the new password and
    answers 400 with the reason of the failed rule, whether or not the
    account exists and whether or not the current password verifies; only
    when the new password is strong does it look the account up and answer
    404 when there is none; and only for an existing account does it verify
    the current password and answer 401 when it is wrong.  So a wrong
    current password together with a weak new password gives the 400 reply
    of the strength rule. *)
Theorem change_password_error_order salt identity data db :
  truthy (dict_get data "current_password") = true ->
  truthy (dict_get data "new_password") = true ->
  (forall reason,
     validate_password (dict_get data "new_password") = Ok (false, reason) ->
     change_password salt identity data db = (failure 400 reason, db))
  /\ (forall text,
     validate_password (dict_get data "new_password") = Ok (true, text) ->
     find_user "_id" identity db = Ok None ->
     change_password salt identity data db = (failure 404 "User not found", db))
  /\ (forall text user hashed,
     validate_password (dict_get data "new_password") = Ok (true, text) ->
     find_user "_id" identity db = Ok (Some user) ->
     user !! "password" = Some hashed ->
     check_password (dict_get data "current_password") hashed = Ok false ->
     change_password salt identity data db
     = (failure 401 "Current password is incorrect", db)).
Proof.
  intros Hc Hn. split; [|split].
  - intros reason. by apply change_password_weak.
  - intros text. by apply change_password_not_found.
  - intros text user hashed. by apply change_password_wrong_current.
Qed.

(** ** C7 *)

(** C7. A call of [change_password] whose reply is not the 200 of a
    successful change leaves the store as it is.  In particular, when both
    passwords are present, the current one verifies against the stored hash
    and the new one fails the strength check, the reply is 400 with the
    reason given by [validate_password], which is the text of one of the
    four rules, and the account's document, its hash included, is
    unchanged. *)
Theorem change_password_error_keeps_store salt identity data db :
  (status (change_password salt identity data db).1 <> 200 ->
   (change_password salt identity data db).2 = db)
  /\ (forall user hashed reason,
      truthy (dict_get data "current_password") = true ->
      truthy (dict_get data "new_password") = true ->
      find_user "_id" identity db = Ok (Some user) ->
      user !! "password" = Some hashed ->
      check_password (dict_get data "current_password") hashed = Ok true ->
      validate_password (dict_get data "new_password") = Ok (false, reason) ->
      change_password salt identity data db = (failure 400 reason, db)
      /\ reason ∈ ["Password must be at least 8 characters long";
                   "Password must contain at least one uppercase letter";
                   "Password must contain at least one lowercase letter";
                   "Password must contain at least one number"]
      /\ exists user',
           find_user "_id" identity (change_password salt identity data db).2
           = Ok (Some user')
           /\ user' !! "password" = Some hashed).
Proof.
  split; [apply change_password_refused|].
  intros user hashed reason Hc Hn Hf Hp Hck Hv.
  rewrite (change_password_weak _ _ _ _ _ Hc Hn Hv).
  split; [done|]. split; [by eapply validate_password_reason|].
  by exists user.
Qed.

End ChangePasswordFacts.

(** ** Registration *)

Lemma field_present (data : dict) field :
  field_missing data field = false ->
  getitem data field = Ok (dict_get data field)
  /\ truthy (dict_get data field) = true.
Proof.
  unfold field_missing, getitem, dict_get.
  destruct (data !! field) as [v|]; simpl; [|discriminate].
  by intros ->%negb_false_iff.
Qed.

Lemma required_fields_present (data : dict) :
  first_missing data ["name"; "email"; "password"] = None ->
  field_missing data "name" = false
  /\ field_missing data "email" = false
  /\ field_missing data "password" = false.
Proof.
  simpl.
  destruct (field_missing data "name"); [discriminate|].
  destruct (field_missing data "email"); [discriminate|].
  by destruct (field_missing data "password").
Qed.

Lemma find_user_any_email x db user :
  find_user "email" x db = Ok (Some user) -> any_email x db = Ok true.
Proof.
  induction db as [|d ds IH]; simpl; [discriminate|].
  destruct (getitem d "email") as [v|]; simpl; [|discriminate].
  destruct (py_eq v x); [done|exact IH].
Qed.

Lemma any_email_snoc x db (user : dict) v :
  any_email x db = Ok false ->
  user !! "email" = Some v ->
  any_email x (db ++ [user]) = Ok (py_eq v x).
Proof.
  intros Hd Hu. induction db as [|d ds IH]; simpl in *.
  - unfold getitem. rewrite Hu. simpl. by destruct (py_eq v x).
  - destruct (getitem d "email") as [w|]; simpl in *; [|discriminate].
    destruct (py_eq w x); [discriminate|]. by apply IH.
Qed.

Lemma py_eq_str_refl s : py_eq (PStr s) (PStr s) = true.
Proof. simpl. by apply bool_decide_eq_true. Qed.

Section RegisterFacts.
Context {L : Libs}.

(** The document [register] builds, before [_id] is set. *)
Lemma register_valid salt now data db email hashed text name taken :
  first_missing data ["name"; "email"; "password"] = None ->
  validate_email (dict_get data "email") = Ok true ->
  validate_password (dict_get data "password") = Ok (true, text) ->
  hash_password salt (dict_get data "password") = Ok hashed ->
  dict_get data "name" = PStr name ->
  normalize_email (dict_get data "email") = Ok email ->
  any_email (PStr email) db = Ok taken ->
  exists user : dict,
    user !! "email" = Some (PStr email)
    /\ register salt now data db
       = if taken then (failure 400 "Email already registered", db)
         else ({| status := 201;
                  payload :=
                    RegisterData (lit (pretty (length db + 1)%nat))
                      (create_access_token (lit (pretty (length db + 1)%nat)) (hours 24))
                      {| view_id := lit (pretty (length db + 1)%nat);
                         view_name := PStr (str_strip name);
                         view_email := PStr email;
                         view_user_type :=
                           dict_get_default data "user_type" (PStr (lit "member")) |} |},
               db ++ [user]).
Proof.
  intros Hm He Hv Hh Hname Hn Ha.
  destruct (required_fields_present _ Hm) as (H1 & H2 & H3).
  destruct (field_present _ _ H1) as [G1 _].
  destruct (field_present _ _ H2) as [G2 _].
  destruct (field_present _ _ H3) as [G3 _].
  destruct taken.
  - exists (<["email" := PStr email]> ∅). split; [by simplify_map_eq|].
    unfold register, handle, register_body. rewrite Hm.
    unfold mbind, route_bind, lift, read_users, write_users.
    rewrite G1, G2, G3. simpl. rewrite He. simpl. rewrite Hv. simpl.
    rewrite Hh, Hname. simpl. rewrite Hn. by rewrite Ha.
  - eexists. split; cycle 1.
    + unfold register, handle, register_body. rewrite Hm.
      unfold mbind, route_bind, lift, read_users, write_users.
      rewrite G1, G2, G3. simpl. rewrite He. simpl. rewrite Hv. simpl.
      rewrite Hh, Hname. simpl. rewrite Hn. rewrite Ha. reflexivity.
    + by simplify_map_eq.
Qed.

Lemma register_201_inv salt now data db :
  status (register salt now data db).1 = 201 ->
  exists email hashed text name,
    first_missing data ["name"; "email"; "password"] = None
    /\ validate_email (dict_get data "email") = Ok true
    /\ validate_password (dict_get data "password") = Ok (true, text)
    /\ hash_password salt (dict_get data "password") = Ok hashed
    /\ dict_get data "name" = PStr name
    /\ normalize_email (dict_get data "email") = Ok email
    /\ any_email (PStr email) db = Ok false.
Proof.
  unfold register, handle, register_body.
  destruct (first_missing data ["name"; "email"; "password"]) eqn:Hm;
    [discriminate|].
  destruct (required_fields_present _ Hm) as (H1 & H2 & H3).
  destruct (field_present _ _ H1) as [G1 _].
  destruct (field_present _ _ H2) as [G2 _].
  destruct (field_present _ _ H3) as [G3 _].
  unfold mbind, route_bind, lift, read_users, write_users.
  rewrite G1, G2, G3. simpl.
  destruct (validate_email _) as [[|]|] eqn:He; simpl; try discriminate.
  destruct (validate_password _) as [[[|] text]|] eqn:Hv; simpl; try discriminate.
  destruct (hash_password _ _) as [hashed|] eqn:Hh; simpl; try discriminate.
  destruct (dict_get data "name") as [| | |name| |] eqn:Hname; simpl;
    try discriminate.
  destruct (normalize_email _) as [email|] eqn:Hn; simpl; try discriminate.
  destruct (any_email _ _) as [[|]|] eqn:Ha; simpl; try discriminate.
  intros _. by exists email, hashed, text, name.
Qed.

End RegisterFacts.

(** ** The toy library meets the ASCII contract *)

Lemma toy_libs_spec : LibsSpec Toy.libs.
Proof.
  split.
  - intros c Hc. simpl. unfold Toy.isdecimal.
    destruct (N.leb_spec 0x660 c); [lia|]. by rewrite orb_false_r.
  - done.
Qed.

(** * The claims on concrete requests *)

(** Ann's account as [register] stored it: found under her address, no
    lock, counter 0. *)
Lemma ann_stored :
  find_user "email" (PStr (lit "user@example.com")) Toy.db1 = Ok (Some Toy.ann)
  /\ Toy.ann !! "locked_until" = Some PNone
  /\ Toy.ann !! "password" = Some Toy.ann_hash
  /\ dict_get_default Toy.ann "failed_login_attempts" (PInt 0) = PInt 0.
Proof. repeat split; vm_compute; reflexivity. Qed.

Lemma login_wrong_password_counts_witness :
  check_password (L := Toy.libs) (PStr (lit "wrong")) Toy.ann_hash = Ok false
  /\ exists (i : nat) (user' : dict),
       login (L := Toy.libs) 5 6 (Toy.credentials "user@example.com" "wrong") Toy.db1
       = (failure 401 "Invalid email or password", <[i := user']> Toy.db1)
       /\ user' !! "failed_login_attempts" = Some (PInt 1).
Proof.
  split; [reflexivity|].
  destruct (login_wrong_password_counts (L := Toy.libs) 5 6
              (Toy.credentials "user@example.com" "wrong") Toy.db1
              (lit "user@example.com") (PStr (lit "wrong")) Toy.ann Toy.ann_hash 0)
    as (i & user' & _ & Hrun & _ & Hcount & _).
  - repeat split; reflexivity.
  - reflexivity.
  - right; left; reflexivity.
  - reflexivity.
  - reflexivity.
  - reflexivity.
  - exists i, user'. split; [exact Hrun|exact Hcount].
Defined.

Lemma login_success_resets_counter_witness :
  check_password (L := Toy.libs) (PStr (lit "Valid1Pass")) Toy.ann_hash = Ok true
  /\ exists user' : dict,
       find_user "email" (PStr (lit "user@example.com"))
         (login (L := Toy.libs) 5 6
            (Toy.credentials "user@example.com" "Valid1Pass") Toy.db1).2
       = Ok (Some user')
       /\ user' !! "failed_login_attempts" = Some (PInt 0)
       /\ user' !! "last_login" = Some (PDatetime 6).
Proof.
  split; [reflexivity|].
  destruct (login_success_resets_counter (L := Toy.libs) 5 6
              (Toy.credentials "user@example.com" "Valid1Pass") Toy.db1
              (lit "user@example.com") (PStr (lit "Valid1Pass")) Toy.ann Toy.ann_hash)
    as (user' & Hf & Hc & Hl & _).
  - repeat split; reflexivity.
  - reflexivity.
  - right; left; reflexivity.
  - reflexivity.
  - reflexivity.
  - exists user'. repeat split; assumption.
Defined.

Lemma login_success_frame_witness :
  exists (i : nat) (user' : dict),
    (login (L := Toy.libs) 5 6
            (Toy.credentials "user@example.com" "Valid1Pass") Toy.db1).2
    = <[i := user']> Toy.db1
    /\ user' !! "locked_until" = Some PNone
    /\ user' !! "password" = Toy.ann !! "password".
Proof.
  destruct (login_success_frame (L := Toy.libs) 5 6
              (Toy.credentials "user@example.com" "Valid1Pass") Toy.db1
              (lit "user@example.com") (PStr (lit "Valid1Pass")) Toy.ann Toy.ann_hash)
    as (i & user' & _ & Hdb & _ & _ & _ & _ & Hlu & _ & Hframe & _).
  - repeat split; reflexivity.
  - reflexivity.
  - right; left; reflexivity.
  - reflexivity.
  - reflexivity.
  - exists i, user'. split; [exact Hdb|]. split; [exact Hlu|].
    apply Hframe; discriminate.
Defined.

Lemma login_locked_refused_witness :
  Forall (fun r => status r = 401) (login_seq (L := Toy.libs) Toy.five_wrong Toy.db1).1
  /\ login (L := Toy.libs) 60 61 (Toy.credentials "user@example.com" "Valid1Pass")
       (login_seq (L := Toy.libs) Toy.five_wrong Toy.db1).2
     = (failure 423 "Account temporarily locked due to failed login attempts",
        (login_seq (L := Toy.libs) Toy.five_wrong Toy.db1).2)
  /\ status (login (L := Toy.libs) 1800000051 1800000052
               (Toy.credentials "user@example.com" "Valid1Pass")
               (login_seq (L := Toy.libs) Toy.five_wrong Toy.db1).2).1 = 200.
Proof.
  assert (H401 : Forall (fun r => status r = 401)
                   (login_seq (L := Toy.libs) Toy.five_wrong Toy.db1).1)
    by (vm_compute; repeat constructor).
  split; [exact H401|].
  destruct (login_locked_refused (L := Toy.libs)) as [_ Hrun].
  assert (Hreq : login_request (L := Toy.libs)
                   (Toy.credentials "user@example.com" "Valid1Pass")
                   (lit "user@example.com") (PStr (lit "Valid1Pass")))
    by (repeat split; reflexivity).
  assert (Hreqs : Forall (fun a : Z * Z * dict =>
                    exists p, login_request (L := Toy.libs) a.2 (lit "user@example.com") p)
                    Toy.five_wrong).
  { repeat constructor; exists (PStr (lit "wrong")); repeat split; reflexivity. }
  split.
  - refine (proj1 (Hrun Toy.db1 (lit "user@example.com") Toy.ann Toy.ann_hash 0
                     Toy.five_wrong 50 51 _ _ _ _ _ _ _ Hreqs H401
                     60 61 _ _ Hreq _) _);
      solve [reflexivity | lia].
  - refine (proj1 (proj2 (Hrun Toy.db1 (lit "user@example.com") Toy.ann Toy.ann_hash 0
                     Toy.five_wrong 50 51 _ _ _ _ _ _ _ Hreqs H401
                     1800000051 1800000052 _ _ Hreq _) _ _ _ _));
      solve [reflexivity | lia | by eexists].
Defined.

(** C5 fails as stated: a password with a lone surrogate (the JSON string
    "\ud800"), or the JSON number 1 as password, is not Ann's password, and
    Ann's account is not locked; yet with it a login for Ann's address
    answers 500 with the text of the exception, while a login for an address
    nobody has answers 401. *)
Lemma login_enumeration_counterexample :
  find_user "email" (PStr (lit "nobody@example.com")) Toy.db1 = Ok None
  /\ find_user "email" (PStr (lit "user@example.com")) Toy.db1 = Ok (Some Toy.ann)
  /\ is_locked Toy.ann 5 = Ok false
  /\ login (L := Toy.libs) 5 6
       (<["email" := PStr (lit "nobody@example.com")]>
          (<["password" := PStr [0xD800%N]]> ∅)) Toy.db1
     = (failure 401 "Invalid email or password", Toy.db1)
  /\ login (L := Toy.libs) 5 6
       (<["email" := PStr (lit "user@example.com")]>
          (<["password" := PStr [0xD800%N]]> ∅)) Toy.db1
     = ({| status := 500; payload := Failure (StrOfExn UnicodeEncodeError) |}, Toy.db1)
  /\ login (L := Toy.libs) 5 6
       (<["email" := PStr (lit "nobody@example.com")]>
          (<["password" := PInt 1]> ∅)) Toy.db1
     = (failure 401 "Invalid email or password", Toy.db1)
  /\ login (L := Toy.libs) 5 6
       (<["email" := PStr (lit "user@example.com")]>
          (<["password" := PInt 1]> ∅)) Toy.db1
     = ({| status := 500; payload := Failure (StrOfExn AttributeError) |}, Toy.db1)
  /\ (login (L := Toy.libs) 5 6
        (<["email" := PStr (lit "user@example.com")]>
           (<["password" := PStr [0xD800%N]]> ∅)) Toy.db1).1
     <> failure 401 "Invalid email or password".
Proof. repeat split; try reflexivity. vm_compute. discriminate. Qed.

Lemma login_invalid_credentials_uniform_witness :
  find_user "email" (PStr (lit "nobody@example.com")) Toy.db1 = Ok None
  /\ login (L := Toy.libs) 5 6 (Toy.credentials "nobody@example.com" "wrong") Toy.db1
     = (failure 401 "Invalid email or password", Toy.db1)
  /\ (login (L := Toy.libs) 5 6 (Toy.credentials "user@example.com" "wrong") Toy.db1).1
     = failure 401 "Invalid email or password"
  /\ (exists e,
        login (L := Toy.libs) 5 6
          (<["email" := PStr (lit "user@example.com")]> (<["password" := PInt 1]> ∅))
          Toy.db1
        = ({| status := 500; payload := Failure (StrOfExn e) |}, Toy.db1))
  /\ login (L := Toy.libs) 60 61 (Toy.credentials "user@example.com" "Valid1Pass")
       (login_seq (L := Toy.libs) Toy.five_wrong Toy.db1).2
     = (failure 423 "Account temporarily locked due to failed login attempts",
        (login_seq (L := Toy.libs) Toy.five_wrong Toy.db1).2).
Proof.
  destruct (login_invalid_credentials_uniform (L := Toy.libs))
    as (Hnone & Hwrong & Hraise & Hlocked & _).
  split; [reflexivity|]. split; [|split; [|split]].
  - apply (Hnone 5 6 _ _ (lit "nobody@example.com") (PStr (lit "wrong")));
      [repeat split|]; reflexivity.
  - apply (Hwrong 5 6 _ _ (lit "user@example.com") (PStr (lit "wrong"))
             Toy.ann Toy.ann_hash 0);
      [repeat split; reflexivity|reflexivity|right; left; reflexivity|..];
      reflexivity.
  - destruct (Hraise 5 6
                (<["email" := PStr (lit "user@example.com")]>
                   (<["password" := PInt 1]> ∅))
                Toy.db1 (lit "user@example.com") (PInt 1) Toy.ann Toy.ann_hash)
      as (e & _ & He).
    + repeat split; reflexivity.
    + reflexivity.
    + right; left; reflexivity.
    + reflexivity.
    + intros s Hs. discriminate Hs.
    + by exists e.
  - eapply (Hlocked 60 61 _ _ (lit "user@example.com") (PStr (lit "Valid1Pass"))).
    + repeat split; reflexivity.
    + vm_compute. reflexivity.
    + vm_compute. reflexivity.
    + reflexivity.
Defined.

Lemma validate_password_first_failure_witness :
  validate_password (L := Toy.libs) (PStr (lit "NoDigitsHere"))
  = Ok (false, "Password must contain at least one number")
  /\ validate_password (L := Toy.libs) (PStr (lit "Valid1Pass"))
     = Ok (true, "Password is valid").
Proof.
  destruct (@validate_password_first_failure Toy.libs toy_libs_spec)
    as (_ & _ & _ & _ & H4 & H5).
  split; [exact H4|exact H5].
Defined.

(** C3 fails as stated: for Ann's account, a wrong current password and a
    weak new one give the 400 of the strength check, not the 401 of the
    password check. *)
Lemma change_password_order_counterexample :
  find_user "_id" (PStr (lit "1")) Toy.db1 = Ok (Some Toy.ann)
  /\ check_password (L := Toy.libs) (PStr (lit "Wrong1Pass")) Toy.ann_hash = Ok false
  /\ validate_password (L := Toy.libs) (PStr (lit "weak"))
     = Ok (false, "Password must be at least 8 characters long")
  /\ change_password (L := Toy.libs) Toy.salt (PStr (lit "1"))
       (Toy.change "Wrong1Pass" "weak") Toy.db1
     = (failure 400 "Password must be at least 8 characters long", Toy.db1)
  /\ change_password (L := Toy.libs) Toy.salt (PStr (lit "1"))
       (Toy.change "Wrong1Pass" "weak") Toy.db1
     <> (failure 401 "Current password is incorrect", Toy.db1).
Proof. repeat split; try reflexivity. vm_compute. discriminate. Qed.

Lemma change_password_error_order_witness :
  change_password (L := Toy.libs) Toy.salt (PStr (lit "1"))
    (Toy.change "Wrong1Pass" "weak") Toy.db1
  = (failure 400 "Password must be at least 8 characters long", Toy.db1)
  /\ change_password (L := Toy.libs) Toy.salt (PStr (lit "2"))
       (Toy.change "Valid1Pass" "Other2Pass") Toy.db1
     = (failure 404 "User not found", Toy.db1)
  /\ change_password (L := Toy.libs) Toy.salt (PStr (lit "1"))
       (Toy.change "Wrong1Pass" "Other2Pass") Toy.db1
     = (failure 401 "Current password is incorrect", Toy.db1).
Proof.
  split; [|split].
  - apply (change_password_error_order (L := Toy.libs) Toy.salt (PStr (lit "1"))
             (Toy.change "Wrong1Pass" "weak") Toy.db1); reflexivity.
  - eapply (change_password_error_order (L := Toy.libs) Toy.salt (PStr (lit "2"))
             (Toy.change "Valid1Pass" "Other2Pass") Toy.db1); reflexivity.
  - eapply (change_password_error_order (L := Toy.libs) Toy.salt (PStr (lit "1"))
             (Toy.change "Wrong1Pass" "Other2Pass") Toy.db1); reflexivity.
Defined.

Lemma change_password_error_keeps_store_witness :
  check_password (L := Toy.libs) (PStr (lit "Valid1Pass")) Toy.ann_hash = Ok true
  /\ change_password (L := Toy.libs) Toy.salt (PStr (lit "1"))
       (Toy.change "Valid1Pass" "nouppercase1") Toy.db1
     = (failure 400 "Password must contain at least one uppercase letter", Toy.db1)
  /\ (change_password (L := Toy.libs) Toy.salt (PStr (lit "2"))
        (Toy.change "Valid1Pass" "Other2Pass") Toy.db1).2 = Toy.db1.
Proof.
  split; [reflexivity|]. split.
  - eapply (change_password_error_keeps_store (L := Toy.libs) Toy.salt (PStr (lit "1"))
              (Toy.change "Valid1Pass" "nouppercase1") Toy.db1); reflexivity.
  - apply (change_password_error_keeps_store (L := Toy.libs) Toy.salt (PStr (lit "2"))
             (Toy.change "Valid1Pass" "Other2Pass") Toy.db1).
    vm_compute. discriminate.
Defined.

(** C4 fails as stated: a password with a lone surrogate (the JSON string
    "\ud800") makes [check_password] raise whatever the stored hash is, and
    with the toy scheme, as with [bcrypt], so does a hash that cannot be
    parsed; [login] then answers 500. *)
Lemma check_password_raises_counterexample :
  check_password (L := Toy.libs) (PStr [0xD800%N]) Toy.ann_hash
  = Raise UnicodeEncodeError
  /\ check_password (L := Toy.libs) (PStr (lit "Valid1Pass")) (PBytes [36; 50]%N)
     = Raise (ValueError "Invalid salt")
  /\ login (L := Toy.libs) 5 6
       (<["email" := PStr (lit "user@example.com")]>
          (<["password" := PStr [0xD800%N]]> ∅)) Toy.db1
     = ({| status := 500; payload := Failure (StrOfExn UnicodeEncodeError) |}, Toy.db1).
Proof. repeat split; reflexivity. Qed.

Lemma check_password_propagates_witness :
  check_password (L := Toy.libs) (PStr [0xD800%N]) Toy.ann_hash
  = Raise UnicodeEncodeError
  /\ login (L := Toy.libs) 5 6
       (<["email" := PStr (lit "user@example.com")]>
          (<["password" := PStr [0xD800%N]]> ∅)) Toy.db1
     = ({| status := 500; payload := Failure (StrOfExn UnicodeEncodeError) |}, Toy.db1).
Proof.
  destruct (check_password_propagates (L := Toy.libs) [0xD800%N] Toy.ann_hash)
    as (_ & _ & Hsur & Hlogin).
  split.
  - apply Hsur. constructor. lia.
  - apply (Hlogin UnicodeEncodeError 5 6 _ Toy.db1 (lit "user@example.com") Toy.ann);
      [repeat split; reflexivity|reflexivity|right; left; reflexivity|..];
      reflexivity.
Defined.

(** * Further properties of the code *)

(** ** The matcher decides the language of the pattern *)

Lemma nullable_matches r : nullable r = true <-> matches r [].
Proof.
  split.
  - induction r; simpl; intros H; try discriminate.
    + constructor.
    + apply andb_true_iff in H as [H1 H2].
      change (@nil N) with (@nil N ++ []). constructor; auto.
    + apply orb_true_iff in H as [H|H]; [apply MAltL|apply MAltR]; auto.
    + constructor.
  - intros H. remember (@nil N) as s eqn:Hs.
    induction H; simpl; subst; try done.
    + apply app_eq_nil in Hs as [-> ->]. by rewrite IHmatches1, IHmatches2.
    + by rewrite IHmatches.
    + rewrite IHmatches by done. apply orb_true_r.
Qed.

Lemma deriv_sound c r : forall s, matches (deriv c r) s -> matches r (c :: s).
Proof.
  induction r; simpl; intros s H.
  - inversion H.
  - inversion H.
  - destruct (cls c) eqn:E; inversion H; subst. by constructor.
  - destruct (nullable r1) eqn:E.
    + inversion H as [| | | ? ? ? H1 | ? ? ? H1 | |]; subst.
      * inversion H1; subst. change (c :: s1 ++ s2) with ((c :: s1) ++ s2).
        constructor; auto.
      * change (c :: s) with ([] ++ c :: s).
        constructor; [by apply nullable_matches|auto].
    + inversion H; subst. change (c :: s1 ++ s2) with ((c :: s1) ++ s2).
      constructor; auto.
  - inversion H; subst; [apply MAltL|apply MAltR]; auto.
  - inversion H; subst. change (c :: s1 ++ s2) with ((c :: s1) ++ s2).
    constructor; auto.
Qed.

Lemma deriv_complete c r t :
  matches r t -> forall s, t = c :: s -> matches (deriv c r) s.
Proof.
  induction 1 as [|cls x Hx|r1 r2 s1 s2 H1 IH1 H2 IH2|r1 r2 t H1 IH1
                  |r1 r2 t H2 IH2|r|r s1 s2 H1 IH1 H2 IH2];
    intros s Ht; simpl.
  - discriminate.
  - injection Ht as -> <-. rewrite Hx. constructor.
  - destruct s1 as [|x s1'].
    + simpl in Ht. apply nullable_matches in H1. rewrite H1.
      apply MAltR. by apply IH2.
    + injection Ht as -> <-.
      destruct (nullable r1); [apply MAltL|]; constructor; auto.
  - apply MAltL. auto.
  - apply MAltR. auto.
  - discriminate.
  - destruct s1 as [|x s1'].
    + simpl in Ht. by apply IH2.
    + injection Ht as -> <-. constructor; auto.
Qed.

Lemma accepts_matches r s : accepts r s = true <-> matches r s.
Proof.
  unfold accepts. revert r. induction s as [|c s IH]; intros r; simpl.
  - apply nullable_matches.
  - rewrite IH. split; [apply deriv_sound|].
    intros H. by apply (deriv_complete c r (c :: s)).
Qed.

Lemma matches_star_class cls s :
  matches (RStar (RClass cls)) s <-> Forall (fun c => cls c = true) s.
Proof.
  split.
  - intros H. remember (RStar (RClass cls)) as r eqn:Hr.
    induction H; try discriminate; [constructor|].
    injection Hr as ->. inversion H; subst. constructor; auto.
  - induction 1 as [|c s Hc _ IH]; [constructor|].
    change (c :: s) with ([c] ++ s). constructor; [by constructor|done].
Qed.

Lemma matches_plus_class cls s :
  matches (RPlus (RClass cls)) s <-> s <> [] /\ Forall (fun c => cls c = true) s.
Proof.
  unfold RPlus. split.
  - intros H. inversion H as [| |? ? ? ? H1 H2| | | |]; subst.
    inversion H1; subst. apply matches_star_class in H2.
    split; [done|]. by constructor.
  - intros [Hne H]. destruct H as [|c s Hc Hs]; [done|].
    change (c :: s) with ([c] ++ s).
    constructor; [by constructor|by apply matches_star_class].
Qed.

Lemma matches_char c s : matches (RChar c) s <-> s = [c].
Proof.
  unfold RChar. split.
  - intros H. inversion H as [|? x Hx| | | | |]; subst.
    by apply N.eqb_eq in Hx as ->.
  - intros ->. constructor. apply N.eqb_refl.
Qed.

Lemma matches_seq r1 r2 s :
  matches (RSeq r1 r2) s <-> exists s1 s2, s = s1 ++ s2 /\ matches r1 s1 /\ matches r2 s2.
Proof.
  split.
  - intros H. inversion H; subst. eauto.
  - intros (s1 & s2 & -> & H1 & H2). by constructor.
Qed.

Lemma matches_end s : matches REnd s <-> s = [] \/ s = [10%N].
Proof.
  unfold REnd. split.
  - intros H. inversion H as [| | |? ? ? H1|? ? ? H1| |]; subst.
    + inversion H1. by left.
    + apply matches_char in H1. by right.
  - intros [->| ->]; [apply MAltL; constructor|apply MAltR; by apply matches_char].
Qed.

Lemma email_pattern_parts (s : list N) :
  accepts email_pattern s = true ->
  exists local domain tld tail,
    s = local ++ [64%N] ++ domain ++ [46%N] ++ tld ++ tail
    /\ local <> [] /\ Forall (fun c => email_local c = true) local
    /\ domain <> [] /\ Forall (fun c => email_domain c = true) domain
    /\ (2 <= length tld)%nat /\ Forall (fun c => email_alpha c = true) tld
    /\ (tail = [] \/ tail = [10%N]).
Proof.
  intros H. apply accepts_matches in H. unfold email_pattern in H.
  apply matches_seq in H as (local & s1 & -> & Hl & H).
  apply matches_seq in H as (at_ & s2 & -> & Hat & H).
  apply matches_seq in H as (domain & s3 & -> & Hd & H).
  apply matches_seq in H as (dot & s4 & -> & Hdot & H).
  apply matches_seq in H as (a1 & s5 & -> & Ha1 & H).
  apply matches_seq in H as (rest & tail & -> & Hrest & Htail).
  apply matches_char in Hat as ->. apply matches_char in Hdot as ->.
  apply matches_plus_class in Hl as [Hl1 Hl2].
  apply matches_plus_class in Hd as [Hd1 Hd2].
  apply matches_plus_class in Hrest as [Hr1 Hr2].
  apply matches_end in Htail.
  inversion Ha1 as [|? c Hc| | | | |]; subst.
  exists local, domain, (c :: rest), tail.
  split; [reflexivity|].
  repeat split; try done.
  + destruct rest; [done|simpl; lia].
  + by constructor.
Qed.

Lemma email_pattern_accepts (s : list N) :
  (exists local domain tld tail,
    s = local ++ [64%N] ++ domain ++ [46%N] ++ tld ++ tail
    /\ local <> [] /\ Forall (fun c => email_local c = true) local
    /\ domain <> [] /\ Forall (fun c => email_domain c = true) domain
    /\ (2 <= length tld)%nat /\ Forall (fun c => email_alpha c = true) tld
    /\ (tail = [] \/ tail = [10%N])) ->
  accepts email_pattern s = true.
Proof.
  intros (local & domain & tld & tail & -> & Hl1 & Hl2 & Hd1 & Hd2 & Ht1 & Ht2 & Htail).
  apply accepts_matches. unfold email_pattern.
  destruct tld as [|c [|c' rest]]; simpl in Ht1; try lia.
  apply Forall_cons in Ht2 as [Hc Ht2].
  apply matches_seq. exists local, ([64%N] ++ domain ++ [46%N] ++ (c :: c' :: rest) ++ tail).
  split; [reflexivity|]. split; [by apply matches_plus_class|].
  apply matches_seq. exists [64%N], (domain ++ [46%N] ++ (c :: c' :: rest) ++ tail).
  split; [reflexivity|]. split; [by apply matches_char|].
  apply matches_seq. exists domain, ([46%N] ++ (c :: c' :: rest) ++ tail).
  split; [reflexivity|]. split; [by apply matches_plus_class|].
  apply matches_seq. exists [46%N], ((c :: c' :: rest) ++ tail).
  split; [reflexivity|]. split; [by apply matches_char|].
  apply matches_seq. exists [c], ((c' :: rest) ++ tail).
  split; [reflexivity|]. split; [by constructor|].
  apply matches_seq. exists (c' :: rest), tail.
  split; [reflexivity|]. split; [by apply matches_plus_class|by apply matches_end].
Qed.

(** ** X1 *)

(** X1. [validate_email] accepts a string exactly when it is a non-empty
    local part over [a-zA-Z0-9._%+-], an at sign, a non-empty domain over
    [a-zA-Z0-9.-], a dot and at least two letters, optionally followed by
    one final newline (the pattern's [$] also matches before it). *)
Theorem validate_email_shape (s : list N) :
  validate_email (PStr s) = Ok true
  <-> exists local domain tld tail,
        s = local ++ [64%N] ++ domain ++ [46%N] ++ tld ++ tail
        /\ local <> [] /\ Forall (fun c => email_local c = true) local
        /\ domain <> [] /\ Forall (fun c => email_domain c = true) domain
        /\ (2 <= length tld)%nat /\ Forall (fun c => email_alpha c = true) tld
        /\ (tail = [] \/ tail = [10%N]).
Proof.
  simpl. split.
  - intros [= H]. by apply email_pattern_parts.
  - intros H. f_equal. by apply email_pattern_accepts.
Qed.

(** ** Normalising an accepted address *)

Ltac bools_to_props :=
  unfold ascii_lower, email_local, email_domain, email_alpha, is_space,
    is_az, is_AZ, is_09 in *;
  repeat match goal with
  | |- context [if ?b then _ else _] => destruct b eqn:?
  end;
  rewrite ?orb_true_iff, ?andb_true_iff, ?orb_false_iff, ?andb_false_iff,
    ?N.leb_le, ?N.leb_gt, ?N.eqb_eq, ?N.eqb_neq in *.

Lemma email_local_plain c : email_local c = true -> plain c.
Proof. unfold plain. intros H. split; bools_to_props; lia. Qed.

Lemma email_domain_plain c : email_domain c = true -> plain c.
Proof. unfold plain. intros H. split; bools_to_props; lia. Qed.

Lemma email_alpha_plain c : email_alpha c = true -> plain c.
Proof. unfold plain. intros H. split; bools_to_props; lia. Qed.

Lemma ascii_lower_plain c : plain c -> plain (ascii_lower c) /\ is_AZ (ascii_lower c) = false.
Proof.
  unfold plain. intros [H1 H2]. repeat split.
  - bools_to_props; lia.
  - bools_to_props; lia.
  - bools_to_props; lia.
Qed.

Lemma lstrip_plain s : Forall (fun c => is_space c = false) s -> lstrip s = s.
Proof. destruct 1 as [|c s Hc _]; simpl; [done|]. by rewrite Hc. Qed.

Lemma str_strip_plain s :
  Forall (fun c => is_space c = false) s ->
  str_strip s = s /\ str_strip (s ++ [10%N]) = s.
Proof.
  intros H. unfold str_strip.
  assert (Hrev : Forall (fun c => is_space c = false) (rev s)).
  { apply Forall_forall. intros c Hc. rewrite Forall_forall in H. apply H.
    apply list_elem_of_In. apply in_rev. by apply list_elem_of_In. }
  split.
  - rewrite (lstrip_plain s H), (lstrip_plain _ Hrev). apply rev_involutive.
  - destruct s as [|c s'].
    + reflexivity.
    + assert (Hl : lstrip ((c :: s') ++ [10%N]) = (c :: s') ++ [10%N]).
      { simpl. apply Forall_cons in H as [-> _]. done. }
      rewrite Hl. remember (c :: s') as t eqn:Ht. rewrite rev_app_distr.
      change (rev [10%N] ++ rev t) with (10%N :: rev t).
      change (lstrip (10%N :: rev t)) with (lstrip (rev t)).
      rewrite (lstrip_plain _ Hrev). apply rev_involutive.
Qed.

Section MoreAuthFacts.
Context {L : Libs}.

(** ** X2 *)

(** X2. An address that [validate_email] accepts is ASCII without blanks,
    apart from one possible final newline; what [register] stores for it,
    and what [login] looks up, is that address without the newline and with
    its letters in lower case: ASCII, no blanks, no upper-case letter. *)
Theorem accepted_email_normalised `{!LibsSpec L} (s : list N) :
  validate_email (PStr s) = Ok true ->
  exists core,
    (s = core \/ s = core ++ [10%N])
    /\ normalize_email (PStr s) = Ok (map ascii_lower core)
    /\ Forall (fun c => (c < 128)%N /\ is_space c = false /\ is_AZ c = false)
         (map ascii_lower core).
Proof.
  intros [= H]. apply email_pattern_parts in H
    as (local & domain & tld & tail & -> & _ & Hl & _ & Hd & _ & Ht & Htail).
  set (core := local ++ [64%N] ++ domain ++ [46%N] ++ tld).
  assert (Hcore : Forall plain core).
  { unfold core. rewrite !Forall_app. repeat split.
    - eapply Forall_impl; [exact Hl|]. apply email_local_plain.
    - repeat constructor.
    - eapply Forall_impl; [exact Hd|]. apply email_domain_plain.
    - repeat constructor.
    - eapply Forall_impl; [exact Ht|]. apply email_alpha_plain. }
  assert (Hlow : Forall (fun c => plain c /\ is_AZ c = false) (map ascii_lower core)).
  { apply Forall_fmap. eapply Forall_impl; [exact Hcore|].
    intros c Hc. by apply ascii_lower_plain. }
  assert (Hs : local ++ [64%N] ++ domain ++ [46%N] ++ tld ++ tail = core ++ tail).
  { unfold core. by rewrite <- !app_assoc. }
  rewrite Hs. exists core.
  assert (Hnosp : Forall (fun c => is_space c = false) (map ascii_lower core)).
  { eapply Forall_impl; [exact Hlow|]. by intros c [[_ ?] _]. }
  destruct (str_strip_plain _ Hnosp) as [Hs1 Hs2].
  split; [destruct Htail as [-> | ->]; [left; by rewrite app_nil_r|by right]|].
  split.
  - unfold normalize_email. simpl. f_equal.
    rewrite lower_ascii.
    + destruct Htail as [-> | ->].
      * by rewrite app_nil_r.
      * by rewrite map_app.
    + apply Forall_app. split.
      * eapply Forall_impl; [exact Hcore|]. by intros c [? _].
      * destruct Htail as [-> | ->]; repeat constructor.
  - eapply Forall_impl; [exact Hlow|]. by intros c [[? ?] ?].
Qed.

Lemma find_user_snoc key x db (user : dict) v :
  find_user key x db = Ok None ->
  user !! key = Some v -> py_eq v x = true ->
  find_user key x (db ++ [user]) = Ok (Some user).
Proof.
  intros Hd Hu Hv. induction db as [|d ds IH]; simpl in *.
  - unfold getitem. rewrite Hu. simpl. by rewrite Hv.
  - destruct (getitem d key) as [w|]; simpl in *; [|discriminate].
    destruct (py_eq w x); [discriminate|]. by apply IH.
Qed.

Lemma any_email_find x db :
  any_email x db = Ok false -> find_user "email" x db = Ok None.
Proof.
  induction db as [|d ds IH]; simpl; [done|].
  destruct (getitem d "email") as [w|]; simpl; [|discriminate].
  destruct (py_eq w x); [discriminate|exact IH].
Qed.

(** What [register] appends when it answers 201. *)
Lemma register_created salt now data db email hashed text name :
  first_missing data ["name"; "email"; "password"] = None ->
  validate_email (dict_get data "email") = Ok true ->
  validate_password (dict_get data "password") = Ok (true, text) ->
  hash_password salt (dict_get data "password") = Ok hashed ->
  dict_get data "name" = PStr name ->
  normalize_email (dict_get data "email") = Ok email ->
  any_email (PStr email) db = Ok false ->
  (register salt now data db).2 =
  db ++ [<["_id" := PStr (lit (pretty (length db + 1)%nat))]>
         (<["locked_until" := PNone]>
         (<["failed_login_attempts" := PInt 0]>
         (<["last_login" := PNone]>
         (<["created_at" := PDatetime now]>
         (<["status" := PStr (lit "active")]>
         (<["auth_method" := PStr (lit "local")]>
         (<["user_type" := dict_get_default data "user_type" (PStr (lit "member"))]>
         (<["password" := PBytes hashed]>
         (<["email" := PStr email]>
         (<["name" := PStr (str_strip name)]> ∅))))))))))]
  /\ status (register salt now data db).1 = 201.
Proof.
  intros Hm He Hv Hh Hname Hn Ha.
  destruct (required_fields_present _ Hm) as (H1 & H2 & H3).
  destruct (field_present _ _ H1) as [G1 _].
  destruct (field_present _ _ H2) as [G2 _].
  destruct (field_present _ _ H3) as [G3 _].
  unfold register, handle, register_body. rewrite Hm.
  unfold mbind, route_bind, lift, read_users, write_users.
  rewrite G1, G2, G3. simpl. rewrite He. simpl. rewrite Hv. simpl.
  rewrite Hh, Hname. simpl. rewrite Hn. rewrite Ha. done.
Qed.

Lemma register_refused salt now data db :
  status (register salt now data db).1 <> 201 ->
  (register salt now data db).2 = db.
Proof.
  unfold register, handle, register_body.
  destruct (first_missing data ["name"; "email"; "password"]) eqn:Hm; [done|].
  unfold mbind, route_bind, result_bind, lift, read_users, write_users, mret,
    route_ret.
  repeat (first
    [ destruct (getitem data _)
    | destruct (validate_email _) as [[|]|]
    | destruct (validate_password _) as [[[|] ?]|]
    | destruct (hash_password _ _)
    | destruct (str_method _ _)
    | destruct (normalize_email _)
    | destruct (any_email _ _) as [[|]|] ]; simpl); done.
Qed.

(** ** X3 *)

(** X3. [register] either answers 201 and appends exactly one document to
    the store, leaving the documents already there in place, or answers
    something else and leaves the store as it is.  The appended document
    holds the stripped name, the normalised email, the [bcrypt] hash as
    [bytes] (the password itself is not stored), the requested or default
    role, and a fresh lockout state: counter 0, no lock, no last login; its
    id is the decimal of the new length of the store. *)
Theorem register_store_effect salt now data db :
  (status (register salt now data db).1 <> 201 /\ (register salt now data db).2 = db)
  \/ (status (register salt now data db).1 = 201
      /\ exists email hashed name,
           normalize_email (dict_get data "email") = Ok email
           /\ hash_password salt (dict_get data "password") = Ok hashed
           /\ dict_get data "name" = PStr name
           /\ (register salt now data db).2 =
              db ++ [<["_id" := PStr (lit (pretty (length db + 1)%nat))]>
                     (<["locked_until" := PNone]>
                     (<["failed_login_attempts" := PInt 0]>
                     (<["last_login" := PNone]>
                     (<["created_at" := PDatetime now]>
                     (<["status" := PStr (lit "active")]>
                     (<["auth_method" := PStr (lit "local")]>
                     (<["user_type" :=
                          dict_get_default data "user_type" (PStr (lit "member"))]>
                     (<["password" := PBytes hashed]>
                     (<["email" := PStr email]>
                     (<["name" := PStr (str_strip name)]> ∅))))))))))]).
Proof.
  destruct (decide (status (register salt now data db).1 = 201)) as [H|H].
  - right. split; [done|].
    destruct (register_201_inv _ _ _ _ H)
      as (email & hashed & text & name & Hm & He & Hv & Hh & Hname & Hn & Ha).
    exists email, hashed, name. repeat split; try done.
    by apply (register_created _ _ _ _ _ _ text).
  - left. split; [done|]. by apply register_refused.
Qed.

End MoreAuthFacts.

Section MoreLoginFacts.
Context {L : Libs}.

Lemma hash_then_check password salt hashed :
  hash_verifies L ->
  hash_password salt password = Ok hashed ->
  check_password password (PBytes hashed) = Ok true.
Proof.
  intros Hv. unfold hash_password, check_password.
  destruct (str_encode password) as [pw|]; simpl; [|discriminate].
  apply Hv.
Qed.

(** ** X4 *)

(** X4. When the password scheme verifies its own hashes, an account that
    [register] has just created (reply 201) can log in: a login whose
    email has the same normalised form and whose password is the
    registered one answers 200, whatever the clock says. *)
Theorem register_then_login salt now data db t_check t_write data' email :
  hash_verifies L ->
  status (register salt now data db).1 = 201 ->
  normalize_email (dict_get data "email") = Ok email ->
  login_request data' email (dict_get data "password") ->
  status (login t_check t_write data' (register salt now data db).2).1 = 200.
Proof.
  intros Hhv H201 Hn Hreq.
  destruct (register_201_inv _ _ _ _ H201)
    as (email1 & hashed & text & name & Hm & He & Hv & Hh & Hname & Hn' & Ha).
  rewrite Hn in Hn'. injection Hn' as <-.
  destruct (register_created salt now _ _ _ _ _ _ Hm He Hv Hh Hname Hn Ha) as [-> _].
  set (user := <["_id" := _]> _).
  assert (Hf : find_user "email" (PStr email) (db ++ [user]) = Ok (Some user)).
  { apply (find_user_snoc _ _ _ _ (PStr email)).
    - by apply any_email_find.
    - by unfold user; simplify_map_eq.
    - apply py_eq_str_refl. }
  destruct (login_right_password t_check t_write data' (db ++ [user]) email
              (dict_get data "password") user (PBytes hashed) Hreq Hf)
    as (i & _ & -> & _).
  - right; left. by unfold user; simplify_map_eq.
  - by unfold user; simplify_map_eq.
  - by apply (hash_then_check _ salt).
  - simpl. erewrite login_view_ok; [done|..]; by unfold user; simplify_map_eq.
Qed.

(** ** X5 *)

(** X5. Two login requests with the same password whose emails have the
    same normalised form (they differ in case or in surrounding blanks
    only) get the same reply and leave the same store. *)
Theorem login_email_insensitive t_check t_write data data' db email password :
  login_request data email password ->
  login_request data' email password ->
  login t_check t_write data db = login t_check t_write data' db.
Proof.
  intros H H'.
  destruct (find_user "email" (PStr email) db) as [[user|]|e] eqn:Hf.
  - by rewrite (login_reaches_user _ _ _ _ _ _ _ H Hf),
               (login_reaches_user _ _ _ _ _ _ _ H' Hf).
  - by rewrite (login_no_user _ _ _ _ _ _ H Hf), (login_no_user _ _ _ _ _ _ H' Hf).
  - by rewrite (login_find_raises _ _ _ _ _ _ _ H Hf),
               (login_find_raises _ _ _ _ _ _ _ H' Hf).
Qed.

Lemma set_items_frame update_data (d : dict) k :
  k ∉ update_data.*1 -> set_items update_data d !! k = d !! k.
Proof.
  unfold set_items. revert d.
  induction update_data as [|[k' v] upd IH]; intros d Hk; simpl in *; [done|].
  apply not_elem_of_cons in Hk as [Hne Hk].
  rewrite IH by done. by apply lookup_insert_ne.
Qed.

Lemma update_by_email_frame x update_data db :
  (update_by_email x update_data db).2 = db
  \/ exists i, (update_by_email x update_data db).2 = alter (set_items update_data) i db.
Proof.
  unfold update_by_email, mbind, route_bind, lift, read_users, write_users.
  destruct (find_index "email" x db) as [[i|]|]; simpl; eauto.
Qed.

End MoreLoginFacts.

Ltac key_in :=
  unfold lockout_keys; rewrite ?elem_of_cons; auto 10.

Ltac key_out :=
  unfold lockout_keys; rewrite ?not_elem_of_cons;
  repeat split; first [discriminate | apply not_elem_of_nil].

Section LoginFrame.
Context {L : Libs}.

Lemma attempt_store_cases t_check t_write email password user db :
  (handle (login_attempt t_check t_write email password user) db).2 = db
  \/ exists i update_data,
       (handle (login_attempt t_check t_write email password user) db).2
       = alter (set_items update_data) i db
       /\ Forall (fun k => k ∈ lockout_keys) update_data.*1.
Proof.
  unfold handle, login_attempt, mbind, route_bind, lift, mret, route_ret,
    result_bind, getitem.
  destruct (is_locked user t_check) as [[|]|]; simpl; auto.
  destruct (user !! "password") as [hashed|]; simpl; auto.
  destruct (check_password password hashed) as [[|]|]; simpl; auto.
  - match goal with
    | |- context [update_by_email ?x ?u db] =>
        destruct (update_by_email_frame x u db) as [Hu|[i Hu]];
        destruct (update_by_email x u db) as [[[]|e] db'];
        simpl in Hu; subst db'
    end;
    repeat match goal with
    | |- context [login_view ?d] => destruct (login_view d) as [[]|]
    end; simpl; auto;
    right; eexists i, _; (split; [reflexivity|]);
    repeat constructor; key_in.
  - destruct (py_add_int _ 1) as [n|]; simpl; auto.
    match goal with
    | |- context [update_by_email ?x ?u db] =>
        destruct (update_by_email_frame x u db) as [Hu|[i Hu]];
        destruct (update_by_email x u db) as [[[]|e] db'];
        simpl in Hu; subst db'
    end; simpl; auto;
    right; eexists i, _; (split; [reflexivity|]);
    destruct (5 <=? n); repeat constructor; key_in.
Qed.

Lemma login_store_cases t_check t_write data db :
  (login t_check t_write data db).2 = db
  \/ exists i update_data,
       (login t_check t_write data db).2 = alter (set_items update_data) i db
       /\ Forall (fun k => k ∈ lockout_keys) update_data.*1.
Proof.
  destruct (login_prelude data) as [(r & _ & Hr)|[email Hreq]].
  { left. by rewrite Hr. }
  destruct (find_user "email" (PStr email) db) as [[user|]|e] eqn:Hf.
  - rewrite (login_reaches_user _ _ _ _ _ _ _ Hreq Hf). apply attempt_store_cases.
  - left. by rewrite (login_no_user _ _ _ _ _ _ Hreq Hf).
  - left. by rewrite (login_find_raises _ _ _ _ _ _ _ Hreq Hf).
Qed.

(** ** X6 *)

(** X6. Whatever the request, [login] keeps the number of documents, and
    every document keeps every key other than [failed_login_attempts],
    [locked_until] and [last_login]: no login, failed or not, changes a
    password hash, an email, an id or a role. *)
Theorem login_preserves_documents t_check t_write data db :
  length (login t_check t_write data db).2 = length db
  /\ forall j d, db !! j = Some d ->
       exists d', (login t_check t_write data db).2 !! j = Some d'
         /\ (forall k, k ∉ lockout_keys -> d' !! k = d !! k)
         /\ d' !! "password" = d !! "password"
         /\ d' !! "email" = d !! "email"
         /\ d' !! "_id" = d !! "_id"
         /\ d' !! "user_type" = d !! "user_type".
Proof.
  destruct (login_store_cases t_check t_write data db) as [->|(i & upd & -> & Hk)].
  - split; [done|]. intros j d Hj. exists d. by repeat split.
  - assert (Hframe : forall d k, k ∉ lockout_keys -> set_items upd d !! k = d !! k).
    { intros d k Hn. apply set_items_frame. intros Hin.
      rewrite Forall_forall in Hk. by apply Hn, Hk. }
    split; [apply length_alter|].
    intros j d Hj. destruct (decide (i = j)) as [->|Hne].
    + exists (set_items upd d). rewrite list_lookup_alter_eq, Hj.
      split; [done|]. split; [by apply Hframe|].
      repeat split; apply Hframe; key_out.
    + exists d. rewrite list_lookup_alter_ne by done. by repeat split.
Qed.

End LoginFrame.

(** ** Serialising replies *)

Lemma jsonify_doc_spec (d : dict) :
  (forall k v, d !! k = Some v -> jsonable v = true) -> jsonify_doc d = Ok d.
Proof.
  intros H. unfold jsonify_doc.
  assert (E : forallb (fun kv : string * pyval => jsonable kv.2) (map_to_list d) = true).
  { apply forallb_forall. intros [k v] Hin. simpl.
    apply (H k). apply elem_of_map_to_list. by apply list_elem_of_In. }
  by rewrite E.
Qed.

Lemma jsonify_doc_ok (d d' : dict) : jsonify_doc d = Ok d' -> d' = d.
Proof. unfold jsonify_doc. destruct (forallb _ _); by intros [=]. Qed.

Lemma jsonify_docs_ok ds ds' : jsonify_docs ds = Ok ds' -> ds' = ds.
Proof.
  revert ds'. induction ds as [|d ds IH]; intros ds'; simpl; [by intros [= <-]|].
  destruct (jsonify_doc d) as [d1|] eqn:E1; simpl; [|discriminate].
  destruct (jsonify_docs ds) as [ds1|]; simpl; [|discriminate].
  intros [= <-]. by rewrite (jsonify_doc_ok _ _ E1), (IH ds1).
Qed.

Lemma jsonify_docs_spec ds :
  Forall (fun d : dict => forall k v, d !! k = Some v -> jsonable v = true) ds ->
  jsonify_docs ds = Ok ds.
Proof.
  induction 1 as [|d ds Hd _ IH]; simpl; [done|].
  by rewrite (jsonify_doc_spec d Hd), IH.
Qed.

Section ProfileFacts.
Context {L : Libs}.

(** ** X7 *)

(** X7. A change of password that passes every check (both fields present,
    new password strong and hashable, account found under the caller's id,
    current password verified) answers 200 and replaces, in the account's
    document only, the value under [password] by the new hash; the lockout
    counter, the lock and every other key stay as they are, and when the
    scheme verifies its own hashes the stored hash verifies the new
    password. *)
Theorem change_password_success salt identity data db text user hashed new_hash :
  truthy (dict_get data "current_password") = true ->
  truthy (dict_get data "new_password") = true ->
  validate_password (dict_get data "new_password") = Ok (true, text) ->
  find_user "_id" identity db = Ok (Some user) ->
  user !! "password" = Some hashed ->
  check_password (dict_get data "current_password") hashed = Ok true ->
  hash_password salt (dict_get data "new_password") = Ok new_hash ->
  exists i,
    db !! i = Some user
    /\ change_password salt identity data db
       = ({| status := 200; payload := SuccessMessage "Password changed successfully" |},
          <[i := <["password" := PBytes new_hash]> user]> db)
    /\ find_user "_id" identity (change_password salt identity data db).2
       = Ok (Some (<["password" := PBytes new_hash]> user))
    /\ (forall k, k <> "password" ->
          (<["password" := PBytes new_hash]> user) !! k = user !! k)
    /\ (hash_verifies L ->
          check_password (dict_get data "new_password") (PBytes new_hash) = Ok true).
Proof.
  intros Hc Hn Hv Hf Hp Hck Hh.
  destruct (find_user_alter "_id" identity (<["password" := PBytes new_hash]>) db
              0%nat user Hf) as (i & Hi & Hl & Ha & Hfu).
  { by rewrite lookup_insert_ne. }
  assert (Hrun : change_password salt identity data db
       = ({| status := 200; payload := SuccessMessage "Password changed successfully" |},
          <[i := <["password" := PBytes new_hash]> user]> db)).
  { unfold change_password, handle, change_password_body, mbind, route_bind, lift,
      read_users, write_users.
    rewrite Hc, Hn. simpl. rewrite (truthy_getitem data "new_password") by done.
    simpl. rewrite Hv. simpl. rewrite Hf. unfold find_index. rewrite Hi.
    rewrite (find_user_not_empty _ _ _ _ Hf).
    rewrite (truthy_getitem data "current_password") by done. simpl.
    unfold getitem. rewrite Hp. simpl. rewrite Hck. simpl. rewrite Hh. simpl.
    by rewrite Ha. }
  exists i. split; [done|]. split; [done|]. rewrite Hrun. simpl.
  split; [by rewrite <- Ha|].
  split; [intros k Hk; by rewrite lookup_insert_ne|].
  intros Hhv. by apply (hash_then_check _ salt).
Qed.

Lemma get_profile_reads identity db : (get_profile identity db).2 = db.
Proof.
  unfold get_profile, handle_json, get_profile_body, mbind, route_bind, lift,
    read_users, mret, route_ret.
  destruct (find_user "_id" identity db) as [[user|]|]; simpl; try done.
  destruct (bool_decide _); simpl; try done.
  by destruct (_ : result dict).
Qed.

(** ** X8 *)

(** X8. [get_profile] never writes to the store.  It answers 404 "User not
    found" when no document has the caller's id, and for a document with
    the five keys it reads (values serialisable) it answers 200 with
    exactly six keys: the id as a string, name, email, role, creation time
    and last login ([None] when the document has none); the password hash
    and the lockout fields are not part of the reply. *)
Theorem get_profile_view identity db :
  (get_profile identity db).2 = db
  /\ (find_user "_id" identity db = Ok None ->
      (get_profile identity db).1 = jfailure 404 "User not found")
  /\ (forall user id name email user_type created_at,
      find_user "_id" identity db = Ok (Some user) ->
      user !! "_id" = Some id -> user !! "name" = Some name ->
      user !! "email" = Some email -> user !! "user_type" = Some user_type ->
      user !! "created_at" = Some created_at ->
      Forall (fun v => jsonable v = true)
        [name; email; user_type; created_at; dict_get user "last_login"] ->
      exists reply : dict,
        (get_profile identity db).1 = {| jstatus := 200; jbody := JDoc reply |}
        /\ dom reply = list_to_set ["id"; "name"; "email"; "user_type";
                                    "created_at"; "last_login"]
        /\ reply !! "id" = Some (PStr (py_str id))
        /\ reply !! "name" = Some name
        /\ reply !! "email" = Some email
        /\ reply !! "user_type" = Some user_type
        /\ reply !! "created_at" = Some created_at
        /\ reply !! "last_login" = Some (dict_get user "last_login")
        /\ reply !! "password" = None).
Proof.
  split; [apply get_profile_reads|]. split.
  - intros Hf. unfold get_profile, handle_json, get_profile_body, mbind, route_bind,
      lift, read_users. by rewrite Hf.
  - intros * Hf Hid Hname Hemail Hut Hcr Hjs.
    apply Forall_cons in Hjs as [J1 Hjs]. apply Forall_cons in Hjs as [J2 Hjs].
    apply Forall_cons in Hjs as [J3 Hjs]. apply Forall_cons in Hjs as [J4 Hjs].
    apply Forall_cons in Hjs as [J5 _].
    eexists. split.
    + unfold get_profile, handle_json, get_profile_body, mbind, route_bind, lift,
        read_users. rewrite Hf, (find_user_not_empty _ _ _ _ Hf).
      unfold getitem. rewrite Hid, Hname, Hemail, Hut, Hcr. simpl.
      rewrite jsonify_doc_spec; [reflexivity|].
      intros k v Hk.
      repeat (apply lookup_insert_Some in Hk as [[_ <-]|[_ Hk]]; [done|]).
      by rewrite lookup_empty in Hk.
    + split; [by rewrite !dom_insert_L, dom_empty_L; simpl; set_solver|].
      repeat split; by simplify_map_eq.
Qed.

End ProfileFacts.

(** ** Position-based ids *)

Lemma lit_inj s1 s2 : lit s1 = lit s2 -> s1 = s2.
Proof.
  unfold lit. intros H.
  assert (E : list_ascii_of_string s1 = list_ascii_of_string s2).
  { revert H. generalize (list_ascii_of_string s1) (list_ascii_of_string s2).
    induction l as [|a l IH]; intros [|b l']; simpl; try done.
    intros [= Hab Hl]. f_equal; [|by apply IH].
    by rewrite <- (ascii_N_embedding a), <- (ascii_N_embedding b), Hab. }
  by rewrite <- (string_of_list_ascii_of_string s1),
             <- (string_of_list_ascii_of_string s2), E.
Qed.

Lemma id_eq_iff (n m : nat) :
  py_eq (PStr (lit (pretty n))) (PStr (lit (pretty m))) = bool_decide (n = m).
Proof.
  simpl. apply bool_decide_ext. split; [|by intros ->].
  intros H. by apply (inj pretty), lit_inj.
Qed.

Lemma ids_from_snoc n db (d : dict) :
  ids_from n (db ++ [d])
  = ids_from n db
    && bool_decide (d !! "_id" = Some (PStr (lit (pretty (n + length db)%nat)))).
Proof.
  revert n. induction db as [|x db IH]; intros n; simpl.
  - by rewrite Nat.add_0_r, andb_true_r.
  - rewrite IH, Nat.add_succ_r. simpl. by rewrite andb_assoc.
Qed.

Lemma ids_from_alter (f : dict -> dict) i n db :
  (forall d, f d !! "_id" = d !! "_id") ->
  ids_from n (alter f i db) = ids_from n db.
Proof.
  intros Hf. revert i n. induction db as [|x db IH]; intros i n; [done|].
  destruct i as [|i]; simpl.
  - by rewrite Hf.
  - change (list_alter f i db) with (alter f i db). by rewrite IH.
Qed.

Lemma ids_from_map (f : dict -> dict) n db :
  (forall d, f d !! "_id" = d !! "_id") ->
  ids_from n (map f db) = ids_from n db.
Proof.
  intros Hf. revert n. induction db as [|x db IH]; intros n; simpl; [done|].
  by rewrite Hf, IH.
Qed.

(** With position-based ids, the id [str(i + 1)] finds the document at
    position [i], and no other. *)
Lemma ids_from_find n m db : forall i (d : dict),
  ids_from n db = true -> db !! i = Some d ->
  find_user "_id" (PStr (lit (pretty (n + i)%nat))) db = Ok (Some d)
  /\ find_index_from m "_id" (PStr (lit (pretty (n + i)%nat))) db = Ok (Some (m + i)%nat).
Proof.
  revert n m. induction db as [|x db IH]; intros n m i d Hids Hi; [done|].
  simpl in Hids. apply andb_true_iff in Hids as [Hx Hids].
  apply bool_decide_eq_true in Hx. cbn [find_user find_index_from].
  unfold getitem. rewrite Hx. unfold mbind, result_bind. rewrite id_eq_iff.
  destruct i as [|i]; simpl in Hi.
  - injection Hi as ->. rewrite !Nat.add_0_r.
    by rewrite bool_decide_eq_true_2.
  - rewrite bool_decide_eq_false_2 by lia.
    rewrite !Nat.add_succ_r. apply (IH (S n) (S m) i d Hids Hi).
Qed.

Lemma ids_from_fresh n db :
  ids_from n db = true ->
  find_user "_id" (PStr (lit (pretty (n + length db)%nat))) db = Ok None.
Proof.
  revert n. induction db as [|x db IH]; intros n Hids; [done|].
  simpl in Hids. apply andb_true_iff in Hids as [Hx Hids].
  apply bool_decide_eq_true in Hx. cbn [find_user length].
  unfold getitem. rewrite Hx. unfold mbind, result_bind. rewrite id_eq_iff.
  rewrite bool_decide_eq_false_2 by lia.
  rewrite Nat.add_succ_r. apply (IH (S n) Hids).
Qed.

Lemma ids_from_lookup n db : forall i (d : dict),
  ids_from n db = true -> db !! i = Some d ->
  d !! "_id" = Some (PStr (lit (pretty (n + i)%nat))).
Proof.
  revert n. induction db as [|x db IH]; intros n i d Hids Hi; [done|].
  simpl in Hids. apply andb_true_iff in Hids as [Hx Hids].
  apply bool_decide_eq_true in Hx. destruct i as [|i]; simpl in Hi.
  - injection Hi as <-. by rewrite Nat.add_0_r.
  - rewrite Nat.add_succ_r. by apply (IH (S n)).
Qed.

Section UserStoreFacts.
Context {L : Libs}.

Lemma register_store_cases salt now data db :
  (register salt now data db).2 = db
  \/ exists user : dict,
       (register salt now data db).2 = db ++ [user]
       /\ user !! "_id" = Some (PStr (lit (pretty (length db + 1)%nat))).
Proof.
  destruct (decide (status (register salt now data db).1 = 201)) as [H|H].
  - right. destruct (register_201_inv _ _ _ _ H)
      as (email & hashed & text & name & Hm & He & Hv & Hh & Hname & Hn & Ha).
    destruct (register_created salt now _ _ _ _ _ _ Hm He Hv Hh Hname Hn Ha) as [-> _].
    eexists. split; [reflexivity|]. by simplify_map_eq.
  - left. by apply register_refused.
Qed.

Lemma change_password_store_cases salt identity data db :
  (change_password salt identity data db).2 = db
  \/ exists i new_hash,
       (change_password salt identity data db).2
       = alter (<["password" := PBytes new_hash]>) i db.
Proof.
  unfold change_password, handle, change_password_body, mbind, route_bind,
    result_bind, lift, read_users, write_users, mret, route_ret, getitem, not_user.
  repeat (first
    [ destruct (truthy (dict_get _ "current_password"))
    | destruct (truthy (dict_get _ "new_password"))
    | destruct (_ !! "new_password")
    | destruct (validate_password _) as [[[|] ?]|]
    | destruct (find_user _ _ _) as [[?|]|]
    | destruct (find_index _ _ _) as [[?|]|]
    | destruct (bool_decide _)
    | destruct (_ !! "current_password")
    | destruct (_ !! "password")
    | destruct (check_password _ _) as [[|]|]
    | destruct (hash_password _ _) ]; simpl); eauto.
Qed.

Lemma create_user_store_cases now data db :
  (create_user now data db).2 = db
  \/ exists user : dict,
       (create_user now data db).2 = db ++ [user]
       /\ user !! "_id" = Some (PStr (lit (pretty (length db + 1)%nat))).
Proof.
  unfold create_user, handle_json, create_user_body.
  destruct (first_absent data ["name"; "email"]); [by left|].
  unfold mbind, route_bind, result_bind, lift, read_users, write_users, mret, route_ret.
  destruct (getitem data "name"); simpl; [|by left].
  destruct (getitem data "email"); simpl; [|by left].
  destruct (any_email _ _) as [[|]|]; simpl; try by left.
  right. eexists. split; [reflexivity|]. by simplify_map_eq.
Qed.

Lemma update_user_store_cases user_id data db :
  (update_user user_id data db).2 = db
  \/ exists i,
       find_index "_id" (PStr user_id) db = Ok (Some i)
       /\ update_user user_id data db
          = ({| jstatus := 200; jbody := JMessage "User updated successfully" |},
             alter (fun user : dict => delete "_id" (delete "password" data) ∪ user) i db).
Proof.
  unfold update_user, handle_json, update_user_body, mbind, route_bind, lift,
    read_users, write_users.
  destruct (find_index "_id" (PStr user_id) db) as [[i|]|]; simpl; eauto.
Qed.

Lemma update_last_login_store_cases now user_id db :
  (update_last_login now user_id db).2 = db
  \/ exists i, (update_last_login now user_id db).2
               = alter (<["last_login" := PDatetime now]>) i db.
Proof.
  unfold update_last_login, handle_json, update_last_login_body, mbind, route_bind,
    lift, read_users, write_users.
  destruct (find_index "_id" (PStr user_id) db) as [[i|]|]; simpl; eauto.
Qed.

Lemma get_users_store db : (get_users db).2 = map (delete "password") db.
Proof.
  unfold get_users, handle_json, get_users_body, mbind, route_bind, lift,
    read_users, write_users.
  by destruct (jsonify_docs _).
Qed.

Lemma update_keeps_id (data d : dict) :
  (delete "_id" (delete "password" data) ∪ d) !! "_id" = d !! "_id"
  /\ (delete "_id" (delete "password" data) ∪ d) !! "password" = d !! "password".
Proof.
  split; apply lookup_union_r.
  - apply lookup_delete_eq.
  - rewrite lookup_delete_ne by done. apply lookup_delete_eq.
Qed.

(** ** X9 *)

(** X9. The user collection only grows, and each new document gets the id
    [str(len + 1)]: when every document carries the id of its position,
    this is still so after [register], [login], [change_password],
    [get_users], [create_user], [update_user] and [update_last_login],
    whatever their arguments.  So no two users ever share an id. *)
Theorem user_ids_stay_positional db :
  ids_sequential db = true ->
  (forall salt now data, ids_sequential (register salt now data db).2 = true)
  /\ (forall t_check t_write data, ids_sequential (login t_check t_write data db).2 = true)
  /\ (forall salt identity data,
        ids_sequential (change_password salt identity data db).2 = true)
  /\ ids_sequential (get_users db).2 = true
  /\ (forall now data, ids_sequential (create_user now data db).2 = true)
  /\ (forall user_id data, ids_sequential (update_user user_id data db).2 = true)
  /\ (forall now user_id, ids_sequential (update_last_login now user_id db).2 = true)
  /\ (forall i j (d d' : dict),
        db !! i = Some d -> db !! j = Some d' -> d !! "_id" = d' !! "_id" -> i = j).
Proof.
  unfold ids_sequential. intros Hids.
  assert (Hsnoc : forall user : dict,
            user !! "_id" = Some (PStr (lit (pretty (length db + 1)%nat))) ->
            ids_from 1 (db ++ [user]) = true).
  { intros user Hu. rewrite ids_from_snoc, Hids. simpl.
    apply bool_decide_eq_true. by rewrite Hu, Nat.add_1_r. }
  repeat split.
  - intros. destruct (register_store_cases salt now data db)
      as [->|(user & -> & Hu)]; auto.
  - intros. destruct (login_store_cases t_check t_write data db)
      as [->|(i & upd & -> & Hk)]; [done|].
    rewrite ids_from_alter; [done|]. intros d. apply set_items_frame.
    intros Hin. rewrite Forall_forall in Hk. specialize (Hk _ Hin).
    revert Hk. unfold lockout_keys. rewrite !elem_of_cons, elem_of_nil.
    by intros [|[|[|]]].
  - intros. destruct (change_password_store_cases salt identity data db)
      as [->|(i & h & ->)]; [done|].
    rewrite ids_from_alter; [done|]. intros d. by rewrite lookup_insert_ne.
  - rewrite get_users_store, ids_from_map; [done|].
    intros d. by rewrite lookup_delete_ne.
  - intros. destruct (create_user_store_cases now data db)
      as [->|(user & -> & Hu)]; auto.
  - intros. destruct (update_user_store_cases user_id data db)
      as [->|(i & _ & ->)]; [done|]. simpl.
    rewrite ids_from_alter; [done|]. intros d. apply update_keeps_id.
  - intros. destruct (update_last_login_store_cases now user_id db)
      as [->|(i & ->)]; [done|].
    rewrite ids_from_alter; [done|]. intros d. by rewrite lookup_insert_ne.
  - intros i j d d' Hi Hj Heq.
    rewrite (ids_from_lookup 1 db i d Hids Hi),
            (ids_from_lookup 1 db j d' Hids Hj) in Heq.
    injection Heq as Heq. apply lit_inj, (inj pretty) in Heq. lia.
Qed.

End UserStoreFacts.

Lemma alter_as_insert {A} (f : A -> A) i (l : list A) x :
  l !! i = Some x -> alter f i l = <[i := f x]> l.
Proof.
  revert i. induction l as [|y l IH]; intros [|i] H; simpl in *; try done.
  - by injection H as ->.
  - f_equal. by apply IH.
Qed.

Section UserRouteFacts.
Context {L : Libs}.

Lemma get_profile_found identity db (user : dict) id name email user_type created_at :
  find_user "_id" identity db = Ok (Some user) ->
  user !! "_id" = Some id -> user !! "name" = Some name ->
  user !! "email" = Some email -> user !! "user_type" = Some user_type ->
  user !! "created_at" = Some created_at ->
  Forall (fun v => jsonable v = true)
    [name; email; user_type; created_at; dict_get user "last_login"] ->
  (get_profile identity db).1
  = {| jstatus := 200;
       jbody := JDoc (<["last_login" := dict_get user "last_login"]>
                     (<["created_at" := created_at]>
                     (<["user_type" := user_type]>
                     (<["email" := email]>
                     (<["name" := name]>
                     (<["id" := PStr (py_str id)]> ∅)))))) |}.
Proof.
  intros Hf Hid Hname Hemail Hut Hcr Hjs.
  apply Forall_cons in Hjs as [J1 Hjs]. apply Forall_cons in Hjs as [J2 Hjs].
  apply Forall_cons in Hjs as [J3 Hjs]. apply Forall_cons in Hjs as [J4 Hjs].
  apply Forall_cons in Hjs as [J5 _].
  unfold get_profile, handle_json, get_profile_body, mbind, route_bind, lift,
    read_users. rewrite Hf, (find_user_not_empty _ _ _ _ Hf).
  unfold getitem. rewrite Hid, Hname, Hemail, Hut, Hcr. simpl.
  rewrite jsonify_doc_spec; [reflexivity|].
  intros k v Hk.
  repeat (apply lookup_insert_Some in Hk as [[_ <-]|[_ Hk]]; [done|]).
  by rewrite lookup_empty in Hk.
Qed.

(** ** X10 *)

(** X10. In a store with position-based ids, the id that [register]
    returns with its 201 reply resolves, in [get_profile], to the account
    just created: the profile shows that id, the name, email and role of
    the registration reply, the registration instant as creation time and
    no last login. *)
Theorem register_then_profile salt now data db :
  ids_sequential db = true ->
  status (register salt now data db).1 = 201 ->
  jsonable (dict_get_default data "user_type" (PStr (lit "member"))) = true ->
  exists user_id token view (reply : dict),
    payload (register salt now data db).1 = RegisterData user_id token view
    /\ (get_profile (PStr user_id) (register salt now data db).2).1
       = {| jstatus := 200; jbody := JDoc reply |}
    /\ reply !! "id" = Some (PStr user_id)
    /\ reply !! "name" = Some (view_name view)
    /\ reply !! "email" = Some (view_email view)
    /\ reply !! "user_type" = Some (view_user_type view)
    /\ reply !! "created_at" = Some (PDatetime now)
    /\ reply !! "last_login" = Some PNone.
Proof.
  intros Hids H201 Hjs.
  destruct (register_201_inv _ _ _ _ H201)
    as (email & hashed & text & name & Hm & He & Hv & Hh & Hname & Hn & Ha).
  destruct (register_valid salt now _ _ _ _ _ _ _ Hm He Hv Hh Hname Hn Ha)
    as (u & _ & Hrun).
  destruct (register_created salt now _ _ _ _ _ _ Hm He Hv Hh Hname Hn Ha) as [Hdb _].
  rewrite Hrun in Hdb |- *. simpl in Hdb. rewrite Hdb. simpl.
  set (user := <["_id" := _]> _).
  assert (Hf : find_user "_id" (PStr (lit (pretty (length db + 1)%nat)))
                 (db ++ [user]) = Ok (Some user)).
  { apply (find_user_snoc _ _ _ _ (PStr (lit (pretty (length db + 1)%nat)))).
    - rewrite Nat.add_1_r. apply (ids_from_fresh 1 db Hids).
    - by unfold user; simplify_map_eq.
    - apply py_eq_str_refl. }
  eexists _, _, _, _. split; [reflexivity|]. split.
  - eapply (get_profile_found _ _ user); [exact Hf|..];
      try (by unfold user; simplify_map_eq).
    repeat (apply Forall_cons; split); try done;
      try (unfold dict_get, user; by simplify_map_eq).
  - simpl. unfold dict_get, user. repeat split; by simplify_map_eq.
Qed.

Lemma find_user_map key x (f : dict -> dict) db user :
  (forall d, f d !! key = d !! key) ->
  find_user key x db = Ok (Some user) ->
  find_user key x (map f db) = Ok (Some (f user)).
Proof.
  intros Hf. induction db as [|d ds IH]; simpl; [discriminate|].
  unfold getitem. rewrite Hf.
  destruct (d !! key) as [v|]; simpl; [|discriminate].
  destruct (py_eq v x); [by intros [= ->]|exact IH].
Qed.

Lemma is_locked_ext (d d' : dict) now :
  d' !! "locked_until" = d !! "locked_until" -> is_locked d' now = is_locked d now.
Proof. unfold is_locked, dict_get, getitem. by intros ->. Qed.

Lemma attempt_no_password t_check t_write email password (user : dict) db :
  is_locked user t_check = Ok false ->
  user !! "password" = None ->
  handle (login_attempt t_check t_write email password user) db
  = ({| status := 500; payload := Failure (StrOfExn (KeyError "password")) |}, db).
Proof.
  intros Hl Hp. unfold handle, login_attempt, mbind at 1 2, route_bind, lift.
  rewrite Hl. unfold getitem. by rewrite Hp.
Qed.

(** ** X11 *)

(** X11. [get_users] works on the stored list itself, so its
    [user.pop('password', None)] removes the hash from every stored
    document: afterwards the store is the old one with [password] deleted
    everywhere.  From then on a login for any existing, unlocked account
    ends in 500 with the text of [KeyError('password')], whatever the
    password. *)
Theorem get_users_drops_hashes db :
  (get_users db).2 = map (delete "password") db
  /\ (forall t_check t_write data email password user,
        login_request data email password ->
        find_user "email" (PStr email) db = Ok (Some user) ->
        is_locked user t_check = Ok false ->
        login t_check t_write data (get_users db).2
        = ({| status := 500; payload := Failure (StrOfExn (KeyError "password")) |},
           (get_users db).2)).
Proof.
  split; [apply get_users_store|].
  intros * Hreq Hf Hl. rewrite get_users_store.
  assert (Hf' : find_user "email" (PStr email) (map (delete "password") db)
                = Ok (Some (delete "password" user))).
  { apply find_user_map; [|done]. intros d. by rewrite lookup_delete_ne. }
  rewrite (login_reaches_user _ _ _ _ _ _ _ Hreq Hf').
  apply attempt_no_password; [|apply lookup_delete_eq].
  rewrite <- Hl. apply is_locked_ext. by rewrite lookup_delete_ne.
Qed.

(** ** X12 *)


(** ** X13 *)

(** X13. [update_user] never changes the number of documents, nor the id
    or the password hash of any document, whatever the body.  With no
    document under the id it answers 404 and writes nothing; otherwise it
    answers 200 and writes every other pair of the body into the first
    document with that id and into no other.  The lockout fields are
    among those it writes: a body with [locked_until] null leaves the
    account unlocked at every instant. *)
Theorem update_user_effect user_id data db :
  length (update_user user_id data db).2 = length db
  /\ (forall j d, db !! j = Some d ->
        exists d', (update_user user_id data db).2 !! j = Some d'
          /\ d' !! "_id" = d !! "_id" /\ d' !! "password" = d !! "password")
  /\ (find_index "_id" (PStr user_id) db = Ok None ->
        update_user user_id data db = (jfailure 404 "User not found", db))
  /\ (forall i d, find_index "_id" (PStr user_id) db = Ok (Some i) ->
        db !! i = Some d ->
        exists d',
          update_user user_id data db
          = ({| jstatus := 200; jbody := JMessage "User updated successfully" |},
             <[i := d']> db)
          /\ (forall k v, k <> "_id" -> k <> "password" ->
                data !! k = Some v -> d' !! k = Some v)
          /\ (forall k, data !! k = None -> d' !! k = d !! k)
          /\ (data !! "locked_until" = Some PNone ->
                forall now, is_locked d' now = Ok false)).
Proof.
  set (data' := delete "_id" (delete "password" data)).
  assert (Hcases := update_user_store_cases user_id data db).
  split; [|split; [|split]].
  - destruct Hcases as [->|(i & _ & ->)]; [done|]. apply length_alter.
  - intros j d Hj. destruct Hcases as [->|(i & _ & ->)]; [by exists d|]. simpl.
    destruct (decide (i = j)) as [->|Hne].
    + eexists. rewrite list_lookup_alter_eq, Hj. split; [done|].
      apply update_keeps_id.
    + exists d. by rewrite list_lookup_alter_ne.
  - intros Hn. unfold update_user, handle_json, update_user_body, mbind,
      route_bind, lift, read_users. by rewrite Hn.
  - intros i d Hi Hd. exists (data' ∪ d). split; [|split; [|split]].
    + unfold update_user, handle_json, update_user_body, mbind, route_bind, lift,
        read_users, write_users. rewrite Hi. simpl.
      by rewrite (alter_as_insert _ _ _ _ Hd).
    + intros k v H1 H2 Hk. apply lookup_union_Some_l.
      unfold data'. by rewrite !lookup_delete_ne.
    + intros k Hk. apply lookup_union_r. unfold data'.
      destruct (decide (k = "_id")) as [->|?]; [apply lookup_delete_eq|].
      rewrite lookup_delete_ne by done.
      destruct (decide (k = "password")) as [->|?]; [apply lookup_delete_eq|].
      by rewrite lookup_delete_ne.
    + intros Hlu now. apply is_locked_stale. right; left.
      apply lookup_union_Some_l. unfold data'. by rewrite !lookup_delete_ne.
Qed.

End UserRouteFacts.

(** ** Registering an address that is already stored *)

Lemma find_none_any_email x db :
  find_user "email" x db = Ok None -> any_email x db = Ok false.
Proof.
  induction db as [|d ds IH]; simpl; [done|].
  destruct (getitem d "email") as [w|]; simpl; [|discriminate].
  destruct (py_eq w x); [discriminate|exact IH].
Qed.

(** An address the pattern accepts is its own trimmed form, or that form
    followed by one newline. *)
Lemma accepted_email_trimmed (s : list N) :
  accepts email_pattern s = true -> s = str_strip s \/ s = str_strip s ++ [10%N].
Proof.
  intros H. apply email_pattern_parts in H
    as (local & domain & tld & tail & -> & _ & Hl & _ & Hd & _ & Ht & Htail).
  set (core := local ++ [64%N] ++ domain ++ [46%N] ++ tld).
  assert (Hcore : Forall (fun c => is_space c = false) core).
  { unfold core. rewrite !Forall_app. repeat split.
    - eapply Forall_impl; [exact Hl|]. intros c Hc. by apply email_local_plain.
    - repeat constructor.
    - eapply Forall_impl; [exact Hd|]. intros c Hc. by apply email_domain_plain.
    - repeat constructor.
    - eapply Forall_impl; [exact Ht|]. intros c Hc. by apply email_alpha_plain. }
  assert (Hs : local ++ [64%N] ++ domain ++ [46%N] ++ tld ++ tail = core ++ tail).
  { unfold core. by rewrite <- !app_assoc. }
  rewrite Hs. destruct (str_strip_plain _ Hcore) as [Hs1 Hs2].
  destruct Htail as [-> | ->].
  - left. by rewrite app_nil_r, Hs1.
  - right. by rewrite Hs2.
Qed.

Section RegisterClaims.
Context {L : Libs}.

Lemma register_bad_email salt now data db :
  first_missing data ["name"; "email"; "password"] = None ->
  validate_email (dict_get data "email") = Ok false ->
  register salt now data db = (failure 400 "Invalid email format", db).
Proof.
  intros Hm He.
  destruct (required_fields_present _ Hm) as (H1 & H2 & H3).
  destruct (field_present _ _ H2) as [G2 _].
  unfold register, handle, register_body. rewrite Hm.
  unfold mbind, route_bind, lift. rewrite G2. simpl. by rewrite He.
Qed.

Lemma register_weak_password salt now data db text :
  first_missing data ["name"; "email"; "password"] = None ->
  validate_email (dict_get data "email") = Ok true ->
  validate_password (dict_get data "password") = Ok (false, text) ->
  register salt now data db = (failure 400 text, db).
Proof.
  intros Hm He Hv.
  destruct (required_fields_present _ Hm) as (H1 & H2 & H3).
  destruct (field_present _ _ H2) as [G2 _].
  destruct (field_present _ _ H3) as [G3 _].
  unfold register, handle, register_body. rewrite Hm.
  unfold mbind, route_bind, lift. rewrite G2, G3. simpl. rewrite He. simpl.
  by rewrite Hv.
Qed.

(** What [create_user] appends: the address is stored as the body has it. *)
Lemma create_user_appends now data db :
  first_absent data ["name"; "email"] = None ->
  any_email (dict_get data "email") db = Ok false ->
  exists user : dict,
    user !! "email" = Some (dict_get data "email")
    /\ jstatus (create_user now data db).1 = 201
    /\ (create_user now data db).2 = db ++ [user].
Proof.
  intros Hm Ha.
  assert (Hn : getitem data "name" = Ok (dict_get data "name")
               /\ getitem data "email" = Ok (dict_get data "email")).
  { simpl in Hm. unfold getitem, dict_get.
    destruct (data !! "name"); [|discriminate].
    by destruct (data !! "email"). }
  destruct Hn as [Hn He].
  eexists. split; cycle 1.
  - unfold create_user, handle_json, create_user_body. rewrite Hm.
    unfold mbind, route_bind, lift, read_users, write_users.
    rewrite Hn, He. simpl. rewrite Ha. simpl. split; reflexivity.
  - by simplify_map_eq.
Qed.

(** ** C9 *)

(** C9, as the code has it.  Take a registration whose three fields are
    present, whose email passes the format check, whose password passes the
    strength check and can be hashed, and whose name is a string.  It is
    refused with "Email already registered", writing nothing, when a document
    is stored under its normalised email, the stored value being compared as
    it is; when no document is stored under it, the registration answers 201
    and appends a document with the normalised email.  [register] stores the
    normalised email, so the refusal is met right after a registration that
    answered 201 for an address with the same normalised form, and for
    "User@Example.com" followed by "user@example.com".  [create_user]
    stores the address as the body has it: after it stored an address that
    differs from the normalised email of the registration, the registration
    answers 201 and the store holds both documents, whether or not the two
    addresses have the same normalised form.  A request whose email is
    neither its own trimmed form nor that form followed by one newline is
    refused before that with "Invalid email format", and one whose password
    fails the strength check with the message of that check; both write
    nothing. *)
Theorem register_duplicate_email `{!LibsSpec L} :
  (forall salt now data db email hashed text name user,
     first_missing data ["name"; "email"; "password"] = None ->
     validate_email (dict_get data "email") = Ok true ->
     validate_password (dict_get data "password") = Ok (true, text) ->
     hash_password salt (dict_get data "password") = Ok hashed ->
     dict_get data "name" = PStr name ->
     normalize_email (dict_get data "email") = Ok email ->
     find_user "email" (PStr email) db = Ok (Some user) ->
     register salt now data db = (failure 400 "Email already registered", db))
  /\ (forall salt now data db email hashed text name,
     first_missing data ["name"; "email"; "password"] = None ->
     validate_email (dict_get data "email") = Ok true ->
     validate_password (dict_get data "password") = Ok (true, text) ->
     hash_password salt (dict_get data "password") = Ok hashed ->
     dict_get data "name" = PStr name ->
     normalize_email (dict_get data "email") = Ok email ->
     find_user "email" (PStr email) db = Ok None ->
     status (register salt now data db).1 = 201
     /\ exists user : dict,
          (register salt now data db).2 = db ++ [user]
          /\ user !! "email" = Some (PStr email))
  /\ (forall salt1 now1 data1 db salt2 now2 data2 email hashed text name,
     status (register salt1 now1 data1 db).1 = 201 ->
     normalize_email (dict_get data1 "email") = Ok email ->
     first_missing data2 ["name"; "email"; "password"] = None ->
     validate_email (dict_get data2 "email") = Ok true ->
     validate_password (dict_get data2 "password") = Ok (true, text) ->
     hash_password salt2 (dict_get data2 "password") = Ok hashed ->
     dict_get data2 "name" = PStr name ->
     normalize_email (dict_get data2 "email") = Ok email ->
     register salt2 now2 data2 (register salt1 now1 data1 db).2
     = (failure 400 "Email already registered", (register salt1 now1 data1 db).2))
  /\ (forall salt1 now1 data1 db salt2 now2 data2 hashed text name,
     dict_get data1 "email" = PStr (lit "User@Example.com") ->
     dict_get data2 "email" = PStr (lit "user@example.com") ->
     status (register salt1 now1 data1 db).1 = 201 ->
     first_missing data2 ["name"; "email"; "password"] = None ->
     validate_password (dict_get data2 "password") = Ok (true, text) ->
     hash_password salt2 (dict_get data2 "password") = Ok hashed ->
     dict_get data2 "name" = PStr name ->
     register salt2 now2 data2 (register salt1 now1 data1 db).2
     = (failure 400 "Email already registered", (register salt1 now1 data1 db).2))
  /\ (forall now0 data0 db stored salt now data email hashed text name,
     first_absent data0 ["name"; "email"] = None ->
     dict_get data0 "email" = PStr stored ->
     find_user "email" (PStr stored) db = Ok None ->
     stored <> email ->
     first_missing data ["name"; "email"; "password"] = None ->
     validate_email (dict_get data "email") = Ok true ->
     validate_password (dict_get data "password") = Ok (true, text) ->
     hash_password salt (dict_get data "password") = Ok hashed ->
     dict_get data "name" = PStr name ->
     normalize_email (dict_get data "email") = Ok email ->
     find_user "email" (PStr email) db = Ok None ->
     jstatus (create_user now0 data0 db).1 = 201
     /\ status (register salt now data (create_user now0 data0 db).2).1 = 201
     /\ exists user0 user : dict,
          (register salt now data (create_user now0 data0 db).2).2
          = db ++ [user0; user]
          /\ user0 !! "email" = Some (PStr stored)
          /\ user !! "email" = Some (PStr email))
  /\ (forall salt now data db s,
     first_missing data ["name"; "email"; "password"] = None ->
     dict_get data "email" = PStr s ->
     s <> str_strip s -> s <> str_strip s ++ [10%N] ->
     register salt now data db = (failure 400 "Invalid email format", db))
  /\ (forall salt now data db text,
     first_missing data ["name"; "email"; "password"] = None ->
     validate_email (dict_get data "email") = Ok true ->
     validate_password (dict_get data "password") = Ok (false, text) ->
     register salt now data db = (failure 400 text, db)).
Proof.
  assert (Hstored : forall salt now data db email hashed text name,
     first_missing data ["name"; "email"; "password"] = None ->
     validate_email (dict_get data "email") = Ok true ->
     validate_password (dict_get data "password") = Ok (true, text) ->
     hash_password salt (dict_get data "password") = Ok hashed ->
     dict_get data "name" = PStr name ->
     normalize_email (dict_get data "email") = Ok email ->
     any_email (PStr email) db = Ok true ->
     register salt now data db = (failure 400 "Email already registered", db)).
  { intros * Hm He Hv Hh Hname Hn Ha.
    by destruct (register_valid salt now _ _ _ _ _ _ _ Hm He Hv Hh Hname Hn Ha)
      as (u & _ & ->). }
  assert (Hfree : forall salt now data db email hashed text name,
     first_missing data ["name"; "email"; "password"] = None ->
     validate_email (dict_get data "email") = Ok true ->
     validate_password (dict_get data "password") = Ok (true, text) ->
     hash_password salt (dict_get data "password") = Ok hashed ->
     dict_get data "name" = PStr name ->
     normalize_email (dict_get data "email") = Ok email ->
     any_email (PStr email) db = Ok false ->
     status (register salt now data db).1 = 201
     /\ exists user : dict,
          (register salt now data db).2 = db ++ [user]
          /\ user !! "email" = Some (PStr email)).
  { intros * Hm He Hv Hh Hname Hn Ha.
    destruct (register_valid salt now _ _ _ _ _ _ _ Hm He Hv Hh Hname Hn Ha)
      as (u & Hu & ->). split; [done|]. by exists u. }
  assert (Htwice : forall salt1 now1 data1 db salt2 now2 data2 email hashed text name,
     status (register salt1 now1 data1 db).1 = 201 ->
     normalize_email (dict_get data1 "email") = Ok email ->
     first_missing data2 ["name"; "email"; "password"] = None ->
     validate_email (dict_get data2 "email") = Ok true ->
     validate_password (dict_get data2 "password") = Ok (true, text) ->
     hash_password salt2 (dict_get data2 "password") = Ok hashed ->
     dict_get data2 "name" = PStr name ->
     normalize_email (dict_get data2 "email") = Ok email ->
     register salt2 now2 data2 (register salt1 now1 data1 db).2
     = (failure 400 "Email already registered", (register salt1 now1 data1 db).2)).
  { intros * H201 Hn1 Hm He Hv Hh Hname Hn.
    destruct (register_201_inv _ _ _ _ H201)
      as (email1 & h1 & x1 & n1 & Hm1 & He1 & Hv1 & Hh1 & Hname1 & Hn1' & Ha1).
    rewrite Hn1 in Hn1'. injection Hn1' as <-.
    destruct (register_valid salt1 now1 _ _ _ _ _ _ _ Hm1 He1 Hv1 Hh1 Hname1 Hn1 Ha1)
      as (u & Hu & ->). simpl.
    apply (Hstored _ _ _ _ email hashed text name); try done.
    rewrite (any_email_snoc _ _ _ _ Ha1 Hu). by rewrite py_eq_str_refl. }
  split; [|split; [|split; [exact Htwice|split; [|split; [|split]]]]].
  - intros * Hm He Hv Hh Hname Hn Hf.
    apply (Hstored _ _ _ _ email hashed text name); try done.
    by apply (find_user_any_email _ _ user).
  - intros * Hm He Hv Hh Hname Hn Hf.
    apply (Hfree _ _ _ _ email hashed text name); try done.
    by apply find_none_any_email.
  - intros * E1 E2 H201 Hm Hv Hh Hname.
    assert (Hlow : forall s, forallb (fun c => c <? 128)%N s = true ->
              str_lower s = map ascii_lower s).
    { intros s Hs. apply lower_ascii. apply Forall_forall. intros c Hc.
      rewrite forallb_forall in Hs. apply N.ltb_lt, Hs. by apply list_elem_of_In. }
    apply (Htwice _ _ _ _ _ _ _ (lit "user@example.com") hashed text name);
      try done.
    + rewrite E1. unfold normalize_email. simpl. by rewrite Hlow.
    + by rewrite E2.
    + rewrite E2. unfold normalize_email. simpl. by rewrite Hlow.
  - intros * Hm0 E0 Hf0 Hne Hm He Hv Hh Hname Hn Hf.
    destruct (create_user_appends now0 data0 db Hm0) as (user0 & Hu0 & H201 & Hdb).
    { rewrite E0. by apply find_none_any_email. }
    rewrite E0 in Hu0. split; [exact H201|]. rewrite Hdb.
    destruct (Hfree salt now data (db ++ [user0]) email hashed text name)
      as (Hst & user & Hrun & Hu); try done.
    { rewrite (any_email_snoc _ _ _ _ (find_none_any_email _ _ Hf) Hu0). simpl.
      f_equal. by apply bool_decide_eq_false. }
    split; [exact Hst|]. exists user0, user. rewrite Hrun, <- app_assoc. done.
  - intros * Hm E Hs1 Hs2. apply register_bad_email; [done|]. rewrite E. simpl.
    f_equal. destruct (accepts email_pattern s) eqn:Hacc; [|done].
    by destruct (accepted_email_trimmed s Hacc).
  - intros *. apply register_weak_password.
Qed.

End RegisterClaims.

(** C9 fails as stated.  An address padded with a blank has the normalised
    form of Ann's, yet registering it is refused for its format; a
    registration of Ann's very address with a weak password is refused for
    the password.  And after [create_user] stored "User@Example.com" as the
    body has it, registering "user@example.com", of the same normalised
    form, answers 201: the store then holds two accounts for one normalised
    address. *)
Lemma register_same_normalized_counterexample :
  find_user "email" (PStr (lit "user@example.com")) Toy.db1 = Ok (Some Toy.ann)
  /\ normalize_email (L := Toy.libs) (PStr (lit " user@example.com"))
     = Ok (lit "user@example.com")
  /\ register (L := Toy.libs) Toy.salt 2000
       (Toy.request "Bob" " user@example.com" "Valid1Pass") Toy.db1
     = (failure 400 "Invalid email format", Toy.db1)
  /\ register (L := Toy.libs) Toy.salt 2000
       (Toy.request "Bob" "user@example.com" "weak") Toy.db1
     = (failure 400 "Password must be at least 8 characters long", Toy.db1)
  /\ jstatus (create_user 1000
                (<["name" := PStr (lit "Ann")]>
                   (<["email" := PStr (lit "User@Example.com")]> ∅)) []).1 = 201
  /\ normalize_email (L := Toy.libs) (PStr (lit "User@Example.com"))
     = Ok (lit "user@example.com")
  /\ status (register (L := Toy.libs) Toy.salt 2000
               (Toy.request "Bob" "user@example.com" "Valid1Pass")
               (create_user 1000
                  (<["name" := PStr (lit "Ann")]>
                     (<["email" := PStr (lit "User@Example.com")]> ∅)) []).2).1 = 201
  /\ map (fun u : dict => u !! "email")
       (register (L := Toy.libs) Toy.salt 2000
          (Toy.request "Bob" "user@example.com" "Valid1Pass")
          (create_user 1000
             (<["name" := PStr (lit "Ann")]>
                (<["email" := PStr (lit "User@Example.com")]> ∅)) []).2).2
     = [Some (PStr (lit "User@Example.com")); Some (PStr (lit "user@example.com"))].
Proof. repeat split; vm_compute; reflexivity. Qed.

Lemma register_duplicate_email_witness :
  status (register (L := Toy.libs) Toy.salt 1000
            (Toy.request "Ann" "User@Example.com" "Valid1Pass") []).1 = 201
  /\ register (L := Toy.libs) Toy.salt 2000
       (Toy.request "Bob" "user@example.com" "Valid1Pass") Toy.db1
     = (failure 400 "Email already registered", Toy.db1)
  /\ register (L := Toy.libs) Toy.salt 2000
       (Toy.request "Bob" " user@example.com" "Valid1Pass") Toy.db1
     = (failure 400 "Invalid email format", Toy.db1)
  /\ status (register (L := Toy.libs) Toy.salt 2000
               (Toy.request "Bob" "user@example.com" "Valid1Pass")
               (create_user 1000
                  (<["name" := PStr (lit "Ann")]>
                     (<["email" := PStr (lit "User@Example.com")]> ∅)) []).2).1 = 201.
Proof.
  destruct (@register_duplicate_email Toy.libs toy_libs_spec)
    as (_ & _ & _ & Hex & Hraw & Hpad & _).
  split; [reflexivity|]. split; [|split].
  - eapply (Hex Toy.salt 1000 (Toy.request "Ann" "User@Example.com" "Valid1Pass") []
              Toy.salt 2000 (Toy.request "Bob" "user@example.com" "Valid1Pass"));
      reflexivity.
  - apply (Hpad Toy.salt 2000 _ Toy.db1 (lit " user@example.com"));
      [reflexivity|reflexivity|vm_compute; discriminate|vm_compute; discriminate].
  - eapply (Hraw 1000 _ [] (lit "User@Example.com") Toy.salt 2000
              (Toy.request "Bob" "user@example.com" "Valid1Pass")
              (lit "user@example.com"));
      [reflexivity|reflexivity|reflexivity|vm_compute; discriminate|..];
      reflexivity.
Defined.

(** ** Contacts *)

Lemma create_contact_run now data db :
  first_absent data ["name"; "email"; "message"] = None ->
  create_contact now data db
  = ({| jstatus := 201;
        jbody := JDoc {["_id" := PStr (lit (pretty (length db + 1)%nat))]} |},
     db ++ [<["_id" := PStr (lit (pretty (length db + 1)%nat))]>
            (<["created_at" := PDatetime now]>
            (<["status" := PStr (lit "new")]>
            (<["message" := dict_get data "message"]>
            (<["company" := dict_get_default data "company" (PStr [])]>
            (<["email" := dict_get data "email"]>
            (<["name" := dict_get data "name"]> ∅))))))]).
Proof.
  intros Hm. unfold create_contact, handle_json, create_contact_body. rewrite Hm.
  simpl in Hm. unfold mbind, route_bind, lift, read_users, write_users, getitem,
    dict_get.
  destruct (data !! "name"); [|discriminate].
  destruct (data !! "email"); [|discriminate].
  by destruct (data !! "message").
Qed.

Lemma create_contact_store_cases now data db :
  (create_contact now data db).2 = db
  \/ exists contact : dict,
       (create_contact now data db).2 = db ++ [contact]
       /\ contact !! "_id" = Some (PStr (lit (pretty (length db + 1)%nat))).
Proof.
  destruct (first_absent data ["name"; "email"; "message"]) eqn:Hm.
  - left. unfold create_contact, handle_json, create_contact_body. by rewrite Hm.
  - right. rewrite (create_contact_run _ _ _ Hm). eexists. split; [reflexivity|].
    by simplify_map_eq.
Qed.

Lemma delete_contact_run contact_id db i :
  find_index "_id" (PStr contact_id) db = Ok (Some i) ->
  delete_contact contact_id db
  = ({| jstatus := 200; jbody := JMessage "Contact deleted successfully" |},
     delete i db).
Proof.
  intros Hi. unfold delete_contact, handle_json, delete_contact_body, mbind,
    route_bind, lift, read_users, write_users. by rewrite Hi.
Qed.

(** ** X14 *)

(** X14. Contact ids are [str(len + 1)] at creation, and [delete_contact]
    shortens the list, so ids are reused: in a store with position-based
    ids, deleting any contact but the last one and then creating a contact
    leaves two contacts with the same id, the former last one and the new
    one. *)
Theorem contact_id_reused_after_delete db i now data :
  ids_sequential db = true ->
  (S i < length db)%nat ->
  first_absent data ["name"; "email"; "message"] = None ->
  exists (a b : dict),
    (delete_contact (lit (pretty (S i))) db).1
    = {| jstatus := 200; jbody := JMessage "Contact deleted successfully" |}
    /\ (create_contact now data (delete_contact (lit (pretty (S i))) db).2).1
       = {| jstatus := 201; jbody := JDoc {["_id" := PStr (lit (pretty (length db)))]} |}
    /\ (create_contact now data (delete_contact (lit (pretty (S i))) db).2).2
         !! (length db - 2)%nat = Some a
    /\ (create_contact now data (delete_contact (lit (pretty (S i))) db).2).2
         !! (length db - 1)%nat = Some b
    /\ a !! "_id" = Some (PStr (lit (pretty (length db))))
    /\ b !! "_id" = Some (PStr (lit (pretty (length db)))).
Proof.
  unfold ids_sequential. intros Hids Hi Hm.
  destruct (lookup_lt_is_Some_2 db i) as [d Hd]; [lia|].
  destruct (lookup_lt_is_Some_2 db (length db - 1)) as [a Ha]; [lia|].
  destruct (ids_from_find 1 0 db i d Hids Hd) as [_ Hfi].
  change (1 + i)%nat with (S i) in Hfi. simpl in Hfi.
  rewrite (delete_contact_run _ _ i Hfi). simpl.
  rewrite (create_contact_run _ _ _ Hm).
  assert (Hlen : length (delete i db) = (length db - 1)%nat).
  { rewrite length_delete by eauto. lia. }
  rewrite Hlen. replace (length db - 1 + 1)%nat with (length db) by lia.
  exists a. eexists. split; [done|]. split; [done|]. simpl.
  split; [|split; [|split]].
  - rewrite lookup_app_l by (rewrite Hlen; lia).
    rewrite list_lookup_delete_ge by lia.
    by replace (S (length db - 2)) with (length db - 1)%nat by lia.
  - rewrite lookup_app_r by (rewrite Hlen; lia).
    rewrite Hlen, Nat.sub_diag. reflexivity.
  - rewrite (ids_from_lookup 1 db _ a Hids Ha).
    by replace (1 + (length db - 1))%nat with (length db) by lia.
  - by simplify_map_eq.
Qed.

(** ** X15 *)

(** X15. [create_contact] and [update_contact] keep contact ids
    position-based, whatever their arguments ([update_contact] skips the
    [_id] of the body), and [get_contacts] writes nothing; with no contact
    under the id, [update_contact] and [delete_contact] answer 404 and
    write nothing. *)
Theorem contact_ids_kept db :
  ids_sequential db = true ->
  (forall now data, ids_sequential (create_contact now data db).2 = true)
  /\ (forall contact_id data, ids_sequential (update_contact contact_id data db).2 = true)
  /\ (get_contacts db).2 = db
  /\ (forall contact_id data,
        find_index "_id" (PStr contact_id) db = Ok None ->
        update_contact contact_id data db = (jfailure 404 "Contact not found", db)
        /\ delete_contact contact_id db = (jfailure 404 "Contact not found", db)).
Proof.
  unfold ids_sequential. intros Hids. split; [|split; [|split]].
  - intros. destruct (create_contact_store_cases now data db)
      as [->|(c & -> & Hc)]; [done|].
    rewrite ids_from_snoc, Hids. simpl. apply bool_decide_eq_true.
    by rewrite Hc, Nat.add_1_r.
  - intros. unfold update_contact, handle_json, update_contact_body, mbind,
      route_bind, lift, read_users, write_users.
    destruct (find_index "_id" (PStr contact_id) db) as [[i|]|]; simpl; try done.
    rewrite ids_from_alter; [done|]. intros d.
    apply lookup_union_r, lookup_delete_eq.
  - unfold get_contacts, handle_json, get_contacts_body, mbind, route_bind, lift,
      read_users. by destruct (jsonify_docs db).
  - intros contact_id data Hn. split.
    + unfold update_contact, handle_json, update_contact_body, mbind, route_bind,
        lift, read_users. by rewrite Hn.
    + unfold delete_contact, handle_json, delete_contact_body, mbind, route_bind,
        lift, read_users. by rewrite Hn.
Qed.

(** ** Sanitising blog input *)

Local Abbreviation cnt := (count_occ N.eq_dec).

Lemma Forall_rev_list {A} (P : A -> Prop) (s : list A) : Forall P s -> Forall P (rev s).
Proof.
  rewrite !Forall_forall. intros H x Hx. apply H.
  apply list_elem_of_In, in_rev, list_elem_of_In, Hx.
Qed.

Lemma lstrip_Forall (P : N -> Prop) s : Forall P s -> Forall P (lstrip s).
Proof.
  induction 1 as [|c s Hc Hs IH]; simpl; [constructor|].
  destruct (is_space c); [done|by constructor].
Qed.

Lemma str_strip_Forall (P : N -> Prop) s : Forall P s -> Forall P (str_strip s).
Proof.
  intros H. unfold str_strip.
  by apply Forall_rev_list, lstrip_Forall, Forall_rev_list, lstrip_Forall.
Qed.

Lemma replace_char_Forall (Q : N -> Prop) c b s :
  Forall Q s -> Forall Q b -> Forall Q (replace_char c b s).
Proof.
  intros Hs Hb. unfold replace_char. induction Hs as [|x s Hx Hs IH]; simpl; [done|].
  apply Forall_app. split; [|done].
  destruct (x =? c)%N; [done|by constructor].
Qed.

Lemma replace_char_removes c b s :
  Forall (fun x => x <> c) b -> Forall (fun x => x <> c) (replace_char c b s).
Proof.
  intros Hb. unfold replace_char. induction s as [|x s IH]; simpl; [done|].
  apply Forall_app. split; [|done].
  destruct (N.eqb_spec x c); [done|by constructor].
Qed.

Ltac no_char := repeat constructor; discriminate.

Lemma html_escape_clean s : Forall (fun c => dangerous c = false) (html_escape s).
Proof.
  unfold html_escape.
  set (s1 := replace_char 38 _ s). set (s2 := replace_char 60 _ s1).
  set (s3 := replace_char 62 _ s2). set (s4 := replace_char 34 _ s3).
  assert (H60 : Forall (fun x => x <> 60%N) s2) by (apply replace_char_removes; no_char).
  assert (H62 : Forall (fun x => x <> 62%N) s3) by (apply replace_char_removes; no_char).
  assert (H34 : Forall (fun x => x <> 34%N) s4) by (apply replace_char_removes; no_char).
  assert (H39 : Forall (fun x => x <> 39%N) (replace_char 39 (lit "&#x27;") s4))
    by (apply replace_char_removes; no_char).
  assert (G60 : Forall (fun x => x <> 60%N) (replace_char 39 (lit "&#x27;") s4)).
  { do 3 (apply replace_char_Forall; [|no_char]). exact H60. }
  assert (G62 : Forall (fun x => x <> 62%N) (replace_char 39 (lit "&#x27;") s4)).
  { do 2 (apply replace_char_Forall; [|no_char]). exact H62. }
  assert (G34 : Forall (fun x => x <> 34%N) (replace_char 39 (lit "&#x27;") s4)).
  { apply replace_char_Forall; [|no_char]. exact H34. }
  rewrite Forall_forall in *. intros x Hx. unfold dangerous.
  rewrite !orb_false_iff, !N.eqb_neq. repeat split; eauto.
Qed.

Lemma re_sub_remove_id cls s :
  Forall (fun c => cls c = false) s -> re_sub_remove cls s = s.
Proof.
  unfold re_sub_remove. induction 1 as [|c s Hc _ IH]; [done|].
  rewrite filter_cons_True by done. by rewrite IH.
Qed.

Lemma sanitize_input_str s :
  sanitize_input (PStr s) = PStr (str_strip (html_escape s)).
Proof. simpl. by rewrite (re_sub_remove_id _ _ (html_escape_clean s)). Qed.

(** ** X16 *)

(** X16. After [html.escape] no angle bracket and no quote is left, so the
    removal by [re.sub] that follows never removes anything:
    [sanitize_input] of a string is the stripped [html.escape] of it, and
    the result contains none of the two angle brackets and the two quotes.
    A value that is not a string is returned as it is. *)
Theorem sanitize_input_clean :
  (forall s, exists t,
     sanitize_input (PStr s) = PStr t
     /\ t = str_strip (html_escape s)
     /\ Forall (fun c => c <> 60%N /\ c <> 62%N /\ c <> 34%N /\ c <> 39%N) t)
  /\ (forall v t, sanitize_input v = PStr t -> Forall (fun c => dangerous c = false) t)
  /\ (forall v, (forall s, v <> PStr s) -> sanitize_input v = v).
Proof.
  assert (Hclean : forall s, Forall (fun c => dangerous c = false)
                               (str_strip (html_escape s))).
  { intros s. apply str_strip_Forall, html_escape_clean. }
  split; [|split].
  - intros s. eexists. split; [apply sanitize_input_str|]. split; [done|].
    eapply Forall_impl; [apply Hclean|]. intros c. unfold dangerous.
    rewrite !orb_false_iff, !N.eqb_neq. tauto.
  - intros v t. destruct v; simpl; try discriminate.
    rewrite (re_sub_remove_id _ _ (html_escape_clean s)). intros [= <-]. apply Hclean.
  - intros v Hv. destruct v; try done. by destruct (Hv s).
Qed.

Lemma cnt_lstrip x s : is_space x = false -> cnt (lstrip s) x = cnt s x.
Proof.
  intros Hx. induction s as [|c s IH]; [done|]. simpl lstrip.
  destruct (is_space c) eqn:Hc; [|done].
  rewrite IH. rewrite count_occ_cons_neq; [done|]. intros ->. congruence.
Qed.

Lemma cnt_strip x s : is_space x = false -> cnt (str_strip s) x = cnt s x.
Proof.
  intros Hx. unfold str_strip.
  by rewrite count_occ_rev, cnt_lstrip, count_occ_rev, cnt_lstrip.
Qed.

Lemma cnt_replace c b s x :
  x <> c -> cnt (replace_char c b s) x = (cnt s x + cnt s c * cnt b x)%nat.
Proof.
  intros Hx. unfold replace_char. induction s as [|y s IH]; [done|].
  simpl flat_map. rewrite count_occ_app, IH.
  destruct (N.eqb_spec y c) as [->|Hy].
  - rewrite (count_occ_cons_eq N.eq_dec s (x := c) (y := c)) by done.
    rewrite (count_occ_cons_neq N.eq_dec s (x := c) (y := x)) by done. lia.
  - rewrite (count_occ_cons_neq N.eq_dec s (x := y) (y := c)) by done.
    destruct (N.eq_dec y x) as [->|Hyx].
    + rewrite (count_occ_cons_eq N.eq_dec s (x := x) (y := x)) by done.
      rewrite (count_occ_cons_eq N.eq_dec [] (x := x) (y := x)) by done.
      simpl. lia.
    + rewrite (count_occ_cons_neq N.eq_dec s (x := y) (y := x)) by done.
      rewrite (count_occ_cons_neq N.eq_dec [] (x := y) (y := x)) by done.
      simpl. lia.
Qed.

Lemma cnt_replace_same c b s :
  cnt (replace_char c b s) c = (cnt s c * cnt b c)%nat.
Proof.
  unfold replace_char. induction s as [|y s IH]; [done|].
  simpl flat_map. rewrite count_occ_app, IH.
  destruct (N.eqb_spec y c) as [->|Hy].
  - rewrite (count_occ_cons_eq N.eq_dec s (x := c) (y := c)) by done. lia.
  - rewrite (count_occ_cons_neq N.eq_dec s (x := y) (y := c)) by done.
    rewrite (count_occ_cons_neq N.eq_dec [] (x := y) (y := c)) by done.
    simpl. lia.
Qed.

(** The ampersands after escaping are as many as the special characters
    before, and every one of them brings a semicolon. *)
Lemma html_escape_counts s :
  cnt (html_escape s) 38%N
  = (cnt s 38%N + cnt s 60%N + cnt s 62%N + cnt s 34%N + cnt s 39%N)%nat
  /\ cnt (html_escape s) 59%N
     = (cnt s 59%N + cnt s 38%N + cnt s 60%N + cnt s 62%N + cnt s 34%N + cnt s 39%N)%nat.
Proof.
  unfold html_escape.
  split;
    repeat first [rewrite cnt_replace_same | rewrite cnt_replace by done];
    vm_compute (cnt (lit _) _); lia.
Qed.

(** ** X17 *)

(** X17. [sanitize_input] is not idempotent: when a string contains an
    ampersand, an angle bracket or a quote, sanitising the sanitised
    string changes it again, because the ampersands of the first pass are
    escaped once more. *)
Theorem sanitize_input_escapes_again s :
  Exists (fun c => c = 38%N \/ c = 60%N \/ c = 62%N \/ c = 34%N \/ c = 39%N) s ->
  exists t t',
    sanitize_input (PStr s) = PStr t
    /\ sanitize_input (PStr t) = PStr t'
    /\ (count_occ N.eq_dec t 59%N < count_occ N.eq_dec t' 59%N)%nat
    /\ t' <> t.
Proof.
  intros Hs. exists (str_strip (html_escape s)),
                    (str_strip (html_escape (str_strip (html_escape s)))).
  split; [apply sanitize_input_str|]. split; [apply sanitize_input_str|].
  assert (Hamp : (1 <= cnt (str_strip (html_escape s)) 38%N)%nat).
  { rewrite cnt_strip by done. destruct (html_escape_counts s) as [-> _].
    apply Exists_exists in Hs as (c & Hc & Hsp).
    apply list_elem_of_In in Hc.
    assert (0 < cnt s c)%nat by (by apply count_occ_In).
    destruct Hsp as [->|[->|[->|[->| ->]]]]; lia. }
  assert (Hlt : (cnt (str_strip (html_escape s)) 59%N
                 < cnt (str_strip (html_escape (str_strip (html_escape s)))) 59%N)%nat).
  { rewrite (cnt_strip 59 (html_escape (str_strip _))) by done.
    destruct (html_escape_counts (str_strip (html_escape s))) as [_ ->]. lia. }
  split; [exact Hlt|]. intros Heq. rewrite Heq in Hlt. lia.
Qed.

(** ** Validating a post *)

Lemma too_short_str (data : dict) key s n :
  (0 < n)%nat ->
  data !! key = Some (PStr s) ->
  too_short data key n = Ok (length (str_strip s) <? n)%nat.
Proof.
  intros Hn H. unfold too_short, dict_get, getitem. rewrite H. simpl.
  destruct s as [|c s]; simpl; [|done].
  destruct n; [lia|done].
Qed.

Lemma bad_category_str (data : dict) g :
  data !! "category" = Some (PStr g) ->
  bad_category data
  = Ok (negb (bool_decide (g ∈ [lit "Tutorial"; lit "Artigo"; lit "Estudo de Caso"]))).
Proof.
  intros H. unfold bad_category, dict_get, getitem. rewrite H. simpl.
  assert (E : (bool_decide (g = lit "Tutorial") || (bool_decide (g = lit "Artigo")
              || (bool_decide (g = lit "Estudo de Caso") || false)))
              = bool_decide (g ∈ [lit "Tutorial"; lit "Artigo"; lit "Estudo de Caso"])).
  { apply eq_true_iff_eq.
    rewrite !orb_true_iff, !bool_decide_eq_true, !elem_of_cons, elem_of_nil.
    intuition discriminate. }
  destruct g as [|c g]; simpl.
  - reflexivity.
  - f_equal. f_equal. exact E.
Qed.

(** ** X18 *)

(** X18. For a body whose title, content, category and author are strings,
    [validate_blog_post_data] returns no error exactly when the stripped
    title has at least 3 characters, the stripped content at least 10, the
    category is one of "Tutorial", "Artigo", "Estudo de Caso" (compared as
    it is, not stripped), and the stripped author has at least 2. *)
Theorem validate_blog_post_data_ok (data : dict) title content category author :
  data !! "title" = Some (PStr title) ->
  data !! "content" = Some (PStr content) ->
  data !! "category" = Some (PStr category) ->
  data !! "author" = Some (PStr author) ->
  validate_blog_post_data data = Ok []
  <-> (3 <= length (str_strip title))%nat
      /\ (10 <= length (str_strip content))%nat
      /\ category ∈ [lit "Tutorial"; lit "Artigo"; lit "Estudo de Caso"]
      /\ (2 <= length (str_strip author))%nat.
Proof.
  intros Ht Hc Hg Ha. unfold validate_blog_post_data.
  rewrite (too_short_str _ _ _ 3 ltac:(lia) Ht), (too_short_str _ _ _ 10 ltac:(lia) Hc),
          (bad_category_str _ _ Hg), (too_short_str _ _ _ 2 ltac:(lia) Ha).
  simpl.
  destruct (Nat.ltb_spec (length (str_strip title)) 3);
  destruct (Nat.ltb_spec (length (str_strip content)) 10);
  destruct (bool_decide_reflect
              (category ∈ [lit "Tutorial"; lit "Artigo"; lit "Estudo de Caso"]));
  destruct (Nat.ltb_spec (length (str_strip author)) 2); simpl;
  split; try discriminate; try done; intros (? & ? & ? & ?); try lia; done.
Qed.

(** ** Blog routes *)

Lemma py_eq_str v s : py_eq v (PStr s) = true <-> v = PStr s.
Proof.
  destruct v; simpl; try (split; [discriminate|done]).
  rewrite bool_decide_eq_true. split; [by intros ->|by intros [= ->]].
Qed.

Lemma not_admin_spec (found : option dict) :
  (found = None
   \/ exists user, found = Some user /\ dict_get user "user_type" <> PStr (lit "admin")) ->
  not_admin found = true.
Proof.
  intros [->|(user & -> & Hu)]; [done|]. unfold not_admin.
  apply orb_true_iff. right. apply negb_true_iff.
  destruct (py_eq _ _) eqn:E; [|done]. by apply py_eq_str in E.
Qed.

(** ** X19 *)

(** X19. The three writing blog routes are closed to everyone but
    administrators: when the caller's id resolves to no user, or to a user
    whose [user_type] is not "admin", [create_post], [update_post] and
    [delete_post] leave the posts as they are, whatever else is sent, and
    answer 403 "Admin access required" as soon as the body is not empty
    and the post id has between 1 and 50 characters. *)
Theorem blog_writes_need_admin users identity posts found :
  find_user "_id" identity users = Ok found ->
  (found = None
   \/ exists user, found = Some user /\ dict_get user "user_type" <> PStr (lit "admin")) ->
  (forall now1 now2 data,
     (create_post users identity now1 now2 data posts).2 = posts
     /\ (data <> ∅ -> (create_post users identity now1 now2 data posts).1
                      = jfailure 403 "Admin access required"))
  /\ (forall now post_id data,
     (update_post users identity now post_id data posts).2 = posts
     /\ (data <> ∅ -> bad_post_id post_id = false ->
         (update_post users identity now post_id data posts).1
         = jfailure 403 "Admin access required"))
  /\ (forall post_id,
     (delete_post users identity post_id posts).2 = posts
     /\ (bad_post_id post_id = false ->
         (delete_post users identity post_id posts).1
         = jfailure 403 "Admin access required")).
Proof.
  intros Hf Hna. apply not_admin_spec in Hna.
  split; [|split].
  - intros. unfold create_post, handle_blog, create_post_body, mbind, route_bind, lift.
    destruct (bool_decide_reflect (data = ∅)); simpl; [done|].
    by rewrite Hf, Hna.
  - intros. unfold update_post, handle_blog, update_post_body, mbind, route_bind, lift.
    destruct (bool_decide_reflect (data = ∅)); simpl; [done|].
    destruct (bad_post_id post_id); simpl; [done|].
    by rewrite Hf, Hna.
  - intros. unfold delete_post, handle_blog, delete_post_body, mbind, route_bind, lift.
    destruct (bad_post_id post_id); simpl; [done|].
    by rewrite Hf, Hna.
Qed.

Lemma too_short_false_present (data : dict) key n :
  too_short data key n = Ok false -> getitem data key = Ok (dict_get data key).
Proof.
  unfold too_short. destruct (truthy (dict_get data key)) eqn:E; simpl; [|discriminate].
  intros _. by apply truthy_getitem.
Qed.

Lemma validate_blog_post_data_inv data :
  validate_blog_post_data data = Ok [] ->
  too_short data "title" 3 = Ok false /\ too_short data "content" 10 = Ok false
  /\ bad_category data = Ok false /\ too_short data "author" 2 = Ok false.
Proof.
  unfold validate_blog_post_data, mbind, result_bind.
  destruct (too_short data "title" 3) as [[|]|]; try discriminate;
  destruct (too_short data "content" 10) as [[|]|]; try discriminate;
  destruct (bad_category data) as [[|]|]; try discriminate;
  destruct (too_short data "author" 2) as [[|]|]; try discriminate; done.
Qed.

(** ** X20 *)

(** X20. For an administrator and a body that [validate_blog_post_data]
    passes, [create_post] answers 201 with the id [str(len + 1)] and
    appends one post whose title, content, category, author and status are
    the sanitised values of the body (status "draft" when absent): no
    string stored under these keys contains an angle bracket or a quote. *)
Theorem create_post_stores_clean users identity now1 now2 data posts admin :
  find_user "_id" identity users = Ok (Some admin) ->
  dict_get admin "user_type" = PStr (lit "admin") ->
  validate_blog_post_data data = Ok [] ->
  exists post : dict,
    create_post users identity now1 now2 data posts
    = ({| jstatus := 201;
          jbody := JDoc {["_id" := PStr (lit (pretty (length posts + 1)%nat))]} |},
       posts ++ [post])
    /\ post !! "_id" = Some (PStr (lit (pretty (length posts + 1)%nat)))
    /\ post !! "title" = Some (sanitize_input (dict_get data "title"))
    /\ post !! "content" = Some (sanitize_input (dict_get data "content"))
    /\ post !! "category" = Some (sanitize_input (dict_get data "category"))
    /\ post !! "author" = Some (sanitize_input (dict_get data "author"))
    /\ post !! "status"
       = Some (sanitize_input (dict_get_default data "status" (PStr (lit "draft"))))
    /\ (forall k t, k ∈ ["title"; "content"; "category"; "author"; "status"] ->
          post !! k = Some (PStr t) -> Forall (fun c => dangerous c = false) t).
Proof.
  intros Hf Hadmin Hv.
  destruct (validate_blog_post_data_inv _ Hv) as (Ht & Hc & Hg & Ha).
  assert (Gt := too_short_false_present _ _ _ Ht).
  assert (Gc := too_short_false_present _ _ _ Hc).
  assert (Ga := too_short_false_present _ _ _ Ha).
  assert (Gg : getitem data "category" = Ok (dict_get data "category")).
  { revert Hg. unfold bad_category.
    destruct (truthy (dict_get data "category")) eqn:E; simpl; [|discriminate].
    intros _. by apply truthy_getitem. }
  assert (Hne : data <> ∅).
  { intros ->. unfold getitem in Gt. by rewrite lookup_empty in Gt. }
  assert (Hadm : not_admin (Some admin) = false).
  { unfold not_admin.
    by rewrite (find_user_not_empty _ _ _ _ Hf), Hadmin, py_eq_str_refl. }
  assert (Hclean : forall v t, sanitize_input v = PStr t ->
                     Forall (fun c => dangerous c = false) t).
  { intros v t. destruct v; simpl; try discriminate.
    rewrite (re_sub_remove_id _ _ (html_escape_clean s)). intros [= <-].
    apply str_strip_Forall, html_escape_clean. }
  eexists. split.
  - unfold create_post, handle_blog, create_post_body, mbind, route_bind, lift,
      read_users, write_users.
    rewrite bool_decide_eq_false_2 by done. rewrite Hf, Hadm, Hv.
    rewrite Gt, Gc, Gg, Ga. reflexivity.
  - repeat (split; [by simplify_map_eq|]).
    intros k t Hk Hp. rewrite !elem_of_cons, elem_of_nil in Hk.
    destruct Hk as [->|[->|[->|[->|[->|[]]]]]]; simplify_map_eq; by eapply Hclean.
Qed.

(** ** X21 *)

(** X21. [get_posts] writes nothing and never shows a draft: what it lists
    with a 200 reply is exactly the stored posts whose [status] equals
    "published", in their stored order, and that is its reply whenever
    those posts are serialisable; a post with another status, or with
    none, is never in the list. *)
Theorem get_posts_published posts :
  (get_posts posts).2 = posts
  /\ (forall ds, (get_posts posts).1 = {| jstatus := 200; jbody := JDocs ds |} ->
        ds = filter (fun post : dict =>
                       py_eq (dict_get post "status") (PStr (lit "published")) = true)
                    posts
        /\ Forall (fun d : dict => d ∈ posts
                   /\ dict_get d "status" = PStr (lit "published")) ds)
  /\ (Forall (fun d : dict => forall k v, d !! k = Some v -> jsonable v = true) posts ->
      exists ds, (get_posts posts).1 = {| jstatus := 200; jbody := JDocs ds |}).
Proof.
  unfold get_posts, handle_blog, get_posts_body, mbind, route_bind, lift, read_users.
  set (published := filter _ posts).
  split; [by destruct (jsonify_docs published)|]. split.
  - intros ds. destruct (jsonify_docs published) as [ds'|] eqn:E; simpl; [|discriminate].
    intros [= <-]. apply jsonify_docs_ok in E as ->. split; [done|].
    apply Forall_forall. intros d Hd. unfold published in Hd.
    apply list_elem_of_filter in Hd as [Hst Hd]. split; [done|].
    by apply py_eq_str.
  - intros Hjs. rewrite (jsonify_docs_spec published); [by eexists|].
    apply Forall_forall. intros d Hd. unfold published in Hd.
    apply list_elem_of_filter in Hd as [_ Hd].
    rewrite Forall_forall in Hjs. by apply Hjs.
Qed.

(** * The further properties on concrete requests *)

Lemma toy_hash_verifies : hash_verifies Toy.libs.
Proof.
  intros password salt hashed. simpl. unfold Toy.hashpw, Toy.checkpw.
  destruct (Nat.eqb_spec (length salt) 4) as [Hlen|]; [|discriminate].
  intros [= <-].
  assert (E : (length (salt ++ password) <? 4)%nat = false).
  { apply Nat.ltb_ge. rewrite length_app. lia. }
  rewrite E. f_equal. apply bool_decide_eq_true.
  rewrite drop_app_length'; done.
Qed.

Lemma validate_email_shape_witness :
  validate_email (PStr (lit "a@b.co" ++ [10%N])) = Ok true.
Proof.
  apply (proj2 (validate_email_shape (lit "a@b.co" ++ [10%N]))).
  exists (lit "a"), (lit "b"), (lit "co"), [10%N].
  split; [reflexivity|].
  split; [discriminate|]. split; [repeat constructor|].
  split; [discriminate|]. split; [repeat constructor|].
  split; [repeat constructor|]. split; [repeat constructor|].
  right. reflexivity.
Defined.

Lemma accepted_email_normalised_witness :
  exists core,
    (lit "User@Example.com" = core \/ lit "User@Example.com" = core ++ [10%N])
    /\ normalize_email (L := Toy.libs) (PStr (lit "User@Example.com"))
       = Ok (map ascii_lower core)
    /\ Forall (fun c => (c < 128)%N /\ is_space c = false /\ is_AZ c = false)
         (map ascii_lower core).
Proof.
  apply (@accepted_email_normalised Toy.libs toy_libs_spec). reflexivity.
Defined.

Lemma register_then_login_witness :
  status (login (L := Toy.libs) 5 6 (Toy.credentials " USER@example.com " "Valid1Pass")
            (register (L := Toy.libs) Toy.salt 1000
               (Toy.request "Ann" "User@Example.com" "Valid1Pass") []).2).1 = 200.
Proof.
  apply (register_then_login (L := Toy.libs) Toy.salt 1000
           (Toy.request "Ann" "User@Example.com" "Valid1Pass") [] 5 6
           (Toy.credentials " USER@example.com " "Valid1Pass") (lit "user@example.com")).
  - exact toy_hash_verifies.
  - reflexivity.
  - reflexivity.
  - repeat split; reflexivity.
Defined.

Lemma login_email_insensitive_witness :
  login (L := Toy.libs) 5 6 (Toy.credentials " USER@example.com " "wrong") Toy.db1
  = login (L := Toy.libs) 5 6 (Toy.credentials "user@example.com" "wrong") Toy.db1.
Proof.
  apply (login_email_insensitive (L := Toy.libs) 5 6 _ _ Toy.db1
           (lit "user@example.com") (PStr (lit "wrong")));
    repeat split; reflexivity.
Defined.

Lemma login_preserves_documents_witness :
  exists d' : dict,
    (login (L := Toy.libs) 5 6 (Toy.credentials "user@example.com" "wrong") Toy.db1).2
      !! 0%nat = Some d'
    /\ d' !! "password" = Toy.ann !! "password".
Proof.
  destruct (login_preserves_documents (L := Toy.libs) 5 6
              (Toy.credentials "user@example.com" "wrong") Toy.db1) as [_ H].
  destruct (H 0%nat Toy.ann) as (d' & Hd & _ & Hp & _); [reflexivity|].
  exists d'. split; assumption.
Defined.

Lemma change_password_success_witness :
  exists i,
    change_password (L := Toy.libs) Toy.salt (PStr (lit "1"))
      (Toy.change "Valid1Pass" "Other2Pass") Toy.db1
    = ({| status := 200; payload := SuccessMessage "Password changed successfully" |},
       <[i := <["password" := PBytes (Toy.salt ++ lit "Other2Pass")]> Toy.ann]> Toy.db1).
Proof.
  destruct (change_password_success (L := Toy.libs) Toy.salt (PStr (lit "1"))
              (Toy.change "Valid1Pass" "Other2Pass") Toy.db1 "Password is valid"
              Toy.ann Toy.ann_hash (Toy.salt ++ lit "Other2Pass"))
    as (i & _ & Hrun & _); try reflexivity.
  exists i. exact Hrun.
Defined.

Lemma get_profile_view_witness :
  (get_profile (L := Toy.libs) (PStr (lit "7")) Toy.db1).1 = jfailure 404 "User not found"
  /\ exists reply : dict,
       (get_profile (L := Toy.libs) (PStr (lit "1")) Toy.db1).1
       = {| jstatus := 200; jbody := JDoc reply |}
       /\ reply !! "password" = None.
Proof.
  destruct (get_profile_view (L := Toy.libs) (PStr (lit "7")) Toy.db1) as (_ & H404 & _).
  destruct (get_profile_view (L := Toy.libs) (PStr (lit "1")) Toy.db1) as (_ & _ & H200).
  split; [apply H404; reflexivity|].
  destruct (H200 Toy.ann (PStr (lit "1")) (PStr (lit "Ann"))
              (PStr (lit "user@example.com")) (PStr (lit "member")) (PDatetime 1000))
    as (reply & Hr & _ & _ & _ & _ & _ & _ & _ & Hp); try reflexivity.
  - repeat constructor.
  - exists reply. split; assumption.
Defined.

Lemma user_ids_stay_positional_witness :
  ids_sequential
    (register (L := Toy.libs) Toy.salt 2000
       (Toy.request "Bob" "bob@example.com" "Valid1Pass") Toy.db1).2 = true
  /\ ids_sequential (update_user (lit "1") Sample.unlock_request Toy.db1).2 = true.
Proof.
  destruct (user_ids_stay_positional (L := Toy.libs) Toy.db1)
    as (Hreg & _ & _ & _ & _ & Hupd & _); [reflexivity|].
  split; [apply Hreg|apply Hupd].
Defined.

Lemma register_then_profile_witness :
  exists user_id token view (reply : dict),
    payload (register (L := Toy.libs) Toy.salt 2000
               (Toy.request "Bob" "bob@example.com" "Valid1Pass") Toy.db1).1
    = RegisterData user_id token view
    /\ (get_profile (L := Toy.libs) (PStr user_id)
          (register (L := Toy.libs) Toy.salt 2000
             (Toy.request "Bob" "bob@example.com" "Valid1Pass") Toy.db1).2).1
       = {| jstatus := 200; jbody := JDoc reply |}
    /\ reply !! "name" = Some (view_name view)
    /\ reply !! "created_at" = Some (PDatetime 2000).
Proof.
  destruct (register_then_profile (L := Toy.libs) Toy.salt 2000
              (Toy.request "Bob" "bob@example.com" "Valid1Pass") Toy.db1)
    as (uid & tok & view & reply & H1 & H2 & _ & H3 & _ & _ & H4 & _);
    try reflexivity.
  exists uid, tok, view, reply. repeat split; assumption.
Defined.

Lemma get_users_drops_hashes_witness :
  login (L := Toy.libs) 5 6 (Toy.credentials "user@example.com" "Valid1Pass")
    (get_users Toy.db1).2
  = ({| status := 500; payload := Failure (StrOfExn (KeyError "password")) |},
     (get_users Toy.db1).2).
Proof.
  destruct (get_users_drops_hashes (L := Toy.libs) Toy.db1) as [_ H].
  apply (H 5 6 _ (lit "user@example.com") (PStr (lit "Valid1Pass")) Toy.ann);
    [repeat split|..]; reflexivity.
Defined.


Lemma update_user_effect_witness :
  exists d' : dict,
    update_user (lit "1") Sample.unlock_request Toy.db1
    = ({| jstatus := 200; jbody := JMessage "User updated successfully" |},
       <[0%nat := d']> Toy.db1)
    /\ is_locked d' 0 = Ok false.
Proof.
  destruct (update_user_effect (lit "1") Sample.unlock_request Toy.db1)
    as (_ & _ & _ & H).
  destruct (H 0%nat Toy.ann) as (d' & Hrun & _ & _ & Hlock); try reflexivity.
  exists d'. split; [exact Hrun|]. apply Hlock. reflexivity.
Defined.

Lemma contact_id_reused_after_delete_witness :
  exists a b : dict,
    (create_contact 9 Sample.contact_request
       (delete_contact (lit "1") Sample.contacts).2).2 !! 0%nat = Some a
    /\ (create_contact 9 Sample.contact_request
          (delete_contact (lit "1") Sample.contacts).2).2 !! 1%nat = Some b
    /\ a !! "_id" = Some (PStr (lit "2"))
    /\ b !! "_id" = Some (PStr (lit "2")).
Proof.
  destruct (contact_id_reused_after_delete Sample.contacts 0 9 Sample.contact_request)
    as (a & b & _ & _ & Ha & Hb & Ia & Ib); [reflexivity|simpl; lia|reflexivity|].
  exists a, b. repeat split; assumption.
Defined.

Lemma contact_ids_kept_witness :
  ids_sequential (create_contact 9 Sample.contact_request Sample.contacts).2 = true
  /\ delete_contact (lit "7") Sample.contacts
     = (jfailure 404 "Contact not found", Sample.contacts).
Proof.
  destruct (contact_ids_kept Sample.contacts) as (Hc & _ & _ & H404); [reflexivity|].
  split; [apply Hc|]. apply (H404 (lit "7") ∅). reflexivity.
Defined.

Lemma sanitize_input_clean_witness :
  Forall (fun c => dangerous c = false) (lit "&lt;b&gt;Tom &amp; Jerry&lt;/b&gt;").
Proof.
  destruct sanitize_input_clean as (_ & H & _).
  apply (H (PStr (lit " <b>Tom & Jerry</b> "))). reflexivity.
Defined.

Lemma sanitize_input_escapes_again_witness :
  exists t t',
    sanitize_input (PStr (lit "Tom & Jerry")) = PStr t
    /\ sanitize_input (PStr t) = PStr t'
    /\ t' <> t.
Proof.
  destruct (sanitize_input_escapes_again (lit "Tom & Jerry"))
    as (t & t' & H1 & H2 & _ & H3).
  - apply Exists_exists. exists 38%N. split; [|by left].
    apply list_elem_of_In. simpl. auto 10.
  - exists t, t'. repeat split; assumption.
Defined.

Lemma validate_blog_post_data_ok_witness :
  validate_blog_post_data (Sample.post_request "Hello") = Ok [].
Proof.
  apply (validate_blog_post_data_ok (Sample.post_request "Hello") (lit "Hello")
           (lit "Ten characters at least") (lit "Tutorial") (lit "Ana"));
    try reflexivity.
  repeat split; try (simpl; lia). apply list_elem_of_here.
Defined.

Lemma blog_writes_need_admin_witness :
  create_post Sample.users (PStr (lit "2")) 1 2 (Sample.post_request "Hello") Sample.posts
  = (jfailure 403 "Admin access required", Sample.posts)
  /\ delete_post Sample.users (PStr (lit "9")) (lit "1") Sample.posts
     = (jfailure 403 "Admin access required", Sample.posts).
Proof.
  split.
  - destruct (blog_writes_need_admin Sample.users (PStr (lit "2")) Sample.posts
                (Some Sample.member)) as (Hc & _ & _).
    + reflexivity.
    + right. exists Sample.member. split; [reflexivity|discriminate].
    + destruct (Hc 1 2 (Sample.post_request "Hello")) as [Hdb Hr].
      rewrite <- Hdb at 2. rewrite <- Hr; [by destruct (create_post _ _ _ _ _ _)|].
      discriminate.
  - destruct (blog_writes_need_admin Sample.users (PStr (lit "9")) Sample.posts None)
      as (_ & _ & Hd).
    + reflexivity.
    + by left.
    + destruct (Hd (lit "1")) as [Hdb Hr].
      rewrite <- Hdb at 2. rewrite <- Hr; [by destruct (delete_post _ _ _ _)|].
      reflexivity.
Defined.

Lemma create_post_stores_clean_witness :
  exists post : dict,
    create_post Sample.users (PStr (lit "1")) 1 2
      (Sample.post_request "<i>Hello</i>") Sample.posts
    = ({| jstatus := 201; jbody := JDoc {["_id" := PStr (lit "3")]} |},
       Sample.posts ++ [post])
    /\ post !! "title" = Some (PStr (lit "&lt;i&gt;Hello&lt;/i&gt;")).
Proof.
  destruct (create_post_stores_clean Sample.users (PStr (lit "1")) 1 2
              (Sample.post_request "<i>Hello</i>") Sample.posts Sample.admin)
    as (post & Hrun & _ & Ht & _); try reflexivity.
  exists post. split; [exact Hrun|exact Ht].
Defined.

Lemma get_posts_published_witness :
  exists ds,
    (get_posts Sample.posts).1 = {| jstatus := 200; jbody := JDocs ds |}
    /\ Forall (fun d : dict => dict_get d "status" = PStr (lit "published")) ds.
Proof.
  destruct (get_posts_published Sample.posts) as (_ & Hlist & Hok).
  destruct Hok as [ds Hds].
  - repeat constructor; intros k v Hk;
      repeat (apply lookup_insert_Some in Hk as [[_ <-]|[_ Hk]]; [reflexivity|]);
      by rewrite lookup_empty in Hk.
  - exists ds. split; [exact Hds|].
    destruct (Hlist ds Hds) as [_ H].
    eapply Forall_impl; [exact H|]. by intros d [_ ?].
Defined.
